(** * Response rewriting for reasoning models: a shallow embedding

    The repository ships four revisions of one browser script that wraps
    [window.fetch]: two in [src/reason.js] and two in [src/unnamed/part_000].
    Each revision defines [processStreamingResponse] (server-sent events) and
    [processNonStreamingResponse] (a single JSON document).  The revisions are
    embedded side by side, one module each:

    - [ReasonA] : [src/reason.js], first script  (no reasoning markers, footer
                  at the sentinel or at the end of transport);
    - [ReasonB] : [src/reason.js], second script (markers, test [=== null]);
    - [PartC]   : [src/unnamed/part_000], first script (markers, test
                  [!delta.content], footer at the end of transport only);
    - [PartD]   : [src/unnamed/part_000], second script (markers, citations
                  removed from forwarded events).

    The wrapper itself, [window.fetch] with its checks [isDeepseekURL],
    [isDeepseekModel] and [isTitleRequest], has the same text in the four
    revisions and is embedded once ([window_fetch]), over the two functions
    of a revision.

    Text is held by its UTF-8 byte sequence ([string]).  [TextDecoder] is the
    streaming UTF-8 decoder of the Encoding standard ([decode]): it drops a
    leading byte order mark, replaces ill-formed bytes and keeps an unfinished
    sequence for the next chunk.  [TextEncoder] is the identity on text so
    held, and the line feed is a single byte in UTF-8, so line splitting is
    the same on these bytes as on the decoded text.  What the JavaScript
    engine supplies and the repository does not define ([JSON.parse],
    [JSON.stringify], number formatting, the clock) is taken as a
    parameter. *)

From Stdlib Require Import String Ascii List Bool Arith Lia DecimalString.
Import ListNotations.
Open Scope string_scope.
Open Scope list_scope.

Set Implicit Arguments.

(** ** Strings as the scripts use them *)

Definition LF : ascii := "010"%char.
Definition nl : string := String LF EmptyString.

(** [s.startsWith(p)] *)
Definition startsWith (s p : string) : bool := String.prefix p s.

(** [s.includes(p)] *)
Fixpoint includes (s p : string) : bool :=
  String.prefix p s ||
  match s with
  | EmptyString => false
  | String _ s' => includes s' p
  end.

(** [s.slice(n)] for [0 <= n] *)
Fixpoint slice (n : nat) (s : string) : string :=
  match n, s with
  | O, _ => s
  | S _, EmptyString => EmptyString
  | S n', String _ s' => slice n' s'
  end.

(** [s.split('\n')]: never empty, one more segment than there are line feeds. *)
Fixpoint split (s : string) : list string :=
  match s with
  | EmptyString => [EmptyString]
  | String c s' =>
      if Ascii.eqb c LF then EmptyString :: split s'
      else match split s' with
           | [] => [String c EmptyString]
           | seg :: segs => String c seg :: segs
           end
  end.

(** [l.join(sep)] on strings *)
Definition join (sep : string) (l : list string) : string := String.concat sep l.

(** [s.replace(/\n/g, '\n> ')] *)
Fixpoint quote_breaks (s : string) : string :=
  match s with
  | EmptyString => EmptyString
  | String c s' =>
      if Ascii.eqb c LF then String LF ("> " ++ quote_breaks s')
      else String c (quote_breaks s')
  end.

(** The bytes a sequence of chunks carries. *)
Fixpoint bytes_of (chunks : list string) : string :=
  match chunks with
  | [] => EmptyString
  | c :: rest => c ++ bytes_of rest
  end.

(** ** The decoder

    [new TextDecoder()], called with [{ stream: true }] on every chunk: the
    UTF-8 decoder of the Encoding standard.  An ill-formed sequence comes out
    as U+FFFD, a byte order mark at the very start of the stream is dropped,
    and the bytes of a sequence that the chunk leaves unfinished wait for the
    next chunk.  The scripts never flush the decoder.  The text is held by
    its UTF-8 bytes, so a well-formed sequence comes out as the bytes that
    came in. *)

Definition REPLACEMENT : string :=
  String "239"%char (String "191"%char (String "189"%char EmptyString)).

Definition BOM : string :=
  String "239"%char (String "187"%char (String "191"%char EmptyString)).

Record decoder : Type := {
  bom_open : bool;     (* nothing has come out yet *)
  pending : string;    (* the bytes of the sequence under way *)
  needed : nat;        (* how many bytes it still lacks *)
  lower : nat;         (* the bounds of its next byte *)
  upper : nat
}.

Definition fresh_decoder : decoder :=
  {| bom_open := true; pending := EmptyString; needed := 0;
     lower := 128; upper := 191 |}.

(** A code point or a replacement character comes out. *)
Definition deliver (d : decoder) (t : string) : string * decoder :=
  (if bom_open d && String.eqb t BOM then EmptyString else t,
   {| bom_open := false; pending := EmptyString; needed := 0;
      lower := 128; upper := 191 |}).

Definition await_bytes (d : decoder) (c : ascii) (k lo hi : nat) : string * decoder :=
  (EmptyString,
   {| bom_open := bom_open d; pending := String c EmptyString; needed := k;
      lower := lo; upper := hi |}).

(** A byte met while no sequence is under way. *)
Definition lead_byte (d : decoder) (c : ascii) : string * decoder :=
  let b := nat_of_ascii c in
  if (b <=? 127)%nat then deliver d (String c EmptyString)
  else if ((194 <=? b) && (b <=? 223))%nat then await_bytes d c 1 128 191
  else if ((224 <=? b) && (b <=? 239))%nat then
    await_bytes d c 2 (if (b =? 224)%nat then 160 else 128)
                      (if (b =? 237)%nat then 159 else 191)
  else if ((240 <=? b) && (b <=? 244))%nat then
    await_bytes d c 3 (if (b =? 240)%nat then 144 else 128)
                      (if (b =? 244)%nat then 143 else 191)
  else deliver d REPLACEMENT.

(** One byte.  A byte that cannot continue the sequence under way ends it
    with a replacement character and is read again as a first byte. *)
Definition decode_byte (d : decoder) (c : ascii) : string * decoder :=
  match needed d with
  | O => lead_byte d c
  | S k =>
      let b := nat_of_ascii c in
      if ((lower d <=? b) && (b <=? upper d))%nat then
        match k with
        | O => deliver d (pending d ++ String c EmptyString)
        | S _ =>
            (EmptyString,
             {| bom_open := bom_open d;
                pending := pending d ++ String c EmptyString;
                needed := k; lower := 128; upper := 191 |})
        end
      else
        let (t, d') := deliver d REPLACEMENT in
        let (t', d'') := lead_byte d' c in
        ((t ++ t')%string, d'')
  end.

(** [decoder.decode(value, { stream: true })] *)
Fixpoint decode (d : decoder) (value : string) : string * decoder :=
  match value with
  | EmptyString => (EmptyString, d)
  | String c rest =>
      let (t, d') := decode_byte d c in
      let (t', d'') := decode d' rest in
      ((t ++ t')%string, d'')
  end.

(** The text the decoder yields, chunk after chunk. *)
Fixpoint decoded (d : decoder) (chunks : list string) : string :=
  match chunks with
  | [] => EmptyString
  | value :: rest =>
      let (t, d') := decode d value in
      (t ++ decoded d' rest)%string
  end.

(** The text a sequence of chunks carries. *)
Definition text_of (chunks : list string) : string :=
  decoded fresh_decoder chunks.

(** Every byte is below 128. *)
Fixpoint ascii_only (s : string) : bool :=
  match s with
  | EmptyString => true
  | String c rest => (nat_of_ascii c <=? 127)%nat && ascii_only rest
  end.

(** The text made of the given lines, each ended by a line feed. *)
Fixpoint lines_text (lines : list string) : string :=
  match lines with
  | [] => EmptyString
  | l :: rest => l ++ nl ++ lines_text rest
  end.

(** The lines of a text that end in a line feed, and what follows the last
    line feed. *)
Definition complete_lines (text : string) : list string :=
  removelast (split text).

Definition partial_line (text : string) : string :=
  last (split text) EmptyString.

(** Decimal rendering of an array index or of [i + 1]. *)
Definition nat_to_string (n : nat) : string :=
  NilEmpty.string_of_uint (Nat.to_uint n).

(** The fixed texts of the scripts. *)
Definition DATA_MARKER : string := "data: ".
Definition DONE_TOKEN : string := "[DONE]".
Definition THINKING_HEADER : string := "💭 Thinking..." ++ nl ++ nl ++ "> ".
Definition RULE : string := nl ++ nl ++ "---" ++ nl ++ nl.

(** [s.trim()] is the empty string: every character of [s] is white space or
    a line terminator of ECMAScript, read off the UTF-8 encoding. *)
Definition ascii_space (n : nat) : bool :=
  ((9 <=? n) && (n <=? 13) || (n =? 32))%nat.

Definition wide_space (a b c : nat) : bool :=
  ((a =? 225) && (b =? 154) && (c =? 128)                      (* U+1680 *)
  || (a =? 226) && (b =? 128) && (128 <=? c) && (c <=? 138)   (* U+2000..U+200A *)
  || (a =? 226) && (b =? 128) && ((c =? 168) || (c =? 169) || (c =? 175))
                                                              (* U+2028 U+2029 U+202F *)
  || (a =? 226) && (b =? 129) && (c =? 159)                   (* U+205F *)
  || (a =? 227) && (b =? 128) && (c =? 128)                   (* U+3000 *)
  || (a =? 239) && (b =? 187) && (c =? 191))%nat.             (* U+FEFF *)

Fixpoint trims_to_empty (s : string) : bool :=
  match s with
  | EmptyString => true
  | String c1 r1 =>
      if ascii_space (nat_of_ascii c1) then trims_to_empty r1
      else match r1 with
           | EmptyString => false
           | String c2 r2 =>
               if ((nat_of_ascii c1 =? 194) && (nat_of_ascii c2 =? 160))%nat  (* U+00A0 *)
               then trims_to_empty r2
               else match r2 with
                    | EmptyString => false
                    | String c3 r3 =>
                        if wide_space (nat_of_ascii c1) (nat_of_ascii c2) (nat_of_ascii c3)
                        then trims_to_empty r3
                        else false
                    end
           end
  end.

(** ** What the engine supplies *)

(** Numbers are IEEE doubles in the engine; the scripts only test them for
    truth, print them and subtract two clock readings. *)
Class JsNumber : Type := {
  number : Type;
  num_truthy : number -> bool;
  num_to_string : number -> string;
  (** [Math.round((now - start) / 1000)], [start] being a number or [null] *)
  elapsed_seconds : option number -> number -> number
}.

(** A value produced by [JSON.parse].  Objects keep their properties in the
    order the engine enumerates them. *)
#[warnings="-register-all"]
Inductive json {N : JsNumber} : Type :=
| JNull
| JBool (b : bool)
| JNum (n : number)
| JStr (s : string)
| JArr (items : list json)
| JObj (props : list (string * json)).

Class JsRuntime {N : JsNumber} : Type := {
  (** [JSON.parse]; [None] when it throws a [SyntaxError] *)
  JSON_parse : string -> option json;
  JSON_stringify : json -> string;
  (** the indexed properties of a string, one per UTF-16 code unit *)
  str_entries : string -> list (string * json);
  (** [v > 0] for a value that is neither an array nor a string *)
  js_gt_zero : json -> bool
}.

Section Values.
Context {N : JsNumber} {RT : JsRuntime}.

(** A property read yields a value or [undefined] ([None]). *)
Definition jsval : Type := option json.

(** ToBoolean *)
Definition truthy (v : json) : bool :=
  match v with
  | JNull => false
  | JBool b => b
  | JNum n => num_truthy n
  | JStr s => negb (String.eqb s EmptyString)
  | JArr _ => true
  | JObj _ => true
  end.

Definition truthy_val (v : jsval) : bool :=
  match v with
  | None => false
  | Some x => truthy x
  end.

Fixpoint assoc (k : string) (l : list (string * json)) : jsval :=
  match l with
  | [] => None
  | (k', v) :: l' => if String.eqb k k' then Some v else assoc k l'
  end.

(** [{...o, k: v}]: the property keeps its place when [o] has it already. *)
Fixpoint obj_set (k : string) (v : json) (l : list (string * json))
  : list (string * json) :=
  match l with
  | [] => [(k, v)]
  | (k', v') :: l' =>
      if String.eqb k k' then (k', v) :: l' else (k', v') :: obj_set k v l'
  end.

(** [delete o.k] *)
Fixpoint obj_delete (k : string) (l : list (string * json))
  : list (string * json) :=
  match l with
  | [] => []
  | (k', v') :: l' =>
      if String.eqb k k' then obj_delete k l' else (k', v') :: obj_delete k l'
  end.

(** [v.k] for a value [v] that is not [null], [k] one of the names the scripts
    read ([citations], [choices], [delta], [message], [reasoning], [content]):
    only an object can own them, no prototype defines them. *)
Definition prop (k : string) (v : json) : jsval :=
  match v with
  | JObj l => assoc k l
  | _ => None
  end.

(** [v?.k] *)
Definition opt_prop (k : string) (v : jsval) : jsval :=
  match v with
  | None | Some JNull => None
  | Some x => prop k x
  end.

Fixpoint index_entries (i : nat) (l : list json) : list (string * json) :=
  match l with
  | [] => []
  | x :: l' => (nat_to_string i, x) :: index_entries (S i) l'
  end.

(** The own enumerable properties copied by [{...v}]. *)
Definition spread (v : json) : list (string * json) :=
  match v with
  | JObj l => l
  | JArr l => index_entries 0 l
  | JStr s => str_entries s
  | _ => []
  end.

(** [v[0]] for [v] not [null] *)
Definition index0 (v : json) : jsval :=
  match v with
  | JArr l => hd_error l
  | _ => assoc "0" (spread v)
  end.

(** [v?.[0]] *)
Definition opt_index0 (v : jsval) : jsval :=
  match v with
  | None | Some JNull => None
  | Some x => index0 x
  end.

(** [data?.choices?.[0]] and [data?.choices?.[0]?.delta] *)
Definition first_choice (data : json) : jsval :=
  opt_index0 (opt_prop "choices" (Some data)).

Definition first_delta (data : json) : jsval :=
  opt_prop "delta" (first_choice data).

(** ToString, as a template literal applies it; [None] when it throws a
    [TypeError].  An object is converted by its [toString]: the one of
    [Object.prototype], unless the object owns a [toString] key, whose value
    cannot be called (then [valueOf] gives no primitive either).  An array
    joins the conversions of its elements, [null] counting as empty. *)
Fixpoint js_to_string (v : json) : option string :=
  match v with
  | JNull => Some "null"
  | JBool true => Some "true"
  | JBool false => Some "false"
  | JNum n => Some (num_to_string n)
  | JStr s => Some s
  | JArr l =>
      option_map (join ",")
        ((fix elements (l : list json) : option (list string) :=
            match l with
            | [] => Some []
            | x :: rest =>
                match (match x with
                       | JNull => Some EmptyString
                       | _ => js_to_string x
                       end), elements rest with
                | Some t, Some ts => Some (t :: ts)
                | _, _ => None
                end
            end) l)
  | JObj props =>
      match assoc "toString" props with
      | Some _ => None
      | None => Some "[object Object]"
      end
  end.

Definition val_to_string (v : jsval) : option string :=
  match v with
  | None => Some "undefined"
  | Some x => js_to_string x
  end.

(** [v.length > 0] for a truthy [v] *)
Definition length_positive (v : json) : bool :=
  match v with
  | JArr l => negb (Nat.eqb (List.length l) 0)
  | JStr s => negb (String.eqb s EmptyString)
  | JObj l => match assoc "length" l with
              | Some x => js_gt_zero x
              | None => false
              end
  | _ => false
  end.

(** The receiver of [.map(...)]: only an array has the method. *)
Definition array_items (v : json) : option (list json) :=
  match v with
  | JArr l => Some l
  | _ => None
  end.

(** [l.map((citation, i) => `[${i + 1}]SEP${citation}`)], [i] counted from
    [start]; [None] when the conversion of a citation throws. *)
Fixpoint numbered_from (start : nat) (sep : string) (l : list json)
  : option (list string) :=
  match l with
  | [] => Some []
  | c :: l' =>
      match js_to_string c, numbered_from (S start) sep l' with
      | Some t, Some entries =>
          Some (("[" ++ nat_to_string (S start) ++ sep ++ t)%string :: entries)
      | _, _ => None
      end
  end.

Definition numbered (sep : string) (l : list json) : option string :=
  option_map (join nl) (numbered_from 0 sep l).

(** The two entry formats found in the scripts. *)
Definition SPACED : string := "] > ".
Definition TIGHT : string := "]> ".

(** [{ choices: [{ delta: { content } }] }] *)
Definition bare_event (content : string) : json :=
  JObj [("choices", JArr [JObj [("delta", JObj [("content", JStr content)])]])].

(** [{ ...data, choices: [{ ...data.choices[0], delta: { content } }] }] *)
Definition spread_event (data choice : json) (content : string) : json :=
  JObj (obj_set "choices"
          (JArr [JObj (obj_set "delta" (JObj [("content", JStr content)])
                         (spread choice))])
          (spread data)).

Definition separator_text (seconds : number) : string :=
  nl ++ nl ++ "💡 Thought for " ++ num_to_string seconds ++ " seconds" ++ RULE.

End Values.

(** ** The output queue, the per-response variables and the script monad *)

(** How a statement completes. *)
Inductive completion (A : Type) : Type :=
| Normal (a : A)
| Thrown.
Arguments Thrown {A}.

Section Machine.
Context {N : JsNumber} {RT : JsRuntime}.

(** One [controller.enqueue], tagged by the statement that issued it. *)
Inductive emit : Type :=
| Header (ev : json)      (* thinkingHeader *)
| Fragment (ev : json)    (* modifiedData: a rewritten reasoning fragment *)
| Separator (ev : json)   (* separatorData *)
| Footer (ev : json)      (* the citation message *)
| Cleaned (ev : json)     (* cleanData *)
| Forward (line : string) (* `${line}\n` *).

(** [`data: ${JSON.stringify(ev)}\n\n`] *)
Definition event_text (ev : json) : string :=
  DATA_MARKER ++ JSON_stringify ev ++ nl ++ nl.

(** The bytes handed to the consumer. *)
Definition encode (e : emit) : string :=
  match e with
  | Header ev | Fragment ev | Separator ev | Footer ev | Cleaned ev => event_text ev
  | Forward line => line ++ nl
  end.

Definition encode_all (out : list emit) : string :=
  bytes_of (map encode out).

(** The [let] variables of [processStreamingResponse], all revisions together:
    [ReasonA] declares [citations] only, [ReasonB] and [PartC] lack
    [citationsReceived]; [citations] is [null] ([JNull]) at first, [[]] in
    [PartD].  ([buffer] is threaded by the read loop; [responseFinished] of
    [PartC] is written once, when the loop is left, and never read again.) *)
Record session : Type := {
  reasoningStarted : bool;
  reasoningEnded : bool;
  startThinkingTime : option number;
  citations : json;
  citationsReceived : bool
}.

(** A statement: it may enqueue, assign the variables, and throw; what was
    enqueued and assigned before a throw stays. *)
Definition script (A : Type) : Type :=
  session -> list emit * session * completion A.

Definition ret {A} (a : A) : script A := fun st => ([], st, Normal a).

Definition bind {A B} (m : script A) (k : A -> script B) : script B :=
  fun st =>
    match m st with
    | (out, st', Normal a) =>
        match k a st' with
        | (out', st'', r) => (out ++ out', st'', r)
        end
    | (out, st', Thrown) => (out, st', Thrown)
    end.

Definition throw {A} : script A := fun st => ([], st, Thrown).

Definition enqueue (e : emit) : script unit := fun st => ([e], st, Normal tt).

Definition vars : script session := fun st => ([], st, Normal st).

Definition assign (f : session -> session) : script unit :=
  fun st => ([], f st, Normal tt).

(** [try { body } catch { handler }] *)
Definition try_catch {A} (body handler : script A) : script A :=
  fun st =>
    match body st with
    | (out, st', Thrown) =>
        match handler st' with
        | (out', st'', r) => (out ++ out', st'', r)
        end
    | done => done
    end.

(** A partial engine operation: [None] throws. *)
Definition must {A} (o : option A) : script A :=
  match o with
  | Some a => ret a
  | None => throw
  end.

End Machine.

Declare Scope script_scope.
Delimit Scope script_scope with script.
Notation "x <- m ;; k" := (bind m (fun x => k))
  (at level 61, m at next level, right associativity) : script_scope.
Notation "m ;; k" := (bind m (fun _ => k))
  (at level 61, right associativity) : script_scope.
Open Scope script_scope.

Section Steps.
Context {N : JsNumber} {RT : JsRuntime}.

Definition set_citations (v : json) (st : session) : session :=
  {| reasoningStarted := reasoningStarted st;
     reasoningEnded := reasoningEnded st;
     startThinkingTime := startThinkingTime st;
     citations := v;
     citationsReceived := citationsReceived st |}.

Definition set_citationsReceived (b : bool) (st : session) : session :=
  {| reasoningStarted := reasoningStarted st;
     reasoningEnded := reasoningEnded st;
     startThinkingTime := startThinkingTime st;
     citations := citations st;
     citationsReceived := b |}.

Definition set_startThinkingTime (t : number) (st : session) : session :=
  {| reasoningStarted := reasoningStarted st;
     reasoningEnded := reasoningEnded st;
     startThinkingTime := Some t;
     citations := citations st;
     citationsReceived := citationsReceived st |}.

Definition set_reasoningStarted (b : bool) (st : session) : session :=
  {| reasoningStarted := b;
     reasoningEnded := reasoningEnded st;
     startThinkingTime := startThinkingTime st;
     citations := citations st;
     citationsReceived := citationsReceived st |}.

Definition set_reasoningEnded (b : bool) (st : session) : session :=
  {| reasoningStarted := reasoningStarted st;
     reasoningEnded := b;
     startThinkingTime := startThinkingTime st;
     citations := citations st;
     citationsReceived := citationsReceived st |}.

(** [JSON.parse(line.slice(6))] *)
Definition parse_payload (line : string) : script json :=
  must (JSON_parse (slice 6 line)).

(** [data.citations]: reading a property of [null] throws. *)
Definition read_citations (data : json) : script jsval :=
  match data with
  | JNull => throw
  | _ => ret (prop "citations" data)
  end.

(** [v.map((citation, i) => ...).join('\n')] *)
Definition numbered_list (sep : string) (v : json) : script string :=
  items <- must (array_items v) ;;
  must (numbered sep items).

(** [delta.reasoning.replace(/\n/g, '\n> ')] on a truthy [delta.reasoning]:
    only a string has the method. *)
Definition replace_breaks (v : jsval) : script string :=
  match v with
  | Some (JStr s) => ret (quote_breaks s)
  | _ => throw
  end.

Definition is_null (v : jsval) : bool :=
  match v with
  | Some JNull => true
  | _ => false
  end.

Definition is_undefined (v : jsval) : bool :=
  match v with
  | None => true
  | Some _ => false
  end.

(** [if (data.citations && !citations) citations = data.citations;] *)
Definition capture_citations (data : json) : script unit :=
  c <- read_citations data ;;
  st <- vars ;;
  match c with
  | Some v =>
      if truthy v && negb (truthy (citations st))
      then assign (set_citations v)
      else ret tt
  | None => ret tt
  end.

(** ** The read loop, common to the four revisions *)

(** [buffer += text; lines = buffer.split('\n'); buffer = lines.pop() || ''] *)
Definition or_empty (s : string) : string :=
  match s with
  | EmptyString => EmptyString
  | _ => s
  end.

Definition read_chunk (buffer text : string) : list string * string :=
  let lines := split (buffer ++ text) in
  (removelast lines, or_empty (last lines EmptyString)).

Inductive outcome : Type :=
| Closed    (* controller.close() *)
| Errored   (* controller.error(error) *).

Section Loop.
(** [clock n] is what [performance.now()] returns while line number [n] of
    the response is processed. *)
Variable clock : nat -> number.
Variable process_line : number -> string -> script unit.
(** what the script does once [reader.read()] reports [done] *)
Variable finish : script unit.

Fixpoint for_lines (n : nat) (lines : list string) : script unit :=
  match lines with
  | [] => ret tt
  | line :: rest => process_line (clock n) line ;; for_lines (S n) rest
  end.

(** The chunks are those the reader delivers before it reports [done]; [d]
    is the state of the decoder. *)
Fixpoint read_loop (d : decoder) (buffer : string) (n : nat)
    (chunks : list string) : script unit :=
  match chunks with
  | [] => finish
  | value :: rest =>
      let (text, d') := decode d value in
      let (lines, buffer') := read_chunk buffer text in
      for_lines n lines ;; read_loop d' buffer' (n + List.length lines) rest
  end.

(** [start(controller)]: the outer [try] closes the stream or puts it in the
    error state. *)
Definition run_stream (init : session) (chunks : list string)
  : list emit * outcome :=
  match read_loop fresh_decoder EmptyString 0 chunks init with
  | (out, _, Normal _) => (out, Closed)
  | (out, _, Thrown) => (out, Errored)
  end.

(** The lines drained read by read and the buffer left at the end. *)
Fixpoint drained_from (d : decoder) (buffer : string) (chunks : list string)
  : list (list string) * string :=
  match chunks with
  | [] => ([], buffer)
  | value :: rest =>
      let (text, d') := decode d value in
      let (lines, buffer') := read_chunk buffer text in
      let (more, final) := drained_from d' buffer' rest in
      (lines :: more, final)
  end.

Definition drained (buffer : string) (chunks : list string)
  : list (list string) * string :=
  drained_from fresh_decoder buffer chunks.

(** The whole run, read off the complete lines of the text. *)
Definition run_lines (init : session) (lines : list string)
  : list emit * outcome :=
  match bind (for_lines 0 lines) (fun _ => finish) init with
  | (out, _, Normal _) => (out, Closed)
  | (out, _, Thrown) => (out, Errored)
  end.

(** The rest of a run: the lines [lines], the first of them line number [n]
    of the response, from the variables [st], then what [done] triggers. *)
Definition run_from (n : nat) (st : session) (lines : list string)
  : list emit * outcome :=
  match bind (for_lines n lines) (fun _ => finish) st with
  | (out, _, Normal _) => (out, Closed)
  | (out, _, Thrown) => (out, Errored)
  end.

End Loop.
End Steps.

(** ** Statements shared by several revisions *)

Section Shared.
Context {N : JsNumber} {RT : JsRuntime}.

(** [{ citations: citationsText }], the citation message of [reason.js] *)
Definition citations_message (text : string) : json :=
  JObj [("citations", JStr text)].

(** [if (citations) { ... enqueue ... }]; before the sentinel the variable is
    cleared afterwards, after the loop it is not. *)
Definition send_citations (clear : bool) : script unit :=
  st <- vars ;;
  if truthy (citations st) then
    text <- numbered_list SPACED (citations st) ;;
    enqueue (Footer (citations_message text)) ;;
    (if clear then assign (set_citations JNull) else ret tt)
  else ret tt.

(** The body of [if (delta.reasoning && ...)]; [mk] builds the event around a
    [content]. *)
Definition reasoning_branch (mk : string -> json) (now : number)
    (reasoning : jsval) : script unit :=
  st <- vars ;;
  (if negb (reasoningStarted st) then
     assign (set_startThinkingTime now) ;;
     enqueue (Header (mk THINKING_HEADER)) ;;
     assign (set_reasoningStarted true)
   else ret tt) ;;
  content <- replace_breaks reasoning ;;
  enqueue (Fragment (mk content)).

(** The body of [else if (... && reasoningStarted && !reasoningEnded)]. *)
Definition separator_branch (mk : string -> json) (now : number)
    (line : string) : script unit :=
  st <- vars ;;
  assign (set_reasoningEnded true) ;;
  enqueue (Separator
             (mk (separator_text (elapsed_seconds (startThinkingTime st) now)))) ;;
  enqueue (Forward line).

(** The variables as declared, [citations] being [cits]. *)
Definition fresh (cits : json) : session :=
  {| reasoningStarted := false;
     reasoningEnded := false;
     startThinkingTime := None;
     citations := cits;
     citationsReceived := false |}.

End Shared.

(** ** The single-document path, common to the revisions up to two texts *)

(** The envelope of a response and the text of its body.  The headers are
    listed as the [Headers] object enumerates them: names in lower case, in
    ascending order. *)
Record Response : Type := {
  status : nat;
  statusText : string;
  headers : list (string * string);
  body : string
}.

Section Batch.
Context {N : JsNumber} {RT : JsRuntime}.

(** [line => (line.trim() ? `> ${line}` : '>')] *)
Definition quote_line (line : string) : string :=
  if trims_to_empty line then ">" else "> " ++ line.

(** [message.reasoning.split('\n')]: only a string has the method. *)
Definition split_lines (v : json) : completion (list string) :=
  match v with
  | JStr s => Normal (split s)
  | _ => Thrown
  end.

Definition quoted_reasoning (lines : list string) : string :=
  join nl (map quote_line lines).

(** Assignment through the alias [message = data.choices[0].message]. *)
Definition update_prop (k : string) (f : json -> json) (v : json) : json :=
  match v with
  | JObj l => match assoc k l with
              | Some x => JObj (obj_set k (f x) l)
              | None => v
              end
  | _ => v
  end.

Definition update_index0 (f : json -> json) (v : json) : json :=
  match v with
  | JArr (x :: rest) => JArr (f x :: rest)
  | JArr [] => v
  | _ => update_prop "0" f v
  end.

Definition assign_content (text : string) (message : json) : json :=
  match message with
  | JObj l => JObj (obj_set "content" (JStr text) l)
  | _ => message
  end.

Definition set_message_content (text : string) (data : json) : json :=
  update_prop "choices" (update_index0 (update_prop "message" (assign_content text))) data.

(** The body of [if (data?.choices?.[0]?.message?.reasoning) { ... }] up to
    [JSON.stringify]; [entry] is the text between index and citation, [gap]
    the text put before the content when there are no citations. *)
Definition rewrite_message (entry gap : string) (data message reasoning : json)
  : completion json :=
  match split_lines reasoning with
  | Thrown => Thrown
  | Normal lines =>
      let quotedReasoning := quoted_reasoning lines in
      let plain :=
        match val_to_string (prop "content" message) with
        | Some content =>
            Normal (set_message_content (quotedReasoning ++ gap ++ content) data)
        | None => Thrown
        end in
      match opt_prop "citations" (Some data) with
      | Some c =>
          if truthy c then
            match val_to_string (prop "content" message), array_items c with
            | Some content, Some items =>
                match numbered entry items with
                | Some list =>
                    Normal (set_message_content
                              (quotedReasoning ++ RULE ++ content ++ RULE ++ list)
                              data)
                | None => Thrown
                end
            | _, _ => Thrown
            end
          else plain
      | None => plain
      end
  end.

(** The [try] block: [Normal None] when the [if] is not entered. *)
Definition try_rewrite (entry gap : string) (response : Response)
  : completion (option json) :=
  match JSON_parse (body response) with
  | None => Thrown
  | Some data =>
      let message := opt_prop "message" (first_choice data) in
      match message, opt_prop "reasoning" message with
      | Some m, Some r =>
          if truthy r then
            match rewrite_message entry gap data m r with
            | Normal data' => Normal (Some data')
            | Thrown => Thrown
            end
          else Normal None
      | _, _ => Normal None
      end
  end.

(** The content type a response built from a string gets when its headers
    name none. *)
Definition TEXT_PLAIN : string := "text/plain;charset=UTF-8".

Definition has_content_type (h : list (string * string)) : bool :=
  existsb (fun kv => String.eqb (fst kv) "content-type") h.

Fixpoint with_content_type (h : list (string * string))
  : list (string * string) :=
  match h with
  | [] => [("content-type", TEXT_PLAIN)]
  | (k, v) :: rest =>
      if String.ltb "content-type" k then ("content-type", TEXT_PLAIN) :: h
      else (k, v) :: with_content_type rest
  end.

(** [new Response(JSON.stringify(data), { status, statusText, headers })]:
    the headers are those of the response, and the content type of the text
    when they name none. *)
Definition rebuilt (response : Response) (data : json) : Response :=
  {| status := status response;
     statusText := statusText response;
     headers := if has_content_type (headers response) then headers response
                else with_content_type (headers response);
     body := JSON_stringify data |}.

(** [new Response] takes a body with a status from 200 to 599 that is none
    of 204, 205 and 304; on any other it throws. *)
Definition takes_body (code : nat) : bool :=
  Nat.leb 200 code && Nat.leb code 599
  && negb (Nat.eqb code 204 || Nat.eqb code 205 || Nat.eqb code 304).

Definition process_document (entry gap : string) (response : Response)
  : Response :=
  match try_rewrite entry gap response with
  | Normal (Some data) =>
      if takes_body (status response) then rebuilt response data
      else response      (* the constructor throws: caught and logged *)
  | Normal None => response
  | Thrown => response   (* caught and logged *)
  end.

(** [\n\n---\n\n---\n\n] *)
Definition DOUBLE_RULE : string := nl ++ nl ++ "---" ++ RULE.

End Batch.

(** ** [src/reason.js], first script *)

Module ReasonA.
Section Script.
Context {N : JsNumber} {RT : JsRuntime}.

Definition initial : session := fresh JNull.

Definition process_line (now : number) (line : string) : script unit :=
  if startsWith line DATA_MARKER then
    if includes line DONE_TOKEN then
      send_citations true ;;
      enqueue (Forward line)
    else
      try_catch
        (data <- parse_payload line ;;
         capture_citations data ;;
         enqueue (Forward line))
        (enqueue (Forward line))
  else enqueue (Forward line).

Definition finish : script unit := send_citations false.

Definition processStreamingResponse (clock : nat -> number)
    (chunks : list string) : list emit * outcome :=
  run_stream clock process_line finish initial chunks.

Definition processNonStreamingResponse (response : Response) : Response :=
  process_document SPACED DOUBLE_RULE response.

End Script.
End ReasonA.

(** ** [src/reason.js], second script *)

Module ReasonB.
Section Script.
Context {N : JsNumber} {RT : JsRuntime}.

Definition initial : session := fresh JNull.

(** [delta.reasoning && delta.content === null] *)
Definition reasoning_test (delta : json) : bool :=
  truthy_val (prop "reasoning" delta) && is_null (prop "content" delta).

(** [delta.content !== null] *)
Definition content_test (delta : json) : bool :=
  negb (is_null (prop "content" delta)).

Definition on_delta (now : number) (line : string) (data choice delta : json)
  : script unit :=
  st <- vars ;;
  if reasoning_test delta then
    reasoning_branch (spread_event data choice) now (prop "reasoning" delta)
  else if content_test delta && reasoningStarted st && negb (reasoningEnded st) then
    separator_branch (spread_event data choice) now line
  else enqueue (Forward line).

Definition on_data (now : number) (line : string) (data : json) : script unit :=
  capture_citations data ;;
  match first_choice data, first_delta data with
  | Some choice, Some delta =>
      if truthy delta then on_delta now line data choice delta
      else enqueue (Forward line)
  | _, _ => enqueue (Forward line)
  end.

Definition process_line (now : number) (line : string) : script unit :=
  if startsWith line DATA_MARKER then
    if includes line DONE_TOKEN then
      send_citations true ;;
      enqueue (Forward line)
    else
      try_catch
        (data <- parse_payload line ;;
         on_data now line data)
        (enqueue (Forward line))
  else enqueue (Forward line).

Definition finish : script unit := send_citations false.

Definition processStreamingResponse (clock : nat -> number)
    (chunks : list string) : list emit * outcome :=
  run_stream clock process_line finish initial chunks.

Definition processNonStreamingResponse (response : Response) : Response :=
  process_document SPACED DOUBLE_RULE response.

End Script.
End ReasonB.

(** ** [src/unnamed/part_000], first script *)

Module PartC.
Section Script.
Context {N : JsNumber} {RT : JsRuntime}.

Definition initial : session := fresh JNull.

(** [delta.reasoning && !delta.content] *)
Definition reasoning_test (delta : json) : bool :=
  truthy_val (prop "reasoning" delta) && negb (truthy_val (prop "content" delta)).

(** [delta.content !== undefined] *)
Definition content_test (delta : json) : bool :=
  negb (is_undefined (prop "content" delta)).

Definition on_delta (now : number) (line : string) (delta : json)
  : script unit :=
  st <- vars ;;
  if reasoning_test delta then
    reasoning_branch bare_event now (prop "reasoning" delta)
  else if content_test delta && reasoningStarted st && negb (reasoningEnded st) then
    separator_branch bare_event now line
  else enqueue (Forward line).

Definition on_data (now : number) (line : string) (data : json) : script unit :=
  capture_citations data ;;
  match first_delta data with
  | Some delta =>
      if truthy delta then on_delta now line delta
      else enqueue (Forward line)
  | None => enqueue (Forward line)
  end.

Definition process_line (now : number) (line : string) : script unit :=
  if startsWith line DATA_MARKER then
    if includes line DONE_TOKEN then enqueue (Forward line)
    else
      try_catch
        (data <- parse_payload line ;;
         on_data now line data)
        (enqueue (Forward line))
  else enqueue (Forward line).

Definition SOURCES : string := RULE ++ "Sources:" ++ nl.

(** [if (citations && citations.length > 0) { ... }] under [done] *)
Definition finish : script unit :=
  st <- vars ;;
  if truthy (citations st) && length_positive (citations st) then
    text <- numbered_list TIGHT (citations st) ;;
    enqueue (Footer (bare_event (SOURCES ++ text)))
  else ret tt.

Definition processStreamingResponse (clock : nat -> number)
    (chunks : list string) : list emit * outcome :=
  run_stream clock process_line finish initial chunks.

Definition processNonStreamingResponse (response : Response) : Response :=
  process_document TIGHT DOUBLE_RULE response.

End Script.
End PartC.

(** ** [src/unnamed/part_000], second script *)

Module PartD.
Section Script.
Context {N : JsNumber} {RT : JsRuntime}.

Definition initial : session := fresh (JArr []).

Definition reasoning_test (delta : json) : bool :=
  truthy_val (prop "reasoning" delta) && is_null (prop "content" delta).

Definition content_test (delta : json) : bool :=
  negb (is_null (prop "content" delta)).

(** [cleanData = { ...data }; if (cleanData.citations) delete ...; enqueue] *)
Definition forward_clean (data : json) : script unit :=
  let cleanData := spread data in
  enqueue (Cleaned (JObj (if truthy_val (assoc "citations" cleanData)
                          then obj_delete "citations" cleanData
                          else cleanData))).

Definition on_delta (now : number) (line : string) (data choice delta : json)
  : script unit :=
  st <- vars ;;
  if reasoning_test delta then
    reasoning_branch (spread_event data choice) now (prop "reasoning" delta)
  else if content_test delta && reasoningStarted st && negb (reasoningEnded st) then
    separator_branch (spread_event data choice) now line
  else forward_clean data.

(** [if (data.citations && !citationsReceived) { ... }]; the result tells
    whether the chunk is skipped ([continue]). *)
Definition store_citations (data : json) : script bool :=
  c <- read_citations data ;;
  st <- vars ;;
  match c with
  | Some v =>
      if truthy v && negb (citationsReceived st) then
        assign (set_citations v) ;;
        assign (set_citationsReceived true) ;;
        ret (Nat.eqb (List.length (spread data)) 1 && truthy v)
      else ret false
  | None => ret false
  end.

Definition on_data (now : number) (line : string) (data : json) : script unit :=
  skip <- store_citations data ;;
  if skip : bool then ret tt
  else
    match first_choice data, first_delta data with
    | Some choice, Some delta =>
        if truthy delta then on_delta now line data choice delta
        else forward_clean data
    | _, _ => forward_clean data
    end.

Definition process_line (now : number) (line : string) : script unit :=
  if startsWith line DATA_MARKER then
    if includes line DONE_TOKEN then enqueue (Forward line)
    else
      try_catch
        (data <- parse_payload line ;;
         on_data now line data)
        (enqueue (Forward line))
  else enqueue (Forward line).

(** [if (citations.length > 0) { ... }] under [done] *)
Definition finish : script unit :=
  st <- vars ;;
  if length_positive (citations st) then
    text <- numbered_list TIGHT (citations st) ;;
    enqueue (Footer (bare_event (RULE ++ text)))
  else ret tt.

Definition processStreamingResponse (clock : nat -> number)
    (chunks : list string) : list emit * outcome :=
  run_stream clock process_line finish initial chunks.

Definition processNonStreamingResponse (response : Response) : Response :=
  process_document TIGHT RULE response.

End Script.
End PartD.

Unset Implicit Arguments.

(** ** A concrete engine for worked examples

    Numbers are the naturals (clock readings in milliseconds).  [stringify]
    prints the way [JSON.stringify] does on values whose strings hold no
    control character other than line feed, carriage return and tab; [parse]
    reads back the texts of the documents listed in [documents], which is how
    [JSON.parse] reads them, and rejects every other text (among them
    [malformed], which is not JSON). *)

Module Sample.

#[local] Instance numbers : JsNumber := {|
  number := nat;
  num_truthy := fun n => negb (Nat.eqb n 0);
  num_to_string := nat_to_string;
  elapsed_seconds := fun start now =>
    ((now - match start with Some t => t | None => 0 end) + 500) / 1000
|}.

Definition quote : string := String "034"%char EmptyString.
Definition backslash : string := String "092"%char EmptyString.

Fixpoint escape (s : string) : string :=
  match s with
  | EmptyString => EmptyString
  | String c r =>
      (if Ascii.eqb c "034"%char then backslash ++ quote
       else if Ascii.eqb c "092"%char then backslash ++ backslash
       else if Ascii.eqb c LF then backslash ++ "n"
       else if Ascii.eqb c "013"%char then backslash ++ "r"
       else if Ascii.eqb c "009"%char then backslash ++ "t"
       else String c EmptyString) ++ escape r
  end.

Definition quoted (s : string) : string := quote ++ escape s ++ quote.

Fixpoint stringify (v : json) : string :=
  match v with
  | JNull => "null"
  | JBool true => "true"
  | JBool false => "false"
  | JNum n => nat_to_string n
  | JStr s => quoted s
  | JArr l => "[" ++ join "," (map stringify l) ++ "]"
  | JObj l =>
      "{" ++ join "," (map (fun kv : string * json => let (k, x) := kv in
                                      (quoted k ++ ":" ++ stringify x)%string) l) ++ "}"
  end.

Fixpoint char_entries (i : nat) (s : string) : list (string * json) :=
  match s with
  | EmptyString => []
  | String c r => (nat_to_string i, JStr (String c EmptyString)) :: char_entries (S i) r
  end.

Definition delta_event (fields : list (string * json)) : json :=
  JObj [("choices", JArr [JObj [("delta", JObj fields)]])].

(** Events of a stream. *)
Definition reasoning_null : json :=
  delta_event [("reasoning", JStr "a"); ("content", JNull)].
Definition reasoning_bare : json :=
  delta_event [("reasoning", JStr "a")].
Definition reasoning_blank : json :=
  delta_event [("reasoning", JStr ""); ("content", JNull)].
Definition answer : json :=
  delta_event [("content", JStr "hi")].
Definition cited : json :=
  JObj [("citations", JArr [JStr "u"; JStr "v"])].
Definition cited_answer : json :=
  JObj [("citations", JArr [JStr "w"]);
        ("choices", JArr [JObj [("delta", JObj [("content", JStr "hi")])]])].
Definition empty_object : json := JObj [].
(** A citation that owns a [toString] key, which no string conversion
    survives, in an event and in a document. *)
Definition stubborn : json :=
  JObj [("citations", JArr [JObj [("toString", JNum 1)]]);
        ("choices", JArr [JObj [("delta", JObj [("content", JStr "hi")])]])].

(** Documents of the single-shot path. *)
Definition message_doc (fields : list (string * json)) (more : list (string * json))
  : json :=
  JObj (("choices", JArr [JObj [("message", JObj fields)]]) :: more).

Definition plain_doc : json := message_doc [("content", JStr "c")] [].
Definition reasoned_doc : json :=
  message_doc [("content", JStr "c"); ("reasoning", JStr ("a" ++ nl ++ nl ++ "b"))] [].
Definition reasoned_cited_doc : json :=
  message_doc [("content", JStr "c"); ("reasoning", JStr ("a" ++ nl ++ nl ++ "b"))]
              [("citations", JArr [JStr "u"; JStr "v"])].
Definition odd_reasoning_doc : json :=
  message_doc [("content", JStr "c"); ("reasoning", JNum 7)] [].
Definition odd_citations_doc : json :=
  message_doc [("content", JStr "c"); ("reasoning", JStr "a")]
              [("citations", JStr "u")].

Definition stubborn_doc : json :=
  message_doc [("content", JStr "c"); ("reasoning", JStr "a")]
              [("citations", JArr [JObj [("toString", JNum 1)]])].

Definition documents : list json :=
  [reasoning_null; reasoning_bare; reasoning_blank; answer; cited; cited_answer;
   empty_object; plain_doc; reasoned_doc; reasoned_cited_doc; odd_reasoning_doc;
   odd_citations_doc; stubborn; stubborn_doc].

Definition parse (text : string) : option json :=
  find (fun v => String.eqb (stringify v) text) documents.

#[local] Instance engine : JsRuntime := {|
  JSON_parse := parse;
  JSON_stringify := stringify;
  str_entries := char_entries 0;
  js_gt_zero := fun v => match v with
                         | JNum n => Nat.ltb 0 n
                         | JBool b => b
                         | _ => false
                         end
|}.

(** The clock advances by 1.4 seconds a line. *)
Definition clock (n : nat) : nat := 1400 * n.

(** A data line carrying a document, and a line that is not JSON. *)
Definition data_line (v : json) : string := DATA_MARKER ++ stringify v.
Definition malformed : string := DATA_MARKER ++ "{oops".
Definition sentinel : string := DATA_MARKER ++ DONE_TOKEN.

End Sample.

(** ** The vocabulary of the properties *)

Section Vocabulary.
Context {N : JsNumber} {RT : JsRuntime}.

(** A data line that is not the sentinel and decodes to [data]. *)
Definition data_event (line : string) (data : json) : Prop :=
  startsWith line DATA_MARKER = true
  /\ includes line DONE_TOKEN = false
  /\ JSON_parse (slice 6 line) = Some data.

(** The first delta of the event has a [reasoning] property. *)
Definition carries_reasoning (line : string) : Prop :=
  exists data delta v,
    data_event line data
    /\ first_delta data = Some delta
    /\ prop "reasoning" delta = Some v.

(** The first delta of the event has a non-empty string as [content]. *)
Definition content_line (line : string) : Prop :=
  exists data delta s,
    data_event line data
    /\ first_delta data = Some delta
    /\ prop "content" delta = Some (JStr s)
    /\ s <> EmptyString.

(** The event enters the reasoning branch of a script whose test on the
    delta is [test]. *)
Definition reasoning_line (test : json -> bool) (line : string) : Prop :=
  exists data delta,
    data_event line data
    /\ first_delta data = Some delta
    /\ truthy delta = true
    /\ test delta = true.

(** A line that starts with the marker and holds the sentinel token. *)
Definition is_sentinel (line : string) : bool :=
  startsWith line DATA_MARKER && includes line DONE_TOKEN.

(** The event carries truthy citations. *)
Definition captures (line : string) : Prop :=
  exists data c,
    data_event line data /\ prop "citations" data = Some c /\ truthy c = true.

(** The event carries the citation list [items]. *)
Definition cites (line : string) (items : list json) : Prop :=
  exists data,
    data_event line data /\ prop "citations" data = Some (JArr items).

(** Each of the values converts to the text at its place, none throws. *)
Definition rendered (items : list json) (texts : list string) : Prop :=
  map js_to_string items = map Some texts.

(** The entries of a numbered list of texts, counted from [start + 1], and
    the list, one entry a line. *)
Fixpoint entries_from (start : nat) (sep : string) (texts : list string)
  : list string :=
  match texts with
  | [] => []
  | t :: rest =>
      ("[" ++ nat_to_string (S start) ++ sep ++ t)%string
        :: entries_from (S start) sep rest
  end.

Definition listing (sep : string) (texts : list string) : string :=
  join nl (entries_from 0 sep texts).

(** The value of [citations] after a line, under
    [if (data.citations && !citations) citations = data.citations]. *)
Definition captured (line : string) (st : session) : json :=
  if startsWith line DATA_MARKER then
    if includes line DONE_TOKEN then citations st
    else match JSON_parse (slice 6 line) with
         | Some data =>
             match prop "citations" data with
             | Some v => if truthy v && negb (truthy (citations st)) then v
                         else citations st
             | None => citations st
             end
         | None => citations st
         end
  else citations st.

(** A data line, not the sentinel, whose payload [JSON.parse] rejects. *)
Definition malformed_line (line : string) : Prop :=
  startsWith line DATA_MARKER = true
  /\ includes line DONE_TOKEN = false
  /\ JSON_parse (slice 6 line) = None.

(** The line is forwarded as it is, nothing is assigned, the loop goes on. *)
Definition passes_through (process_line : number -> string -> script unit)
    (line : string) : Prop :=
  forall now st, process_line now line st = ([Forward line], st, Normal tt).

(** The three components of what a statement returns. *)
Definition state_after (r : list emit * session * completion unit) : session :=
  snd (fst r).
Definition output_of (r : list emit * session * completion unit) : list emit :=
  fst (fst r).

Definition completion_of (r : list emit * session * completion unit)
  : completion unit := snd r.

(** The phase of a response, read off the two flags; [Closing] is the instant
    between the separator and the line that caused it. *)
Inductive phase : Type := NotStarted | Active | Closing | Ended.

Definition phase_of (st : session) : phase :=
  if reasoningStarted st
  then (if reasoningEnded st then Ended else Active)
  else NotStarted.

(** Recognisers of the tagged outputs. *)
Definition is_header (e : emit) : bool :=
  match e with Header _ => true | _ => false end.
Definition is_fragment (e : emit) : bool :=
  match e with Fragment _ => true | _ => false end.
Definition is_separator (e : emit) : bool :=
  match e with Separator _ => true | _ => false end.
Definition is_footer (e : emit) : bool :=
  match e with Footer _ => true | _ => false end.

Definition not_footer (e : emit) : bool := negb (is_footer e).

(** Neither marker nor fragment. *)
Definition plain (e : emit) : bool :=
  match e with
  | Header _ | Fragment _ | Separator _ => false
  | _ => true
  end.

(** How many outputs satisfy [f]. *)
Definition count (f : emit -> bool) (out : list emit) : nat :=
  List.length (filter f out).

(** The outputs the markers may form: plain events, then a header, then
    fragments and plain events, then a separator directly followed by a
    forwarded line, then fragments and plain events. *)
Fixpoint scan (p : phase) (out : list emit) : option phase :=
  match out with
  | [] => Some p
  | e :: rest =>
      match p, e with
      | Closing, Forward _ => scan Ended rest
      | Closing, _ => None
      | NotStarted, Header _ => scan Active rest
      | _, Header _ => None
      | NotStarted, Fragment _ => None
      | _, Fragment _ => scan p rest
      | Active, Separator _ => scan Closing rest
      | _, Separator _ => None
      | _, _ => scan p rest
      end
  end.

(** The markers an accepted output holds, by the phase it ends in. *)
Definition headers_of (p : phase) : nat :=
  match p with NotStarted => 0 | _ => 1 end.
Definition separators_of (p : phase) : nat :=
  match p with Closing | Ended => 1 | _ => 0 end.

(** What one line may do to the flags and the output. *)
Inductive line_effect (line : string) (st : session)
  : list emit * session * completion unit -> Prop :=
| effect_plain out st' r :
    forallb plain out = true ->
    reasoningStarted st' = reasoningStarted st ->
    reasoningEnded st' = reasoningEnded st ->
    line_effect line st (out, st', r)
| effect_start h tail st' r :
    reasoningStarted st = false ->
    (exists f, tail = [Fragment f]) \/ tail = [Forward line] ->
    reasoningStarted st' = true ->
    reasoningEnded st' = reasoningEnded st ->
    line_effect line st (Header h :: tail, st', r)
| effect_more f st' r :
    reasoningStarted st = true ->
    reasoningStarted st' = true ->
    reasoningEnded st' = reasoningEnded st ->
    line_effect line st ([Fragment f], st', r)
| effect_end s st' r :
    reasoningStarted st = true ->
    reasoningEnded st = false ->
    reasoningStarted st' = true ->
    reasoningEnded st' = true ->
    line_effect line st ([Separator s; Forward line], st', r).

(** The flags never show an end without a start. *)
Definition flags_ok (st : session) : Prop :=
  reasoningStarted st = false -> reasoningEnded st = false.

(** What "one header, one separator" says of a run over [lines] with output
    [out] and outcome [oc], for a script whose reasoning test is [test]. *)
Definition bracketed (test : json -> bool) (lines : list string)
    (out : list emit) (oc : outcome) : Prop :=
  (exists q, scan NotStarted out = Some q /\ q <> Closing)
  /\ count is_header out <= 1
  /\ count is_separator out <= 1
  /\ (Forall (fun line => ~ carries_reasoning line) lines ->
      count is_header out = 0 /\ count is_separator out = 0)
  /\ (oc = Closed ->
      Exists (reasoning_line test) lines ->
      count is_header out = 1
      /\ exists pre h post,
           out = pre ++ Header h :: post /\ count is_fragment pre = 0)
  /\ (oc = Closed ->
      forall l1 r l2 c l3,
        lines = l1 ++ r :: l2 ++ c :: l3 ->
        reasoning_line test r ->
        content_line c ->
        count is_separator out = 1
        /\ exists o post,
             out = o ++ Forward c :: post /\ count is_separator o = 1).

(** The event enters neither the reasoning nor the separator branch of the
    second script of [part_000]. *)
Definition plain_path (st : session) (data : json) : bool :=
  match first_choice data, first_delta data with
  | Some _, Some delta =>
      negb (truthy delta)
      || (negb (PartD.reasoning_test delta)
          && negb (PartD.content_test delta
                   && reasoningStarted st && negb (reasoningEnded st)))
  | _, _ => true
  end.

(** The event does not enter the reasoning branch of a script whose test on
    the delta is [test]. *)
Definition outside_reasoning (test : json -> bool) (data : json) : bool :=
  match first_delta data with
  | Some delta => negb (truthy delta && test delta)
  | None => true
  end.

(** The event, if the line is one, is an object. *)
Definition object_event (line : string) : Prop :=
  forall data, data_event line data -> exists props, data = JObj props.

(** What the second script of [part_000] makes of a line without reasoning
    and without truthy citations: an event that is an object is serialised
    again, any other line is forwarded. *)
Definition reserialised (line : string) : emit :=
  if startsWith line DATA_MARKER && negb (includes line DONE_TOKEN) then
    match JSON_parse (slice 6 line) with
    | Some (JObj props) => Cleaned (JObj props)
    | _ => Forward line
    end
  else Forward line.

(** The chunk is skipped: it is the first with citations and has no other
    key. *)
Definition skipped (st : session) (props : list (string * json)) : bool :=
  negb (citationsReceived st) && Nat.eqb (List.length props) 1.

(** A document of the shape the interface names:
    [{ choices: [{ message: { ... } }, ...], ... }]. *)
Definition document_message (data : json) (fields : list (string * json)) : Prop :=
  exists choice others,
    prop "choices" data = Some (JArr (choice :: others))
    /\ prop "message" choice = Some (JObj fields).

(** The content the rewritten document carries, when the [if] is entered. *)
Definition rewritten_content (entry gap : string) (response : Response)
  : option string :=
  match try_rewrite entry gap response with
  | Normal (Some data) =>
      match opt_prop "content" (opt_prop "message" (first_choice data)) with
      | Some (JStr s) => Some s
      | _ => None
      end
  | _ => None
  end.

(** [.split] on a reasoning that is not a string, [.map] on citations that
    are not an array. *)
Definition rewrite_fails (data reasoning : json) : Prop :=
  (forall s, reasoning <> JStr s)
  \/ (exists c, prop "citations" data = Some c
                /\ truthy c = true /\ array_items c = None).

(** What the rewritten response is: the response built anew around the
    document with the message content replaced by [text]. *)
Definition rewritten_to (result response : Response) (data : json)
    (fields : list (string * json)) (text : string) : Prop :=
  result = rebuilt response (set_message_content text data)
  /\ document_message (set_message_content text data)
                      (obj_set "content" (JStr text) fields)
  /\ assoc "content" (obj_set "content" (JStr text) fields) = Some (JStr text).

End Vocabulary.

(** ** Further vocabulary *)

Section Enqueued.
Context {N : JsNumber} {RT : JsRuntime}.

(** [event.choices[0].delta.content] of an enqueued event *)
Definition event_content (event : json) : jsval :=
  opt_prop "content" (first_delta event).

(** The citations of the event, when truthy, are an array of values that
    convert to text. *)
Definition listed_citations (line : string) : Prop :=
  forall data c,
    data_event line data ->
    prop "citations" data = Some c ->
    truthy c = true ->
    exists items texts, c = JArr items /\ rendered items texts.

(** The value is falsy or such an array. *)
Definition listed (v : json) : Prop :=
  truthy v = false
  \/ exists items texts, v = JArr items /\ rendered items texts.

End Enqueued.

(** ** The interceptor, the same text in the four revisions *)

(** Two more services of the engine: [n === 0] on a number, and the property
    key that [v - 1] names, for a value [v] or [undefined]. *)
Class JsCoercion {N : JsNumber} : Type := {
  is_zero : number -> bool;
  key_before : jsval -> string
}.

(** How a promise settles. *)
Inductive settled (A : Type) : Type :=
| Resolved (a : A)
| Rejected.
Arguments Resolved {A} a.
Arguments Rejected {A}.

(** The first argument of [fetch]: a string, an object without [includes]
    (a [Request], a [URL]), or nothing. *)
Inductive target : Type :=
| UrlText (s : string)
| UrlObject
| UrlMissing.

(** The call: [args[0]] and [options?.body], a string when present. *)
Record Request : Type := {
  url : target;
  requestBody : option string
}.

(** What the original [fetch] resolves to: the envelope (header names in
    lower case, as a [Headers] object keeps them) with the body text, and the
    chunks its reader delivers ([None] when [response.body] is [null]). *)
Record Arrival : Type := {
  reply : Response;
  reader : option (list string)
}.

Section Checks.
Context {N : JsNumber} {RT : JsRuntime} {CO : JsCoercion}.

Definition DEEPSEEK_API_URL : string := "openrouter.ai/api/v1/chat/completions".

Definition TITLE_PROMPT : string :=
  "What would be a short and relevant title for this chat?".

(** [url && url.includes(DEEPSEEK_API_URL)], as a truth value *)
Definition isDeepseekURL (u : target) : completion bool :=
  match u with
  | UrlMissing => Normal false
  | UrlText s => Normal (negb (String.eqb s EmptyString) && includes s DEEPSEEK_API_URL)
  | UrlObject => Thrown
  end.

(** [l.includes(s)] on an array *)
Definition has_string (l : list json) (s : string) : bool :=
  existsb (fun x => match x with
                    | JStr t => String.eqb t s
                    | _ => false
                    end) l.

(** [v.includes(s)]: strings and arrays have the method. *)
Definition includes_method (v : json) (s : string) : completion bool :=
  match v with
  | JStr t => Normal (includes t s)
  | JArr l => Normal (has_string l s)
  | _ => Thrown
  end.

(** [!!body.model && (body.model.includes('deepseek')
                      || body.model.includes('reasoning'))] *)
Definition isDeepseekModel (body : json) : completion bool :=
  match body with
  | JNull => Thrown
  | _ =>
      match prop "model" body with
      | Some m =>
          if truthy m then
            match includes_method m "deepseek" with
            | Normal true => Normal true
            | Normal false => includes_method m "reasoning"
            | Thrown => Thrown
            end
          else Normal false
      | None => Normal false
      end
  end.

(** [m.length === 0] for a truthy [m] *)
Definition messages_empty (m : json) : bool :=
  match m with
  | JArr l => Nat.eqb (List.length l) 0
  | JObj l => match assoc "length" l with
              | Some (JNum n) => is_zero n
              | _ => false
              end
  | _ => false
  end.

(** [m[m.length - 1]] for a truthy [m] *)
Definition last_message (m : json) : jsval :=
  match m with
  | JArr l => match l with
              | [] => None
              | _ => Some (last l JNull)
              end
  | JStr s => match rev (str_entries s) with
              | (_, unit) :: _ => Some unit
              | [] => None
              end
  | JObj l => assoc (key_before (assoc "length" l)) l
  | _ => None
  end.

Definition isTitleRequest (body : json) : completion bool :=
  match body with
  | JNull => Thrown
  | _ =>
      match prop "messages" body with
      | None => Normal false
      | Some m =>
          if negb (truthy m) || messages_empty m then Normal false
          else
            match last_message m with
            | None | Some JNull => Thrown
            | Some lastMessage =>
                match prop "content" lastMessage with
                | Some (JStr s) =>
                    Normal (negb (String.eqb s EmptyString)
                            && startsWith s TITLE_PROMPT)
                | Some c => if truthy c then Thrown else Normal false
                | None => Normal false
                end
            end
      end
  end.

(** [response.headers.get(name)]: the values under the name, joined. *)
Definition headers_get (name : string) (h : list (string * string))
  : option string :=
  match filter (fun kv => String.eqb (fst kv) name) h with
  | [] => None
  | found => Some (join ", " (map snd found))
  end.

(** [response.headers.get('content-type')?.includes('text/event-stream')] *)
Definition is_event_stream (r : Response) : bool :=
  match headers_get "content-type" (headers r) with
  | Some v => includes v "text/event-stream"
  | None => false
  end.

(** What the caller of the replaced [fetch] gets. *)
Inductive delivered : Type :=
| Untouched (a : settled Arrival)      (* the promise of the original fetch *)
| Streamed (envelope : Response) (run : list emit * outcome)
| StreamRejected                       (* processStreamingResponse rejects *)
| Replied (r : Response).

(** A statement of the replaced [fetch]: it counts the calls of the original
    one, and may throw. *)
Definition fetching (A : Type) : Type := nat -> nat * completion A.

Definition fret {A} (a : A) : fetching A := fun n => (n, Normal a).

Definition fbind {A B} (m : fetching A) (k : A -> fetching B) : fetching B :=
  fun n =>
    match m n with
    | (n', Normal a) => k a n'
    | (n', Thrown) => (n', Thrown)
    end.

Definition checked {A} (c : completion A) : fetching A := fun n => (n, c).

(** [await p] *)
Definition await {A} (p : settled A) : fetching A :=
  match p with
  | Resolved a => fret a
  | Rejected => fun n => (n, Thrown)
  end.

Section Fetch.
(** [originalFetch k] is what the call number [k] of the original [fetch]
    settles to. *)
Variable originalFetch : nat -> settled Arrival.
Variable stream : list string -> list emit * outcome.
Variable batch : Response -> Response.

(** [originalFetch.apply(this, args)] *)
Definition call_original : fetching (settled Arrival) :=
  fun n => (S n, Normal (originalFetch n)).

Definition pass : fetching delivered :=
  fbind call_original (fun p => fret (Untouched p)).

(** [response.body.getReader()] throws on a [null] body, inside the
    asynchronous function: its promise rejects. *)
Definition streaming (a : Arrival) : delivered :=
  match reader a with
  | Some chunks => Streamed (reply a) (stream chunks)
  | None => StreamRejected
  end.

(** The [try] block of the replaced [fetch]. *)
Definition attempt (req : Request) : fetching delivered :=
  fbind (checked (isDeepseekURL (url req))) (fun isUrl =>
  if negb isUrl then pass
  else
    match requestBody req with
    | None => pass
    | Some text =>
        if String.eqb text EmptyString then pass
        else
          match JSON_parse text with
          | None => pass
          | Some parsedBody =>
              fbind (checked (isDeepseekModel parsedBody)) (fun isModel =>
              fbind (if negb isModel then fret true
                     else checked (isTitleRequest parsedBody)) (fun skip =>
              if skip : bool then pass
              else
                fbind call_original (fun p =>
                fbind (await p) (fun response =>
                if is_event_stream (reply response)
                then fret (streaming response)
                else fret (Replied (batch (reply response)))))))
          end
    end).

(** The replaced [fetch]: the result and the number of calls of the
    original one. *)
Definition window_fetch (req : Request) : delivered * nat :=
  match attempt req 0 with
  | (n, Normal d) => (d, n)
  | (n, Thrown) => (Untouched (originalFetch n), S n)
  end.

End Fetch.

(** The four checks say the response is to be rewritten. *)
Definition wants_rewrite (req : Request) : bool :=
  match isDeepseekURL (url req), requestBody req with
  | Normal true, Some text =>
      match JSON_parse text with
      | Some parsedBody =>
          negb (String.eqb text EmptyString)
          && match isDeepseekModel parsedBody, isTitleRequest parsedBody with
             | Normal true, Normal false => true
             | _, _ => false
             end
      | None => false
      end
  | _, _ => false
  end.

End Checks.

(** ** Requests for worked examples

    The engine of [Sample], reading back the request bodies listed in
    [bodies] and the event [uncited] as well.  [key_before] is exact on numbers, booleans, [null],
    [undefined], the empty string and the empty array; the messages of the
    examples are arrays, which do not call it. *)

Module SampleRequests.

#[local] Existing Instance Sample.numbers.

Definition message (content : json) : json :=
  JObj [("role", JStr "user"); ("content", content)].

Definition request_body (model : string) (messages : list json) : json :=
  JObj [("model", JStr model); ("messages", JArr messages);
        ("stream", JBool true)].

Definition chat : json :=
  request_body "deepseek/deepseek-r1" [message (JStr "hello")].
Definition title : json :=
  request_body "deepseek/deepseek-r1"
    [message (JStr "hello");
     message (JStr (TITLE_PROMPT ++ " Reply with the title only."))].
Definition parts : json :=
  request_body "deepseek/deepseek-r1"
    [message (JArr [JObj [("type", JStr "text"); ("text", JStr "hello")]])].
Definition other : json :=
  request_body "openai/gpt-4o" [message (JStr "hello")].

Definition bodies : list json := [chat; title; parts; other].

(** One more event of a stream: an empty list of citations. *)
Definition uncited : json := JObj [("citations", JArr [])].

Definition parse (text : string) : option json :=
  find (fun v => String.eqb (Sample.stringify v) text)
       (bodies ++ uncited :: Sample.documents).

#[local] Instance engine : JsRuntime := {|
  JSON_parse := parse;
  JSON_stringify := Sample.stringify;
  str_entries := Sample.char_entries 0;
  js_gt_zero := fun v => match v with
                         | JNum n => Nat.ltb 0 n
                         | JBool b => b
                         | _ => false
                         end
|}.

#[local] Instance coercion : JsCoercion := {|
  is_zero := fun n => Nat.eqb n 0;
  key_before := fun v =>
    match v with
    | Some (JNum (S n)) => nat_to_string n
    | Some (JBool true) => "0"
    | Some (JNum 0) | Some (JBool false) | Some JNull
    | Some (JStr EmptyString) | Some (JArr []) => "-1"
    | _ => "NaN"
    end
|}.

Definition endpoint : string := "https://openrouter.ai/api/v1/chat/completions".

Definition request (b : json) : Request :=
  {| url := UrlText endpoint; requestBody := Some (Sample.stringify b) |}.

(** A streamed answer and a single document. *)
Definition streamed (chunks : list string) : Arrival :=
  {| reply := {| status := 200; statusText := "OK";
                 headers := [("content-type", "text/event-stream; charset=utf-8")];
                 body := text_of chunks |};
     reader := Some chunks |}.

Definition single (v : json) : Arrival :=
  {| reply := {| status := 200; statusText := "OK";
                 headers := [("content-type", "application/json")];
                 body := Sample.stringify v |};
     reader := Some [Sample.stringify v] |}.

(** The network answers every call, or fails the first one. *)
Definition answers (a : Arrival) : nat -> settled Arrival :=
  fun _ => Resolved a.

Definition fails_once (a : Arrival) : nat -> settled Arrival :=
  fun k => match k with
           | 0 => Rejected
           | _ => Resolved a
           end.

(** The replaced [fetch] of the second script of [reason.js]. *)
Definition reasoned : list string :=
  [lines_text [Sample.data_line Sample.reasoning_null;
               Sample.data_line Sample.answer; Sample.sentinel]].

Definition stream : list string -> list emit * outcome :=
  ReasonB.processStreamingResponse Sample.clock.

Definition batch : Response -> Response :=
  ReasonB.processNonStreamingResponse.

Definition fetch (net : nat -> settled Arrival) (req : Request)
  : delivered * nat :=
  window_fetch net stream batch req.

End SampleRequests.

(** * Properties *)

Example split_example :
  split ("a" ++ nl ++ "b" ++ nl) = ["a"; "b"; ""].
Proof. reflexivity. Qed.

Example header_bytes : String.length THINKING_HEADER = 20.
Proof. reflexivity. Qed.

(** ** The concrete engine reads back what it prints *)

Module SampleFacts.
Import Sample.

Example reasoning_null_text :
  stringify reasoning_null
  = ("{" ++ quote ++ "choices" ++ quote ++ ":[{" ++ quote ++ "delta" ++ quote
     ++ ":{" ++ quote ++ "reasoning" ++ quote ++ ":" ++ quote ++ "a" ++ quote
     ++ "," ++ quote ++ "content" ++ quote ++ ":null}}]}")%string.
Proof. reflexivity. Qed.

Example parse_reads_back :
  forallb (fun v => match parse (stringify v) with
                    | Some _ => true
                    | None => false
                    end) documents = true
  /\ parse (slice 6 (data_line cited)) = Some cited
  /\ parse (slice 6 malformed) = None.
Proof. vm_compute. repeat split; reflexivity. Qed.

(** The texts of the events and of the document used further on, key by
    key. *)
Example sample_texts :
  stringify reasoning_bare
  = ("{" ++ quoted "choices" ++ ":[{" ++ quoted "delta" ++ ":{"
       ++ quoted "reasoning" ++ ":" ++ quoted "a" ++ "}}]}")%string
  /\ stringify answer
     = ("{" ++ quoted "choices" ++ ":[{" ++ quoted "delta" ++ ":{"
          ++ quoted "content" ++ ":" ++ quoted "hi" ++ "}}]}")%string
  /\ stringify cited
     = ("{" ++ quoted "citations" ++ ":[" ++ quoted "u" ++ "," ++ quoted "v"
          ++ "]}")%string
  /\ stringify cited_answer
     = ("{" ++ quoted "citations" ++ ":[" ++ quoted "w" ++ "],"
          ++ quoted "choices" ++ ":[{" ++ quoted "delta" ++ ":{"
          ++ quoted "content" ++ ":" ++ quoted "hi" ++ "}}]}")%string
  /\ stringify reasoned_doc
     = ("{" ++ quoted "choices" ++ ":[{" ++ quoted "message" ++ ":{"
          ++ quoted "content" ++ ":" ++ quoted "c" ++ ","
          ++ quoted "reasoning" ++ ":" ++ quote ++ "a" ++ backslash ++ "n"
          ++ backslash ++ "nb" ++ quote ++ "}}]}")%string
  /\ sentinel = "data: [DONE]"
  /\ malformed = "data: {oops".
Proof. repeat split; reflexivity. Qed.

End SampleFacts.

(** ** Line splitting *)

Lemma append_empty_r (s : string) : (s ++ EmptyString)%string = s.
Proof. induction s as [|c s IH]; simpl; [reflexivity | now rewrite IH]. Qed.

Lemma append_assoc (a b c : string) :
  ((a ++ b) ++ c)%string = (a ++ (b ++ c))%string.
Proof. induction a as [|x a IH]; simpl; [reflexivity | now rewrite IH]. Qed.

Lemma split_not_nil (s : string) : split s <> [].
Proof.
  induction s as [|c s IH]; simpl; [discriminate|].
  destruct (Ascii.eqb c LF); [discriminate|].
  destruct (split s); discriminate.
Qed.

Lemma split_cons_other (c : ascii) (s : string) :
  Ascii.eqb c LF = false ->
  exists seg segs, split s = seg :: segs /\ split (String c s) = String c seg :: segs.
Proof.
  intros Hc. simpl. rewrite Hc.
  destruct (split s) as [|seg segs] eqn:E.
  - now apply split_not_nil in E.
  - now exists seg, segs.
Qed.

(** Splitting a text given in two pieces: the complete lines of the first
    piece, then the split of its last segment continued by the second. *)
Lemma split_app (a b : string) :
  split (a ++ b) = complete_lines a ++ split (partial_line a ++ b).
Proof.
  unfold complete_lines, partial_line.
  induction a as [|c a IH]; [reflexivity|].
  destruct (Ascii.eqb c LF) eqn:Hc.
  - change (String c a ++ b)%string with (String c (a ++ b)).
    simpl. rewrite Hc, IH.
    destruct (split a) as [|x l] eqn:E; [now apply split_not_nil in E|].
    reflexivity.
  - change (String c a ++ b)%string with (String c (a ++ b)).
    destruct (split_cons_other c a Hc) as (seg & segs & Ea & Eca).
    rewrite Eca.
    destruct (split_cons_other c (a ++ b) Hc) as (seg' & segs' & Eab & Ecab).
    rewrite Ecab. rewrite IH, Ea in Eab.
    destruct segs as [|y l].
    + simpl in Eab |- *. now rewrite Hc, Eab.
    + change (removelast (String c seg :: y :: l))
        with (String c seg :: removelast (y :: l)).
      change (last (String c seg :: y :: l) EmptyString)
        with (last (y :: l) EmptyString).
      change (removelast (seg :: y :: l)) with (seg :: removelast (y :: l)) in Eab.
      change (last (seg :: y :: l) EmptyString) with (last (y :: l) EmptyString) in Eab.
      simpl in Eab. inversion Eab. reflexivity.
Qed.

Lemma last_app_nonempty {A} (l l' : list A) (d : A) :
  l' <> [] -> last (l ++ l') d = last l' d.
Proof.
  intros Hne. induction l as [|x l IH]; [reflexivity|].
  simpl. rewrite IH.
  destruct (l ++ l') eqn:E; [|reflexivity].
  apply app_eq_nil in E. now destruct E.
Qed.

(** What follows the last line feed holds no line feed. *)
Lemma partial_line_unbroken (s : string) : split (partial_line s) = [partial_line s].
Proof.
  unfold partial_line.
  induction s as [|c s IH]; [reflexivity|].
  destruct (Ascii.eqb c LF) eqn:Hc.
  - simpl. rewrite Hc.
    destruct (split s) as [|x l] eqn:E; [now apply split_not_nil in E|].
    exact IH.
  - destruct (split_cons_other c s Hc) as (seg & segs & Es & Ecs).
    rewrite Ecs. rewrite Es in IH.
    destruct segs as [|y l]; [|exact IH].
    simpl in IH |- *. rewrite Hc, IH. reflexivity.
Qed.

Lemma complete_lines_app (a b : string) :
  complete_lines (a ++ b) = complete_lines a ++ complete_lines (partial_line a ++ b).
Proof.
  unfold complete_lines at 1. rewrite split_app.
  rewrite removelast_app by apply split_not_nil. reflexivity.
Qed.

Lemma partial_line_app (a b : string) :
  partial_line (a ++ b) = partial_line (partial_line a ++ b).
Proof.
  unfold partial_line at 1. rewrite split_app.
  rewrite last_app_nonempty by apply split_not_nil. reflexivity.
Qed.

Lemma or_empty_id (s : string) : or_empty s = s.
Proof. now destruct s. Qed.

Lemma read_chunk_spec (buffer value : string) :
  read_chunk buffer value
  = (complete_lines (buffer ++ value), partial_line (buffer ++ value)).
Proof. unfold read_chunk. now rewrite or_empty_id. Qed.

(** ** The decoder reads the bytes, not the chunks *)

Lemma decode_app (a b : string) :
  forall d,
    decode d (a ++ b)
    = (let (t, d') := decode d a in
       let (t', d'') := decode d' b in
       ((t ++ t')%string, d'')).
Proof.
  induction a as [|c a IH]; intros d.
  - cbn [append decode]. now destruct (decode d b).
  - change (String c a ++ b)%string with (String c (a ++ b)). cbn [decode].
    destruct (decode_byte d c) as [t0 d0]. rewrite IH.
    destruct (decode d0 a) as [t1 d1]. destruct (decode d1 b) as [t2 d2].
    now rewrite append_assoc.
Qed.

Lemma decoded_bytes (chunks : list string) :
  forall d, decoded d chunks = fst (decode d (bytes_of chunks)).
Proof.
  induction chunks as [|value rest IH]; intros d; [reflexivity|].
  cbn [decoded bytes_of]. rewrite decode_app.
  destruct (decode d value) as [t d']. rewrite IH.
  now destruct (decode d' (bytes_of rest)).
Qed.

(** The text depends on the bytes only, however they are cut. *)
Lemma text_of_bytes (chunks chunks' : list string) :
  bytes_of chunks = bytes_of chunks' -> text_of chunks = text_of chunks'.
Proof. intros H. unfold text_of. now rewrite !decoded_bytes, H. Qed.

(** Bytes below 128 come out as they came in. *)
Lemma decode_ascii (s : string) :
  ascii_only s = true ->
  forall d, needed d = 0 -> fst (decode d s) = s /\ needed (snd (decode d s)) = 0.
Proof.
  induction s as [|c s IH]; intros Hs d Hd; [now split|].
  cbn [ascii_only] in Hs. apply andb_prop in Hs. destruct Hs as [Hc Hs].
  cbn [decode]. unfold decode_byte. rewrite Hd. unfold lead_byte. rewrite Hc.
  unfold deliver.
  assert (Hb : String.eqb (String c EmptyString) BOM = false).
  { unfold BOM. cbn [String.eqb]. destruct (Ascii.eqb c "239") eqn:E; [|reflexivity].
    apply Ascii.eqb_eq in E. subst c. discriminate. }
  rewrite Hb, andb_false_r.
  specialize (IH Hs {| bom_open := false; pending := EmptyString; needed := 0;
                       lower := 128; upper := 191 |} eq_refl).
  destruct (decode {| bom_open := false; pending := EmptyString; needed := 0;
                      lower := 128; upper := 191 |} s) as [t d'].
  cbn [fst snd] in *. destruct IH as [-> Hn]. now split.
Qed.

Lemma text_of_ascii (chunks : list string) :
  ascii_only (bytes_of chunks) = true -> text_of chunks = bytes_of chunks.
Proof.
  intros H. unfold text_of. rewrite decoded_bytes.
  exact (proj1 (decode_ascii _ H fresh_decoder eq_refl)).
Qed.

(** ** The read loop sees the text, not the chunks *)

Section ScriptLaws.
Context {N : JsNumber} {RT : JsRuntime}.

Lemma bind_ret_l {A B} (a : A) (k : A -> script B) (st : session) :
  bind (ret a) k st = k a st.
Proof. unfold bind, ret. now destruct (k a st) as [[out st'] r]. Qed.

Lemma bind_assoc {A B C} (m : script A) (k : A -> script B) (h : B -> script C)
    (st : session) :
  bind (bind m k) h st = bind m (fun a => bind (k a) h) st.
Proof.
  unfold bind.
  destruct (m st) as [[o1 s1] [a|]]; [|reflexivity].
  destruct (k a s1) as [[o2 s2] [b|]]; [|reflexivity].
  destruct (h b s2) as [[o3 s3] r].
  now rewrite app_assoc.
Qed.

Lemma bind_ext {A B} (m : script A) (k k' : A -> script B) (st : session) :
  (forall a st', k a st' = k' a st') -> bind m k st = bind m k' st.
Proof.
  intros H. unfold bind.
  destruct (m st) as [[o1 s1] [a|]]; [|reflexivity].
  now rewrite H.
Qed.

Section LoopLaws.
Variable clock : nat -> number.
Variable process_line : number -> string -> script unit.
Variable finish : script unit.

Lemma for_lines_app {B} (l1 l2 : list string) (k : unit -> script B) :
  forall n st,
    bind (for_lines clock process_line n (l1 ++ l2)) k st
    = bind (for_lines clock process_line n l1)
           (fun _ => bind (for_lines clock process_line (n + List.length l1) l2) k)
           st.
Proof.
  induction l1 as [|x l1 IH]; intros n st.
  - cbn [for_lines app List.length]. rewrite bind_ret_l. now rewrite Nat.add_0_r.
  - cbn [for_lines app List.length]. rewrite !bind_assoc. apply bind_ext.
    intros _ st'. rewrite IH. now rewrite Nat.add_succ_r.
Qed.

Lemma read_loop_lines (chunks : list string) :
  forall d buffer n st,
    split buffer = [buffer] ->
    read_loop clock process_line finish d buffer n chunks st
    = bind (for_lines clock process_line n
              (complete_lines (buffer ++ decoded d chunks)))
           (fun _ => finish) st.
Proof.
  induction chunks as [|value rest IH]; intros d buffer n st Hb.
  - simpl. rewrite append_empty_r. unfold complete_lines. rewrite Hb. simpl.
    now rewrite bind_ret_l.
  - cbn [read_loop decoded]. destruct (decode d value) as [text d'].
    rewrite read_chunk_spec.
    rewrite <- append_assoc.
    rewrite (complete_lines_app (buffer ++ text) (decoded d' rest)), for_lines_app.
    apply bind_ext. intros _ st'.
    apply IH, partial_line_unbroken.
Qed.

Lemma run_stream_lines (init : session) (chunks : list string) :
  run_stream clock process_line finish init chunks
  = run_lines clock process_line finish init (complete_lines (text_of chunks)).
Proof.
  unfold run_stream, run_lines, text_of.
  now rewrite read_loop_lines by reflexivity.
Qed.

Lemma drained_from_spec (chunks : list string) :
  forall d buffer,
    split buffer = [buffer] ->
    concat (fst (drained_from d buffer chunks))
    = complete_lines (buffer ++ decoded d chunks)
    /\ snd (drained_from d buffer chunks)
       = partial_line (buffer ++ decoded d chunks).
Proof.
  induction chunks as [|value rest IH]; intros d buffer Hb.
  - simpl. rewrite append_empty_r. unfold complete_lines, partial_line.
    now rewrite Hb.
  - cbn [drained_from decoded]. destruct (decode d value) as [text d'].
    rewrite read_chunk_spec.
    destruct (IH d' (partial_line (buffer ++ text)) (partial_line_unbroken _))
      as [IH1 IH2].
    destruct (drained_from d' (partial_line (buffer ++ text)) rest) as [more final].
    simpl in *.
    rewrite <- append_assoc.
    rewrite (complete_lines_app (buffer ++ text) (decoded d' rest)).
    rewrite (partial_line_app (buffer ++ text) (decoded d' rest)).
    now rewrite IH1, IH2.
Qed.

Lemma drained_spec (chunks : list string) :
  forall buffer,
    split buffer = [buffer] ->
    concat (fst (drained buffer chunks)) = complete_lines (buffer ++ text_of chunks)
    /\ snd (drained buffer chunks) = partial_line (buffer ++ text_of chunks).
Proof. intros buffer Hb. now apply drained_from_spec. Qed.

End LoopLaws.
End ScriptLaws.


(** ** Buffering *)

Section Buffering.
Context {N : JsNumber} {RT : JsRuntime}.
Variable clock : nat -> number.

Lemma ReasonA_by_lines (chunks : list string) :
  ReasonA.processStreamingResponse clock chunks
  = run_lines clock ReasonA.process_line ReasonA.finish ReasonA.initial
      (complete_lines (text_of chunks)).
Proof. apply run_stream_lines. Qed.

Lemma ReasonB_by_lines (chunks : list string) :
  ReasonB.processStreamingResponse clock chunks
  = run_lines clock ReasonB.process_line ReasonB.finish ReasonB.initial
      (complete_lines (text_of chunks)).
Proof. apply run_stream_lines. Qed.

Lemma PartC_by_lines (chunks : list string) :
  PartC.processStreamingResponse clock chunks
  = run_lines clock PartC.process_line PartC.finish PartC.initial
      (complete_lines (text_of chunks)).
Proof. apply run_stream_lines. Qed.

Lemma PartD_by_lines (chunks : list string) :
  PartD.processStreamingResponse clock chunks
  = run_lines clock PartD.process_line PartD.finish PartD.initial
      (complete_lines (text_of chunks)).
Proof. apply run_stream_lines. Qed.

(** C5.  However the bytes of a stream are cut into chunks, be it inside a
    line, inside the marker or inside a character of several bytes, every
    revision hands the same lines to its per-line code, in the same order,
    and produces the same output: the run over the chunks is the run of the
    per-line code over the line-feed-terminated lines of the text, followed
    by what [done] triggers.  Those lines are the lines drained read after
    read, and after the reads the buffer holds what follows the last line
    feed. *)
Theorem chunk_boundary_invariant (chunks chunks' : list string) :
  bytes_of chunks = bytes_of chunks' ->
  let lines := complete_lines (text_of chunks) in
  let handed (l : list string) :=
    ReasonA.processStreamingResponse clock chunks
    = run_lines clock ReasonA.process_line ReasonA.finish ReasonA.initial l
    /\ ReasonB.processStreamingResponse clock chunks
       = run_lines clock ReasonB.process_line ReasonB.finish ReasonB.initial l
    /\ PartC.processStreamingResponse clock chunks
       = run_lines clock PartC.process_line PartC.finish PartC.initial l
    /\ PartD.processStreamingResponse clock chunks
       = run_lines clock PartD.process_line PartD.finish PartD.initial l in
  text_of chunks' = text_of chunks
  /\ handed lines
  /\ handed (concat (fst (drained EmptyString chunks)))
  /\ concat (fst (drained EmptyString chunks)) = lines
  /\ snd (drained EmptyString chunks) = partial_line (text_of chunks)
  /\ concat (fst (drained EmptyString chunks')) = lines
  /\ snd (drained EmptyString chunks') = partial_line (text_of chunks)
  /\ ReasonA.processStreamingResponse clock chunks'
     = ReasonA.processStreamingResponse clock chunks
  /\ ReasonB.processStreamingResponse clock chunks'
     = ReasonB.processStreamingResponse clock chunks
  /\ PartC.processStreamingResponse clock chunks'
     = PartC.processStreamingResponse clock chunks
  /\ PartD.processStreamingResponse clock chunks'
     = PartD.processStreamingResponse clock chunks.
Proof.
  intros Hbytes lines handed.
  pose proof (text_of_bytes _ _ Hbytes) as Htext.
  destruct (drained_spec chunks EmptyString eq_refl) as [Hl Hb].
  destruct (drained_spec chunks' EmptyString eq_refl) as [Hl' Hb'].
  cbn [append] in Hl, Hb, Hl', Hb'. rewrite <- Htext in Hl', Hb'.
  assert (Hh : handed lines).
  { unfold handed. split; [apply ReasonA_by_lines|].
    split; [apply ReasonB_by_lines|].
    split; [apply PartC_by_lines | apply PartD_by_lines]. }
  split; [now symmetry|]. split; [exact Hh|].
  split; [now rewrite Hl|].
  repeat (split; [assumption|]).
  rewrite !ReasonA_by_lines, !ReasonB_by_lines, !PartC_by_lines, !PartD_by_lines.
  rewrite <- Htext. now repeat split.
Qed.

(** C10.  When the text ends in a line that no line feed terminates, that
    line is in the buffer when the reader reports [done] and nothing of it is
    enqueued: the output is the output for the text without it. *)
Theorem unterminated_line_dropped (chunks chunks' : list string)
    (text tail : string) :
  text_of chunks = text ->
  text_of chunks' = (text ++ tail)%string ->
  partial_line text = EmptyString ->
  split tail = [tail] ->
  tail <> EmptyString ->
  snd (drained EmptyString chunks') = tail
  /\ ReasonA.processStreamingResponse clock chunks'
     = ReasonA.processStreamingResponse clock chunks
  /\ ReasonB.processStreamingResponse clock chunks'
     = ReasonB.processStreamingResponse clock chunks
  /\ PartC.processStreamingResponse clock chunks'
     = PartC.processStreamingResponse clock chunks
  /\ PartD.processStreamingResponse clock chunks'
     = PartD.processStreamingResponse clock chunks.
Proof.
  intros Ht Ht' Hend Htail _.
  assert (Hlines : complete_lines (text_of chunks') = complete_lines (text_of chunks)).
  { rewrite Ht, Ht', complete_lines_app, Hend. cbn [append].
    unfold complete_lines at 2. rewrite Htail. cbn [removelast].
    apply app_nil_r. }
  repeat split.
  - destruct (drained_spec chunks' EmptyString eq_refl) as [_ Hb].
    cbn [append] in Hb. rewrite Hb, Ht', partial_line_app, Hend. cbn [append].
    unfold partial_line. now rewrite Htail.
  - now rewrite !ReasonA_by_lines, Hlines.
  - now rewrite !ReasonB_by_lines, Hlines.
  - now rewrite !PartC_by_lines, Hlines.
  - now rewrite !PartD_by_lines, Hlines.
Qed.

End Buffering.

(** ** Lines that are not JSON *)

Section Malformed.
Context {N : JsNumber} {RT : JsRuntime}.
Variable clock : nat -> number.

Lemma for_lines_pass (process_line : number -> string -> script unit)
    (line : string) (rest : list string) (n : nat) (st : session) :
  passes_through process_line line ->
  for_lines clock process_line n (line :: rest) st
  = match for_lines clock process_line (S n) rest st with
    | (out, st', r) => (Forward line :: out, st', r)
    end.
Proof.
  intros H. cbn [for_lines]. unfold bind. rewrite H. reflexivity.
Qed.

Ltac caught H :=
  intros now st; destruct H as (Hm & Hd & Hp);
  cbv beta delta [ReasonA.process_line ReasonB.process_line PartC.process_line
                  PartD.process_line];
  rewrite Hm, Hd;
  unfold try_catch, bind, parse_payload, must; rewrite Hp; reflexivity.

Lemma ReasonA_malformed line :
  malformed_line line -> passes_through ReasonA.process_line line.
Proof. intros H. caught H. Qed.

Lemma ReasonB_malformed line :
  malformed_line line -> passes_through ReasonB.process_line line.
Proof. intros H. caught H. Qed.

Lemma PartC_malformed line :
  malformed_line line -> passes_through PartC.process_line line.
Proof. intros H. caught H. Qed.

Lemma PartD_malformed line :
  malformed_line line -> passes_through PartD.process_line line.
Proof. intros H. caught H. Qed.

Lemma run_lines_pass (process_line : number -> string -> script unit)
    (finish : script unit) (init : session) (before rest : list string)
    (line : string) (o1 : list emit) (s1 : session) :
  passes_through process_line line ->
  for_lines clock process_line 0 before init = (o1, s1, Normal tt) ->
  run_lines clock process_line finish init (before ++ line :: rest)
  = (let (o2, oc) :=
       run_from clock process_line finish (S (List.length before)) s1 rest in
     (o1 ++ Forward line :: o2, oc)).
Proof.
  intros Hp H. unfold run_lines, run_from.
  rewrite for_lines_app. unfold bind at 1. rewrite H. cbn [Nat.add for_lines].
  rewrite bind_assoc. unfold bind at 1. rewrite Hp.
  destruct (bind (for_lines clock process_line (S (List.length before)) rest)
              (fun _ => finish) s1) as [[o2 s2] [[]|]]; reflexivity.
Qed.

(** C6.  When a line of the stream is a data line whose payload is not JSON,
    in whichever read it is completed, every revision enqueues it as it
    came, marker included, changes no variable and throws nothing past the
    inner [catch]; the stream is not closed and not put in the error state
    by it: what has been enqueued for the lines before it is followed by the
    line, and then by what the lines after it and the end of transport
    yield, from the variables as they were before the line, the outcome of
    the stream being theirs. *)
Theorem malformed_line_forwarded (chunks : list string)
    (before rest : list string) (line : string) :
  complete_lines (text_of chunks) = before ++ line :: rest ->
  malformed_line line ->
  let resumes (process_line : number -> string -> script unit)
              (finish : script unit) (init : session)
              (run : list emit * outcome) :=
    passes_through process_line line
    /\ forall o1 s1,
         for_lines clock process_line 0 before init = (o1, s1, Normal tt) ->
         run = (let (o2, oc) :=
                  run_from clock process_line finish
                    (S (List.length before)) s1 rest in
                (o1 ++ Forward line :: o2, oc)) in
  resumes ReasonA.process_line ReasonA.finish ReasonA.initial
    (ReasonA.processStreamingResponse clock chunks)
  /\ resumes ReasonB.process_line ReasonB.finish ReasonB.initial
       (ReasonB.processStreamingResponse clock chunks)
  /\ resumes PartC.process_line PartC.finish PartC.initial
       (PartC.processStreamingResponse clock chunks)
  /\ resumes PartD.process_line PartD.finish PartD.initial
       (PartD.processStreamingResponse clock chunks).
Proof.
  intros Hlines H resumes. unfold resumes.
  rewrite ReasonA_by_lines, ReasonB_by_lines, PartC_by_lines, PartD_by_lines.
  rewrite Hlines.
  split; [|split; [|split]];
    (split; [|intros o1 s1 Hb; apply run_lines_pass; [|exact Hb]]).
  all: first [ now apply ReasonA_malformed | now apply ReasonB_malformed
             | now apply PartC_malformed | now apply PartD_malformed ].
Qed.

End Malformed.

(** ** The single-document path *)

Section BatchFacts.
Context {N : JsNumber} {RT : JsRuntime}.

Lemma assoc_obj_set (k : string) (v : json) (l : list (string * json)) :
  assoc k (obj_set k v l) = Some v.
Proof.
  induction l as [|[k' v'] l IH]; simpl.
  - now rewrite String.eqb_refl.
  - destruct (String.eqb k k') eqn:E; simpl; rewrite E; [reflexivity | exact IH].
Qed.

Lemma document_message_read (data : json) (fields : list (string * json)) :
  document_message data fields ->
  opt_prop "message" (first_choice data) = Some (JObj fields).
Proof.
  intros (choice & others & Hc & Hm).
  unfold first_choice. cbn [opt_prop].
  destruct data; try discriminate. rewrite Hc. cbn.
  destruct choice; try discriminate. exact Hm.
Qed.

(** After the assignment the message carries the new content, and the rest of
    the message is as before. *)
Lemma set_message_content_read (text : string) (data : json)
    (fields : list (string * json)) :
  document_message data fields ->
  document_message (set_message_content text data)
                   (obj_set "content" (JStr text) fields)
  /\ assoc "content" (obj_set "content" (JStr text) fields) = Some (JStr text).
Proof.
  intros (choice & others & Hc & Hm). split; [|apply assoc_obj_set].
  destruct data as [| | | | |l]; try discriminate.
  destruct choice as [| | | | |cl]; try discriminate.
  cbn [prop] in Hc, Hm.
  exists (JObj (obj_set "message" (JObj (obj_set "content" (JStr text) fields)) cl)),
         others.
  unfold set_message_content, update_prop at 1. rewrite Hc.
  cbn [update_index0 update_prop]. rewrite Hm. cbn [assign_content prop].
  split; apply assoc_obj_set.
Qed.

Lemma process_document_thrown (entry gap : string) (response : Response) :
  try_rewrite entry gap response = Thrown ->
  process_document entry gap response = response.
Proof. unfold process_document. now intros ->. Qed.

Lemma try_rewrite_unparsed (entry gap : string) (response : Response) :
  JSON_parse (body response) = None ->
  try_rewrite entry gap response = Thrown.
Proof. unfold try_rewrite. now intros ->. Qed.

Lemma try_rewrite_fails (entry gap : string) (response : Response)
    (data message reasoning : json) :
  JSON_parse (body response) = Some data ->
  opt_prop "message" (first_choice data) = Some message ->
  prop "reasoning" message = Some reasoning ->
  truthy reasoning = true ->
  rewrite_fails data reasoning ->
  try_rewrite entry gap response = Thrown.
Proof.
  intros Hp Hm Hr Ht Hf. unfold try_rewrite. rewrite Hp, Hm.
  assert (Hr' : opt_prop "reasoning" (Some message) = Some reasoning).
  { destruct message; try discriminate. exact Hr. }
  rewrite Hr', Ht. unfold rewrite_message.
  destruct Hf as [Hns | (c & Hc & Htc & Hna)].
  - destruct reasoning; try reflexivity. now destruct (Hns s).
  - destruct (split_lines reasoning); [|reflexivity].
    assert (Hc' : opt_prop "citations" (Some data) = Some c).
    { destruct data; try discriminate. exact Hc. }
    rewrite Hc', Htc, Hna.
    now destruct (val_to_string (prop "content" message)).
Qed.

(** C9.  Whatever the body, the single-document path returns a response: the
    one it was given whenever the [try] block throws, which is what happens
    when the body is not JSON and when the rewriting fails on the way (a
    reasoning without [split], citations without [map]); otherwise the one it
    was given or a rebuilt one. *)
Theorem batch_failures_fall_back (response : Response) :
  (forall entry gap,
      process_document entry gap response = response
      \/ exists data,
           try_rewrite entry gap response = Normal (Some data)
           /\ process_document entry gap response = rebuilt response data)
  /\ (forall entry gap,
         try_rewrite entry gap response = Thrown ->
         process_document entry gap response = response)
  /\ (JSON_parse (body response) = None ->
      ReasonA.processNonStreamingResponse response = response
      /\ ReasonB.processNonStreamingResponse response = response
      /\ PartC.processNonStreamingResponse response = response
      /\ PartD.processNonStreamingResponse response = response)
  /\ (forall data message reasoning,
         JSON_parse (body response) = Some data ->
         opt_prop "message" (first_choice data) = Some message ->
         prop "reasoning" message = Some reasoning ->
         truthy reasoning = true ->
         rewrite_fails data reasoning ->
         ReasonA.processNonStreamingResponse response = response
         /\ ReasonB.processNonStreamingResponse response = response
         /\ PartC.processNonStreamingResponse response = response
         /\ PartD.processNonStreamingResponse response = response).
Proof.
  split; [|split; [|split]].
  - intros entry gap. unfold process_document.
    destruct (try_rewrite entry gap response) as [[data|]|].
    + destruct (takes_body (status response)); [|now left].
      right. now exists data.
    + now left.
    + now left.
  - intros entry gap. apply process_document_thrown.
  - intros Hp. repeat split;
      apply process_document_thrown, try_rewrite_unparsed, Hp.
  - intros data message reasoning Hp Hm Hr Ht Hf. repeat split;
      apply process_document_thrown;
      eapply try_rewrite_fails; eassumption.
Qed.

End BatchFacts.

Section BatchRewrite.
Context {N : JsNumber} {RT : JsRuntime}.

Lemma truthy_nonempty (r : string) : r <> EmptyString -> truthy (JStr r) = true.
Proof.
  intros Hr. cbn. destruct (String.eqb r EmptyString) eqn:E; [|reflexivity].
  now apply String.eqb_eq in E.
Qed.

Lemma try_rewrite_entered (entry gap : string) (response : Response)
    (data : json) (fields : list (string * json)) (r : string) :
  JSON_parse (body response) = Some data ->
  document_message data fields ->
  assoc "reasoning" fields = Some (JStr r) ->
  r <> EmptyString ->
  try_rewrite entry gap response
  = match rewrite_message entry gap data (JObj fields) (JStr r) with
    | Normal data' => Normal (Some data')
    | Thrown => Thrown
    end.
Proof.
  intros Hp Hdoc Hr Hne. unfold try_rewrite.
  rewrite Hp, (document_message_read _ _ Hdoc). cbn [opt_prop prop].
  rewrite Hr, (truthy_nonempty _ Hne). reflexivity.
Qed.

Lemma document_is_object (data : json) (fields : list (string * json)) :
  document_message data fields ->
  opt_prop "citations" (Some data) = prop "citations" data.
Proof.
  intros (choice & others & Hc & _). now destruct data.
Qed.

(** The citations of a footer or of a document, once they are known to
    convert. *)
Lemma numbered_from_rendered (sep : string) (items : list json) :
  forall texts k,
    rendered items texts ->
    numbered_from k sep items = Some (entries_from k sep texts).
Proof.
  unfold rendered.
  induction items as [|c items IH]; intros [|t texts] k H; try discriminate.
  - reflexivity.
  - cbn [map] in H. injection H as Hc Hrest.
    cbn [numbered_from entries_from]. now rewrite Hc, (IH texts (S k) Hrest).
Qed.

Lemma numbered_rendered (sep : string) (items : list json) (texts : list string) :
  rendered items texts -> numbered sep items = Some (listing sep texts).
Proof.
  intros H. unfold numbered, listing.
  now rewrite (numbered_from_rendered sep items texts 0 H).
Qed.

Lemma rendered_strings (texts : list string) : rendered (map JStr texts) texts.
Proof.
  unfold rendered. induction texts as [|t texts IH]; [reflexivity|].
  cbn [map js_to_string]. now rewrite IH.
Qed.

Lemma process_document_plain (entry gap : string) (response : Response)
    (data : json) (fields : list (string * json)) (r original : string) :
  JSON_parse (body response) = Some data ->
  document_message data fields ->
  assoc "reasoning" fields = Some (JStr r) ->
  r <> EmptyString ->
  val_to_string (assoc "content" fields) = Some original ->
  takes_body (status response) = true ->
  truthy_val (prop "citations" data) = false ->
  rewritten_to (process_document entry gap response) response data fields
    (quoted_reasoning (split r) ++ gap ++ original).
Proof.
  intros Hp Hdoc Hr Hne Ho Hs Hc.
  unfold rewritten_to. split; [|now apply set_message_content_read].
  unfold process_document. rewrite Hs.
  rewrite (try_rewrite_entered entry gap _ _ _ _ Hp Hdoc Hr Hne).
  unfold rewrite_message. cbn [split_lines].
  rewrite (document_is_object _ _ Hdoc). cbn [prop]. rewrite Ho.
  destruct (prop "citations" data) as [c|]; [|reflexivity].
  cbn in Hc. now rewrite Hc.
Qed.

Lemma process_document_cited (entry gap : string) (response : Response)
    (data : json) (fields : list (string * json)) (r original : string)
    (items : list json) (texts : list string) :
  JSON_parse (body response) = Some data ->
  document_message data fields ->
  assoc "reasoning" fields = Some (JStr r) ->
  r <> EmptyString ->
  val_to_string (assoc "content" fields) = Some original ->
  takes_body (status response) = true ->
  prop "citations" data = Some (JArr items) ->
  rendered items texts ->
  rewritten_to (process_document entry gap response) response data fields
    (quoted_reasoning (split r) ++ RULE ++ original ++ RULE ++ listing entry texts).
Proof.
  intros Hp Hdoc Hr Hne Ho Hs Hc Hi.
  unfold rewritten_to. split; [|now apply set_message_content_read].
  unfold process_document. rewrite Hs.
  rewrite (try_rewrite_entered entry gap _ _ _ _ Hp Hdoc Hr Hne).
  unfold rewrite_message. cbn [split_lines].
  rewrite (document_is_object _ _ Hdoc). cbn [prop].
  rewrite Hc, Ho. cbn [truthy array_items].
  now rewrite (numbered_rendered entry items texts Hi).
Qed.

(** A conversion that throws sends the original response back. *)
Lemma process_document_unconverted (entry gap : string) (response : Response)
    (data : json) (fields : list (string * json)) (r : string) :
  JSON_parse (body response) = Some data ->
  document_message data fields ->
  assoc "reasoning" fields = Some (JStr r) ->
  r <> EmptyString ->
  val_to_string (assoc "content" fields) = None ->
  process_document entry gap response = response.
Proof.
  intros Hp Hdoc Hr Hne Ho.
  unfold process_document. rewrite (try_rewrite_entered entry gap _ _ _ _ Hp Hdoc Hr Hne).
  unfold rewrite_message. cbn [split_lines prop]. rewrite Ho.
  destruct (opt_prop "citations" (Some data)) as [c|]; [|reflexivity].
  now destruct (truthy c).
Qed.

(** A status the constructor refuses sends the original response back. *)
Lemma process_document_refused (entry gap : string) (response : Response) :
  takes_body (status response) = false ->
  process_document entry gap response = response.
Proof.
  intros Hs. unfold process_document. rewrite Hs.
  now destruct (try_rewrite entry gap response) as [[data|]|].
Qed.

Lemma process_document_untouched (entry gap : string) (response : Response)
    (data : json) :
  JSON_parse (body response) = Some data ->
  truthy_val (opt_prop "reasoning" (opt_prop "message" (first_choice data))) = false ->
  process_document entry gap response = response.
Proof.
  intros Hp Hr. unfold process_document, try_rewrite. rewrite Hp.
  destruct (opt_prop "message" (first_choice data)) as [m|]; [|reflexivity].
  destruct (opt_prop "reasoning" (Some m)) as [r|]; [|reflexivity].
  cbn in Hr. now rewrite Hr.
Qed.

End BatchRewrite.

Lemma length_append (a b : string) :
  String.length (a ++ b) = String.length a + String.length b.
Proof. induction a as [|c a IH]; simpl; [reflexivity | now rewrite IH]. Qed.

Section BatchClaim.
Context {N : JsNumber} {RT : JsRuntime}.

Example quote_two_lines :
  quoted_reasoning (split ("a" ++ nl ++ "b")) = ("> a" ++ nl ++ "> b")%string.
Proof. reflexivity. Qed.

Example quote_blank : quoted_reasoning (split EmptyString) = ">".
Proof. reflexivity. Qed.

Example quote_spaces_only : quote_line "  " = ">".
Proof. reflexivity. Qed.

(** C8, as the scripts have it.  A document whose first message has no
    truthy reasoning is returned as it came, and so is any document in a
    response whose status [new Response] refuses.  With a non-empty
    reasoning string, a content that converts to text and a status that
    [new Response] takes, the response is built anew: status and status text
    are those of the original, the headers too, with the content type of a
    text added when they name none, and the body is the document with a new
    message content.  That content is the quoted reasoning, a gap and the
    former content when the document has no truthy citations; the gap is two
    rules sharing their blank line in [reason.js] and in the first script of
    [part_000], a single rule in the second script of [part_000].  With a citations array whose items convert to
    text it is the quoted reasoning, a rule, the former content, a rule and
    the citations numbered from 1 (the index followed by [" > "] in
    [reason.js], by ["> "] in [part_000]).  When the content does not
    convert (an object that owns a [toString] key), the original response is
    returned.  Quoting puts [">"] for a line that trims to nothing and
    ["> "] before any other line. *)
Theorem batch_rewrite_contents (response : Response) (data : json) :
  JSON_parse (body response) = Some data ->
  (truthy_val (opt_prop "reasoning" (opt_prop "message" (first_choice data))) = false ->
   ReasonA.processNonStreamingResponse response = response
   /\ ReasonB.processNonStreamingResponse response = response
   /\ PartC.processNonStreamingResponse response = response
   /\ PartD.processNonStreamingResponse response = response)
  /\ (forall fields r,
         document_message data fields ->
         assoc "reasoning" fields = Some (JStr r) ->
         r <> EmptyString ->
         let quoted := join nl (map quote_line (split r)) in
         (forall original,
             val_to_string (assoc "content" fields) = Some original ->
             takes_body (status response) = true ->
             (forall s, assoc "content" fields = Some (JStr s) -> original = s)
             /\ (truthy_val (prop "citations" data) = false ->
                 rewritten_to (ReasonA.processNonStreamingResponse response)
                   response data fields (quoted ++ DOUBLE_RULE ++ original)
                 /\ rewritten_to (ReasonB.processNonStreamingResponse response)
                      response data fields (quoted ++ DOUBLE_RULE ++ original)
                 /\ rewritten_to (PartC.processNonStreamingResponse response)
                      response data fields (quoted ++ DOUBLE_RULE ++ original)
                 /\ rewritten_to (PartD.processNonStreamingResponse response)
                      response data fields (quoted ++ RULE ++ original))
             /\ (forall items texts,
                    prop "citations" data = Some (JArr items) ->
                    rendered items texts ->
                    rewritten_to (ReasonA.processNonStreamingResponse response)
                      response data fields
                      (quoted ++ RULE ++ original ++ RULE ++ listing SPACED texts)
                    /\ rewritten_to (ReasonB.processNonStreamingResponse response)
                         response data fields
                         (quoted ++ RULE ++ original ++ RULE ++ listing SPACED texts)
                    /\ rewritten_to (PartC.processNonStreamingResponse response)
                         response data fields
                         (quoted ++ RULE ++ original ++ RULE ++ listing TIGHT texts)
                    /\ rewritten_to (PartD.processNonStreamingResponse response)
                         response data fields
                         (quoted ++ RULE ++ original ++ RULE ++ listing TIGHT texts)))
         /\ (val_to_string (assoc "content" fields) = None ->
             ReasonA.processNonStreamingResponse response = response
             /\ ReasonB.processNonStreamingResponse response = response
             /\ PartC.processNonStreamingResponse response = response
             /\ PartD.processNonStreamingResponse response = response))
  /\ (takes_body (status response) = false ->
      ReasonA.processNonStreamingResponse response = response
      /\ ReasonB.processNonStreamingResponse response = response
      /\ PartC.processNonStreamingResponse response = response
      /\ PartD.processNonStreamingResponse response = response)
  /\ (forall result fields text,
         rewritten_to result response data fields text ->
         status result = status response
         /\ statusText result = statusText response
         /\ headers result
            = (if has_content_type (headers response) then headers response
               else with_content_type (headers response))
         /\ body result = JSON_stringify (set_message_content text data)).
Proof.
  intros Hp. split; [|split; [|split]].
  - intros Hr. repeat split; now apply (process_document_untouched _ _ _ data).
  - intros fields r Hdoc Hr Hne quoted. split.
    + intros original Ho Hst. split; [|split].
      * intros s Hs. rewrite Hs in Ho. now injection Ho.
      * intros Hc. split; [|split; [|split]].
        -- exact (process_document_plain SPACED DOUBLE_RULE _ _ _ _ _
                    Hp Hdoc Hr Hne Ho Hst Hc).
        -- exact (process_document_plain SPACED DOUBLE_RULE _ _ _ _ _
                    Hp Hdoc Hr Hne Ho Hst Hc).
        -- exact (process_document_plain TIGHT DOUBLE_RULE _ _ _ _ _
                    Hp Hdoc Hr Hne Ho Hst Hc).
        -- exact (process_document_plain TIGHT RULE _ _ _ _ _
                    Hp Hdoc Hr Hne Ho Hst Hc).
      * intros items texts Hc Hi. split; [|split; [|split]].
        -- exact (process_document_cited SPACED DOUBLE_RULE _ _ _ _ _ _ _
                    Hp Hdoc Hr Hne Ho Hst Hc Hi).
        -- exact (process_document_cited SPACED DOUBLE_RULE _ _ _ _ _ _ _
                    Hp Hdoc Hr Hne Ho Hst Hc Hi).
        -- exact (process_document_cited TIGHT DOUBLE_RULE _ _ _ _ _ _ _
                    Hp Hdoc Hr Hne Ho Hst Hc Hi).
        -- exact (process_document_cited TIGHT RULE _ _ _ _ _ _ _
                    Hp Hdoc Hr Hne Ho Hst Hc Hi).
    + intros Ho. repeat split;
        exact (process_document_unconverted _ _ _ _ _ _ Hp Hdoc Hr Hne Ho).
  - intros Hst. repeat split; exact (process_document_refused _ _ _ Hst).
  - intros result fields text (-> & _). now repeat split.
Qed.

End BatchClaim.

(** C8 at a document with reasoning, content and two citations, in a
    response whose headers name no content type. *)
Lemma batch_rewrite_contents_witness :
  let response :=
    {| status := 200; statusText := "OK"; headers := [("x-request", "7")];
       body := Sample.stringify Sample.reasoned_cited_doc |} in
  let fields :=
    [("content", JStr "c"); ("reasoning", JStr ("a" ++ nl ++ nl ++ "b"))] in
  let text :=
    ("> a" ++ nl ++ ">" ++ nl ++ "> b" ++ RULE ++ "c" ++ RULE
       ++ "[1] > u" ++ nl ++ "[2] > v")%string in
  @JSON_parse _ Sample.engine (body response) = Some Sample.reasoned_cited_doc
  /\ @document_message Sample.numbers Sample.reasoned_cited_doc fields
  /\ @rendered Sample.numbers [JStr "u"; JStr "v"] ["u"; "v"]
  /\ @rewritten_to Sample.numbers Sample.engine
       (@ReasonA.processNonStreamingResponse _ Sample.engine response)
       response Sample.reasoned_cited_doc fields text
  /\ headers (@ReasonA.processNonStreamingResponse _ Sample.engine response)
     = [("content-type", "text/plain;charset=UTF-8"); ("x-request", "7")].
Proof.
  intros response fields text.
  assert (Hdoc : @document_message Sample.numbers
                   Sample.reasoned_cited_doc fields).
  { exists (JObj [("message", JObj fields)]), []. now split. }
  assert (Hi : @rendered Sample.numbers [JStr "u"; JStr "v"] ["u"; "v"])
    by reflexivity.
  split; [reflexivity|]. split; [exact Hdoc|]. split; [exact Hi|].
  destruct (@batch_rewrite_contents Sample.numbers Sample.engine response
              Sample.reasoned_cited_doc eq_refl) as (_ & Hrw & _ & Henv).
  assert (Hne : ("a" ++ nl ++ nl ++ "b")%string <> EmptyString) by discriminate.
  destruct (proj1 (Hrw fields _ Hdoc eq_refl Hne) "c" eq_refl eq_refl)
    as (_ & _ & Hcited).
  pose proof (proj1 (Hcited [JStr "u"; JStr "v"] ["u"; "v"] eq_refl Hi)) as Hrun.
  split; [exact Hrun|].
  exact (proj1 (proj2 (proj2 (Henv _ fields text Hrun)))).
Defined.

(** The claim C8 fails on the second script of [part_000]: with reasoning and
    no citations the content is the quoted reasoning, ONE rule and the former
    content, which is not [quoted + sep + sep + content] for any [sep]. *)
Lemma batch_single_rule_counterexample :
  let response :=
    {| status := 200; statusText := "OK"; headers := [];
       body := Sample.stringify Sample.reasoned_doc |} in
  let quoted := ("> a" ++ nl ++ ">" ++ nl ++ "> b")%string in
  @rewritten_content _ Sample.engine TIGHT RULE response
  = Some (quoted ++ RULE ++ "c")%string
  /\ @PartD.processNonStreamingResponse _ Sample.engine response
     = {| status := 200; statusText := "OK";
          headers := [("content-type", "text/plain;charset=UTF-8")];
          body := Sample.stringify
                    (Sample.message_doc
                       [("content", JStr (quoted ++ RULE ++ "c"));
                        ("reasoning", JStr ("a" ++ nl ++ nl ++ "b"))] []) |}
  /\ ~ (exists sep : string,
           (quoted ++ RULE ++ "c")%string = (quoted ++ sep ++ sep ++ "c")%string).
Proof.
  intros response quoted. split; [reflexivity|]. split; [reflexivity|].
  intros [sep H]. apply (f_equal String.length) in H.
  rewrite !length_append in H. cbn in H. lia.
Qed.

(** ** The markers of the reasoning block *)

Section Markers.
Context {N : JsNumber} {RT : JsRuntime}.

Lemma scan_app (a b : list emit) :
  forall p, scan p (a ++ b) = match scan p a with
                              | Some q => scan q b
                              | None => None
                              end.
Proof.
  induction a as [|e a IH]; intros p; [reflexivity|].
  destruct p, e; cbn [app scan]; try reflexivity; apply IH.
Qed.

Lemma scan_plain (out : list emit) (p : phase) :
  p <> Closing -> forallb plain out = true -> scan p out = Some p.
Proof.
  intros Hp. induction out as [|e out IH]; [reflexivity|].
  cbn [forallb]. intros H. apply andb_prop in H. destruct H as [He Ho].
  destruct p, e; try discriminate; try (now destruct Hp); cbn [scan]; now apply IH.
Qed.

Lemma scan_counts (out : list emit) :
  forall p q,
    scan p out = Some q ->
    count is_header out + headers_of p = headers_of q
    /\ count is_separator out + separators_of p = separators_of q.
Proof.
  unfold count.
  induction out as [|e out IH]; intros p q H.
  - cbn in H. inversion H. now split.
  - destruct p, e; cbn [scan] in H; try discriminate;
      apply IH in H; cbn [filter is_header is_separator List.length] in *;
      cbn [headers_of separators_of] in *; lia.
Qed.

(** Where the header stands: nothing but plain events before it. *)
Lemma scan_header_first (out : list emit) :
  forall q,
    scan NotStarted out = Some q ->
    q <> NotStarted ->
    exists pre h post,
      out = pre ++ Header h :: post /\ forallb plain pre = true.
Proof.
  induction out as [|e out IH]; intros q H Hq.
  - cbn in H. inversion H. now destruct Hq.
  - destruct e; cbn [scan] in H; try discriminate.
    + exists [], ev, out. now split.
    + destruct (IH q H Hq) as (pre & h & post & -> & Hpre).
      exists (Footer ev :: pre), h, post. now split.
    + destruct (IH q H Hq) as (pre & h & post & -> & Hpre).
      exists (Cleaned ev :: pre), h, post. now split.
    + destruct (IH q H Hq) as (pre & h & post & -> & Hpre).
      exists (Forward line :: pre), h, post. now split.
Qed.

Lemma line_effect_scan (line : string) (st st' : session) (acc out : list emit)
    (r : completion unit) :
  line_effect line st (out, st', r) ->
  flags_ok st ->
  scan NotStarted acc = Some (phase_of st) ->
  flags_ok st' /\ scan NotStarted (acc ++ out) = Some (phase_of st').
Proof.
  intros He Hok Hacc. rewrite scan_app, Hacc. unfold flags_ok, phase_of in *.
  inversion He as [o s r0 Hpl Hs He' Heq
                  | h tail s r0 Hs0 Htail Hs1 He1 Heq
                  | f s r0 Hs0 Hs1 He1 Heq
                  | sp s r0 Hs0 He0 Hs1 He1 Heq]; subst.
  - rewrite Hs, He'. split; [exact Hok|].
    apply scan_plain; [|assumption].
    destruct (reasoningStarted st), (reasoningEnded st); discriminate.
  - rewrite Hs0, Hs1, He1, (Hok Hs0). split; [discriminate|].
    destruct Htail as [[f ->]| ->]; reflexivity.
  - rewrite Hs0, Hs1, He1. split; [discriminate|].
    now destruct (reasoningEnded st).
  - rewrite Hs0, He0, Hs1, He1. split; [discriminate|]. reflexivity.
Qed.

End Markers.

(** ** One header, one separator *)

Section Bracketing.
Context {N : JsNumber} {RT : JsRuntime}.
Variable clock : nat -> number.
Variable process_line : number -> string -> script unit.
Variable finish : script unit.
Variable test : json -> bool.

Hypothesis H_effect :
  forall now line st, line_effect line st (process_line now line st).
Hypothesis H_finish :
  forall st out st' r, finish st = (out, st', r) -> forallb plain out = true.
Hypothesis H_reasoning :
  forall now line st out st' r,
    process_line now line st = (out, st', r) ->
    reasoning_line test line ->
    reasoningStarted st' = true.
Hypothesis H_content :
  forall now line st out st' r,
    process_line now line st = (out, st', r) ->
    content_line line ->
    reasoningStarted st = true ->
    reasoningEnded st' = true /\ exists o, out = o ++ [Forward line].
Hypothesis H_none :
  forall now line st out st' r,
    process_line now line st = (out, st', r) ->
    ~ carries_reasoning line ->
    reasoningStarted st = false ->
    forallb plain out = true /\ reasoningStarted st' = false.

Lemma effect_keeps_started line st out st' r :
  line_effect line st (out, st', r) ->
  reasoningStarted st = true -> reasoningStarted st' = true.
Proof. intros He Hs. inversion He; subst; congruence. Qed.

Lemma effect_keeps_ended line st out st' r :
  line_effect line st (out, st', r) ->
  reasoningEnded st = true -> reasoningEnded st' = true.
Proof. intros He Hs. inversion He; subst; congruence. Qed.

(** One turn of the [for] loop. *)
Lemma for_lines_cons line rest n st out st' r :
  for_lines clock process_line n (line :: rest) st = (out, st', r) ->
  (exists o1 s1 o2,
      process_line (clock n) line st = (o1, s1, Normal tt)
      /\ for_lines clock process_line (S n) rest s1 = (o2, st', r)
      /\ out = o1 ++ o2)
  \/ (process_line (clock n) line st = (out, st', Thrown) /\ r = Thrown).
Proof.
  cbn [for_lines]. unfold bind.
  destruct (process_line (clock n) line st) as [[o1 s1] [[]|]].
  - destruct (for_lines clock process_line (S n) rest s1) as [[o2 s2] r2] eqn:E2.
    intros H. inversion H; subst. left. exists o1, s1, o2. auto.
  - intros H. inversion H; subst. right. auto.
Qed.

Lemma loop_invariant lines :
  forall n st acc out st' r,
    flags_ok st ->
    scan NotStarted acc = Some (phase_of st) ->
    for_lines clock process_line n lines st = (out, st', r) ->
    flags_ok st' /\ scan NotStarted (acc ++ out) = Some (phase_of st').
Proof.
  induction lines as [|line rest IH]; intros n st acc out st' r Hok Hacc H.
  - cbn in H. inversion H; subst. rewrite app_nil_r. now split.
  - apply for_lines_cons in H.
    destruct H as [(o1 & s1 & o2 & H1 & H2 & ->) | [H1 ->]].
    + pose proof (H_effect (clock n) line st) as He. rewrite H1 in He.
      destruct (line_effect_scan _ _ _ acc _ _ He Hok Hacc) as [Hok1 Hs1].
      rewrite app_assoc. eapply IH; eassumption.
    + pose proof (H_effect (clock n) line st) as He. rewrite H1 in He.
      exact (line_effect_scan _ _ _ acc _ _ He Hok Hacc).
Qed.

Lemma loop_keeps_flags lines :
  forall n st out st' r,
    for_lines clock process_line n lines st = (out, st', r) ->
    (reasoningStarted st = true -> reasoningStarted st' = true)
    /\ (reasoningEnded st = true -> reasoningEnded st' = true).
Proof.
  induction lines as [|line rest IH]; intros n st out st' r H.
  - cbn in H. now inversion H; subst.
  - apply for_lines_cons in H.
    destruct H as [(o1 & s1 & o2 & H1 & H2 & ->) | [H1 ->]];
      pose proof (H_effect (clock n) line st) as He; rewrite H1 in He.
    + destruct (IH _ _ _ _ _ H2) as [IHs IHe]. split; intros Hf.
      * apply IHs. eapply effect_keeps_started; eassumption.
      * apply IHe. eapply effect_keeps_ended; eassumption.
    + split; intros Hf.
      * eapply effect_keeps_started; eassumption.
      * eapply effect_keeps_ended; eassumption.
Qed.

Lemma loop_starts lines :
  forall n st out st',
    for_lines clock process_line n lines st = (out, st', Normal tt) ->
    Exists (reasoning_line test) lines ->
    reasoningStarted st' = true.
Proof.
  induction lines as [|line rest IH]; intros n st out st' H Hex.
  - inversion Hex.
  - apply for_lines_cons in H.
    destruct H as [(o1 & s1 & o2 & H1 & H2 & ->) | [_ H]]; [|discriminate].
    inversion Hex as [? ? Hr | ? ? Hr]; subst.
    + apply (loop_keeps_flags _ _ _ _ _ _ H2).
      eapply H_reasoning; eassumption.
    + eapply IH; eassumption.
Qed.

Lemma loop_without_reasoning lines :
  forall n st out st' r,
    for_lines clock process_line n lines st = (out, st', r) ->
    Forall (fun line => ~ carries_reasoning line) lines ->
    reasoningStarted st = false ->
    forallb plain out = true /\ reasoningStarted st' = false.
Proof.
  induction lines as [|line rest IH]; intros n st out st' r H Hall Hs.
  - cbn in H. inversion H; subst. now split.
  - inversion Hall as [|? ? Hline Hrest]; subst.
    apply for_lines_cons in H.
    destruct H as [(o1 & s1 & o2 & H1 & H2 & ->) | [H1 ->]].
    + destruct (H_none _ _ _ _ _ _ H1 Hline Hs) as [Hp1 Hs1].
      destruct (IH _ _ _ _ _ H2 Hrest Hs1) as [Hp2 Hs2].
      split; [|exact Hs2]. rewrite forallb_app. now rewrite Hp1, Hp2.
    + exact (H_none _ _ _ _ _ _ H1 Hline Hs).
Qed.

Lemma for_lines_split l1 :
  forall l2 n st out st',
    for_lines clock process_line n (l1 ++ l2) st = (out, st', Normal tt) ->
    exists o1 s1 o2,
      for_lines clock process_line n l1 st = (o1, s1, Normal tt)
      /\ for_lines clock process_line (n + List.length l1) l2 s1 = (o2, st', Normal tt)
      /\ out = o1 ++ o2.
Proof.
  induction l1 as [|line rest IH]; intros l2 n st out st' H.
  - exists [], st, out. cbn [List.length app] in *. rewrite Nat.add_0_r. auto.
  - cbn [app] in H. apply for_lines_cons in H.
    destruct H as [(o1 & s1 & o2 & H1 & H2 & ->) | [_ H]]; [|discriminate].
    destruct (IH _ _ _ _ _ H2) as (oa & sa & ob & Ha & Hb & ->).
    exists (o1 ++ oa), sa, ob. cbn [List.length]. rewrite Nat.add_succ_r.
    split; [|split; [exact Hb | now rewrite app_assoc]].
    cbn [for_lines]. unfold bind. now rewrite H1, Ha.
Qed.

Lemma count_app f (a b : list emit) : count f (a ++ b) = count f a + count f b.
Proof. unfold count. now rewrite filter_app, length_app. Qed.

Lemma count_plain (out : list emit) :
  forallb plain out = true ->
  count is_header out = 0 /\ count is_separator out = 0 /\ count is_fragment out = 0.
Proof.
  unfold count. induction out as [|e out IH]; [now repeat split|].
  cbn [forallb]. intros H. apply andb_prop in H. destruct H as [He Ho].
  destruct (IH Ho) as (H1 & H2 & H3).
  destruct e; try discriminate; cbn; auto.
Qed.

(** The run: the lines one after the other, then what [done] triggers. *)
Lemma run_lines_output init lines out oc :
  run_lines clock process_line finish init lines = (out, oc) ->
  exists o1 st1 r1 o2,
    for_lines clock process_line 0 lines init = (o1, st1, r1)
    /\ out = o1 ++ o2
    /\ forallb plain o2 = true
    /\ (oc = Closed -> r1 = Normal tt).
Proof.
  unfold run_lines, bind.
  destruct (for_lines clock process_line 0 lines init) as [[o1 s1] [[]|]] eqn:E.
  - destruct (finish s1) as [[o2 s2] r2] eqn:E2.
    intros H. exists o1, s1, (Normal tt), o2.
    repeat split; [| apply (H_finish _ _ _ _ E2)].
    destruct r2; now inversion H.
  - intros H. injection H as Ho Hoc. exists o1, s1, Thrown, [].
    rewrite app_nil_r. repeat split; [now symmetry|].
    intros Hc. rewrite Hc in Hoc. discriminate.
Qed.

Lemma phase_of_flags (st : session) :
  phase_of st <> Closing
  /\ (reasoningStarted st = true -> phase_of st <> NotStarted)
  /\ (reasoningStarted st = true -> reasoningEnded st = true -> phase_of st = Ended)
  /\ (reasoningStarted st = false -> phase_of st = NotStarted).
Proof.
  unfold phase_of.
  destruct (reasoningStarted st), (reasoningEnded st); repeat split;
    intros; congruence.
Qed.

Lemma markers_once init lines out oc :
  reasoningStarted init = false ->
  reasoningEnded init = false ->
  run_lines clock process_line finish init lines = (out, oc) ->
  (exists q, scan NotStarted out = Some q /\ q <> Closing)
  /\ count is_header out <= 1
  /\ count is_separator out <= 1
  /\ (Forall (fun line => ~ carries_reasoning line) lines ->
      count is_header out = 0 /\ count is_separator out = 0)
  /\ (oc = Closed ->
      Exists (reasoning_line test) lines ->
      count is_header out = 1
      /\ exists pre h post,
           out = pre ++ Header h :: post /\ count is_fragment pre = 0)
  /\ (oc = Closed ->
      forall l1 r l2 c l3,
        lines = l1 ++ r :: l2 ++ c :: l3 ->
        reasoning_line test r ->
        content_line c ->
        count is_separator out = 1
        /\ exists o post,
             out = o ++ Forward c :: post /\ count is_separator o = 1).
Proof.
  intros Hs0 He0 Hrun.
  destruct (run_lines_output _ _ _ _ Hrun) as (o1 & st1 & r1 & o2 & Hloop & -> & Hp2 & Hclosed).
  assert (Hok0 : flags_ok init) by (intros _; exact He0).
  assert (Hsc0 : scan NotStarted [] = Some (phase_of init)).
  { cbn. f_equal. symmetry. now apply phase_of_flags. }
  destruct (loop_invariant _ _ _ _ _ _ _ Hok0 Hsc0 Hloop) as [Hok1 Hsc1].
  cbn [app] in Hsc1.
  destruct (phase_of_flags st1) as (Hnc & Hst & Hen & Hns).
  assert (Hsc : scan NotStarted (o1 ++ o2) = Some (phase_of st1)).
  { rewrite scan_app, Hsc1. now apply scan_plain. }
  destruct (scan_counts _ _ _ Hsc) as [Hch Hcs]. cbn [headers_of separators_of] in Hch, Hcs.
  split; [now exists (phase_of st1)|].
  split; [destruct (phase_of st1); cbn in Hch; lia|].
  split; [destruct (phase_of st1); cbn in Hcs; lia|].
  split; [|split].
  - intros Hall.
    destruct (loop_without_reasoning _ _ _ _ _ _ Hloop Hall Hs0) as [Hp1 Hs1].
    rewrite !count_app.
    destruct (count_plain _ Hp1) as (-> & -> & _).
    destruct (count_plain _ Hp2) as (-> & -> & _). now split.
  - intros Hc Hex. rewrite (Hclosed Hc) in Hloop.
    pose proof (loop_starts _ _ _ _ _ Hloop Hex) as Hs1.
    split.
    + specialize (Hst Hs1). destruct (phase_of st1); cbn in Hch; try lia; congruence.
    + destruct (scan_header_first _ _ Hsc (Hst Hs1)) as (pre & h & post & Heq & Hpre).
      exists pre, h, post. split; [exact Heq|]. now apply count_plain.
  - intros Hc l1 r l2 c l3 Hlines Hr Hcl. rewrite (Hclosed Hc) in Hloop.
    subst lines.
    change (l1 ++ r :: l2 ++ c :: l3) with (l1 ++ (r :: l2) ++ c :: l3) in Hloop.
    rewrite app_assoc in Hloop.
    destruct (for_lines_split _ _ _ _ _ _ Hloop) as (oa & sa & ob & Ha & Hb & ->).
    apply for_lines_cons in Hb.
    destruct Hb as [(oc1 & sb & od & H1 & H2 & ->) | [_ Hb]]; [|discriminate].
    assert (Hsa : reasoningStarted sa = true).
    { apply (loop_starts _ _ _ _ _ Ha). apply Exists_app. right. now left. }
    destruct (H_content _ _ _ _ _ _ H1 Hcl Hsa) as [Heb [o ->]].
    pose proof (H_effect (clock (0 + List.length (l1 ++ r :: l2))) c sa) as Hec.
    rewrite H1 in Hec.
    pose proof (effect_keeps_started _ _ _ _ _ Hec Hsa) as Hsb.
    destruct (loop_keeps_flags _ _ _ _ _ _ H2) as [Hks Hke].
    split.
    + rewrite (Hen (Hks Hsb) (Hke Heb)) in Hcs. cbn in Hcs. lia.
    + destruct (loop_invariant _ _ _ _ _ _ _ Hok0 Hsc0 Ha) as [Hoka Hsca].
      cbn [app] in Hsca.
      destruct (line_effect_scan _ _ _ oa _ _ Hec Hoka Hsca) as [_ Hscb].
      destruct (phase_of_flags sb) as (_ & _ & Henb & _).
      rewrite (Henb Hsb Heb) in Hscb.
      destruct (scan_counts _ _ _ Hscb) as [_ Hcb]. cbn in Hcb.
      exists (oa ++ o), (od ++ o2). split.
      * rewrite <- !app_assoc. reflexivity.
      * rewrite app_assoc, count_app in Hcb.
        change (count is_separator [Forward c]) with 0 in Hcb. lia.
Qed.

End Bracketing.

(** ** The revisions with markers, line by line *)

Ltac unfold_script :=
  cbv beta iota zeta delta
    [ReasonA.process_line ReasonA.finish
     ReasonB.process_line ReasonB.on_data ReasonB.on_delta ReasonB.finish
     PartC.process_line PartC.on_data PartC.on_delta PartC.finish
     PartD.process_line PartD.on_data PartD.on_delta PartD.finish
     PartD.store_citations PartD.forward_clean
     reasoning_branch separator_branch capture_citations send_citations
     numbered_list parse_payload read_citations replace_breaks must
     try_catch bind ret throw enqueue vars assign].

(** Case analysis on every test the unfolded script makes. *)
Ltac break :=
  repeat match goal with
  | |- context [match ?x with _ => _ end] =>
      lazymatch x with
      | context [match _ with _ => _ end] => fail
      | _ => destruct x eqn:?
      end
  end.

Ltac flags st :=
  cbn [app set_citations set_citationsReceived set_startThinkingTime
       set_reasoningStarted set_reasoningEnded reasoningStarted reasoningEnded] in *;
  destruct (reasoningStarted st) eqn:?, (reasoningEnded st) eqn:?;
  cbn [negb andb] in *; try discriminate;
  try match goal with
      | H : context [_ && false] |- _ =>
          rewrite ?andb_true_r, ?andb_false_r in H; cbn [andb] in H; discriminate H
      end.

Ltac effect :=
  first [ solve [apply effect_plain; cbn; auto]
        | solve [apply effect_start; cbn; eauto]
        | solve [apply effect_more; cbn; auto]
        | solve [apply effect_end; cbn; auto] ].

Ltac keyed st :=
  unfold_script;
  repeat match goal with
         | E : _ = _ |- _ => rewrite E
         end;
  break; cbn [fst snd];
  flags st; try congruence.

Ltac has_reasoning :=
  match goal with
  | Hno : ~ carries_reasoning _, Ht : _ ?d = true,
    Hfd : first_delta ?data = Some ?d |- _ =>
      exfalso; apply Hno;
      unfold ReasonB.reasoning_test, PartC.reasoning_test, PartD.reasoning_test in Ht;
      apply andb_prop in Ht; destruct Ht as [Ht _];
      destruct (prop "reasoning" d) as [v|] eqn:Hv; [|discriminate];
      exists data, d, v; repeat split; assumption
  end.

Section RevisionFacts.
Context {N : JsNumber} {RT : JsRuntime}.

Lemma first_delta_choice data delta :
  first_delta data = Some delta -> exists choice, first_choice data = Some choice.
Proof.
  unfold first_delta. destruct (first_choice data) as [c|]; [|discriminate].
  intros _. now exists c.
Qed.

Lemma ReasonB_effect now line st :
  line_effect line st (ReasonB.process_line now line st).
Proof. unfold_script. break. all: flags st. all: effect. Qed.

Lemma PartC_effect now line st :
  line_effect line st (PartC.process_line now line st).
Proof. unfold_script. break. all: flags st. all: effect. Qed.

Lemma ReasonB_reasoning now line st :
  reasoning_line ReasonB.reasoning_test line ->
  reasoningStarted (state_after (ReasonB.process_line now line st)) = true.
Proof.
  intros (data & delta & (Hm & Hd & Hp) & Hfd & Htd & Htest).
  destruct (first_delta_choice _ _ Hfd) as [choice Hfc].
  unfold state_after. keyed st.
Qed.

Lemma PartC_reasoning now line st :
  reasoning_line PartC.reasoning_test line ->
  reasoningStarted (state_after (PartC.process_line now line st)) = true.
Proof.
  intros (data & delta & (Hm & Hd & Hp) & Hfd & Htd & Htest).
  destruct (first_delta_choice _ _ Hfd) as [choice Hfc].
  unfold state_after. keyed st.
Qed.

Lemma content_not_reasoning_B delta s :
  prop "content" delta = Some (JStr s) ->
  truthy delta = true
  /\ ReasonB.reasoning_test delta = false /\ ReasonB.content_test delta = true.
Proof.
  intros H. unfold ReasonB.reasoning_test, ReasonB.content_test. rewrite H.
  destruct delta; try discriminate. cbn. now rewrite andb_false_r.
Qed.

Lemma content_not_reasoning_C delta s :
  prop "content" delta = Some (JStr s) -> s <> EmptyString ->
  truthy delta = true
  /\ PartC.reasoning_test delta = false /\ PartC.content_test delta = true.
Proof.
  intros H Hs. unfold PartC.reasoning_test, PartC.content_test. rewrite H.
  destruct delta; try discriminate. cbn.
  destruct (String.eqb s "") eqn:E; [now apply String.eqb_eq in E|].
  cbn. now rewrite andb_false_r.
Qed.

Lemma ReasonB_content now line st :
  content_line line ->
  reasoningStarted st = true ->
  reasoningEnded (state_after (ReasonB.process_line now line st)) = true
  /\ exists o, output_of (ReasonB.process_line now line st) = o ++ [Forward line].
Proof.
  intros (data & delta & s & (Hm & Hd & Hp) & Hfd & Hc & Hs) Hst.
  destruct (content_not_reasoning_B _ _ Hc) as (Htd & Hrt & Hct). clear Hc Hs.
  destruct (first_delta_choice _ _ Hfd) as [choice Hfc].
  unfold state_after, output_of. keyed st.
  all: split; [reflexivity|]; first [now exists [] | now eexists [_]].
Qed.

Lemma PartC_content now line st :
  content_line line ->
  reasoningStarted st = true ->
  reasoningEnded (state_after (PartC.process_line now line st)) = true
  /\ exists o, output_of (PartC.process_line now line st) = o ++ [Forward line].
Proof.
  intros (data & delta & s & (Hm & Hd & Hp) & Hfd & Hc & Hs) Hst.
  destruct (content_not_reasoning_C _ _ Hc Hs) as (Htd & Hrt & Hct). clear Hc Hs.
  destruct (first_delta_choice _ _ Hfd) as [choice Hfc].
  unfold state_after, output_of. keyed st.
  all: split; [reflexivity|]; first [now exists [] | now eexists [_]].
Qed.

Lemma ReasonB_none now line st :
  ~ carries_reasoning line ->
  reasoningStarted st = false ->
  forallb plain (output_of (ReasonB.process_line now line st)) = true
  /\ reasoningStarted (state_after (ReasonB.process_line now line st)) = false.
Proof.
  intros Hno Hst. unfold state_after, output_of.
  unfold_script. break; cbn [fst snd]; flags st; try congruence.
  all: try (now split).
  all: has_reasoning.
Qed.

Lemma PartC_none now line st :
  ~ carries_reasoning line ->
  reasoningStarted st = false ->
  forallb plain (output_of (PartC.process_line now line st)) = true
  /\ reasoningStarted (state_after (PartC.process_line now line st)) = false.
Proof.
  intros Hno Hst. unfold state_after, output_of.
  unfold_script. break; cbn [fst snd]; flags st; try congruence.
  all: try (now split).
  all: has_reasoning.
Qed.

Lemma ReasonB_finish st : forallb plain (output_of (ReasonB.finish st)) = true.
Proof. unfold output_of. unfold_script. break; reflexivity. Qed.

Lemma PartC_finish st : forallb plain (output_of (PartC.finish st)) = true.
Proof. unfold output_of. unfold_script. break; reflexivity. Qed.

End RevisionFacts.

Section MarkersClaim.
Context {N : JsNumber} {RT : JsRuntime}.
Variable clock : nat -> number.

Lemma ReasonB_bracketed (lines : list string) :
  let run := run_lines clock ReasonB.process_line ReasonB.finish ReasonB.initial lines in
  bracketed ReasonB.reasoning_test lines (fst run) (snd run).
Proof.
  intros run. destruct run as [out oc] eqn:E. unfold run in E. cbn [fst snd].
  refine (markers_once clock ReasonB.process_line ReasonB.finish
            ReasonB.reasoning_test ReasonB_effect _ _ _ _
            ReasonB.initial lines out oc eq_refl eq_refl E).
  - intros st o st' r H. pose proof (ReasonB_finish st) as Hf.
    unfold output_of in Hf. now rewrite H in Hf.
  - intros now line st o st' r H Hl.
    pose proof (ReasonB_reasoning now line st Hl) as Hf.
    unfold state_after in Hf. now rewrite H in Hf.
  - intros now line st o st' r H Hl Hs.
    pose proof (ReasonB_content now line st Hl Hs) as Hf.
    unfold state_after, output_of in Hf. now rewrite H in Hf.
  - intros now line st o st' r H Hl Hs.
    pose proof (ReasonB_none now line st Hl Hs) as Hf.
    unfold state_after, output_of in Hf. now rewrite H in Hf.
Qed.

Lemma PartC_bracketed (lines : list string) :
  let run := run_lines clock PartC.process_line PartC.finish PartC.initial lines in
  bracketed PartC.reasoning_test lines (fst run) (snd run).
Proof.
  intros run. destruct run as [out oc] eqn:E. unfold run in E. cbn [fst snd].
  refine (markers_once clock PartC.process_line PartC.finish
            PartC.reasoning_test PartC_effect _ _ _ _
            PartC.initial lines out oc eq_refl eq_refl E).
  - intros st o st' r H. pose proof (PartC_finish st) as Hf.
    unfold output_of in Hf. now rewrite H in Hf.
  - intros now line st o st' r H Hl.
    pose proof (PartC_reasoning now line st Hl) as Hf.
    unfold state_after in Hf. now rewrite H in Hf.
  - intros now line st o st' r H Hl Hs.
    pose proof (PartC_content now line st Hl Hs) as Hf.
    unfold state_after, output_of in Hf. now rewrite H in Hf.
  - intros now line st o st' r H Hl Hs.
    pose proof (PartC_none now line st Hl Hs) as Hf.
    unfold state_after, output_of in Hf. now rewrite H in Hf.
Qed.

(** C1, as the scripts have it.  In the two revisions the claim is drawn
    from, whatever the chunks: the output holds at most one header and at
    most one separator, and they bracket properly (plain events, the header,
    fragments, the separator directly followed by a forwarded line, the
    rest).  When no line carries a reasoning field there is neither header
    nor separator.  When the stream is closed normally and some line is one
    the script treats as reasoning (a truthy reasoning with a content that is
    [null] in [reason.js], that is falsy in [part_000]), there is exactly one
    header and no fragment precedes it; when moreover a line with a
    non-empty content follows such a line, there is exactly one separator
    and it stands before the forwarding of that line. *)
Theorem markers_bracket_reasoning (chunks : list string) :
  let lines := complete_lines (text_of chunks) in
  bracketed ReasonB.reasoning_test lines
    (fst (ReasonB.processStreamingResponse clock chunks))
    (snd (ReasonB.processStreamingResponse clock chunks))
  /\ bracketed PartC.reasoning_test lines
       (fst (PartC.processStreamingResponse clock chunks))
       (snd (PartC.processStreamingResponse clock chunks)).
Proof.
  intros lines. rewrite ReasonB_by_lines, PartC_by_lines. split.
  - apply ReasonB_bracketed.
  - apply PartC_bracketed.
Qed.

End MarkersClaim.

(** ** Entering the reasoning phase *)

Section StartClaim.
Context {N : JsNumber} {RT : JsRuntime}.

Lemma first_delta_of_choice data choice delta :
  first_choice data = Some choice ->
  prop "delta" choice = Some delta ->
  first_delta data = Some delta.
Proof.
  intros Hc Hd. unfold first_delta. rewrite Hc.
  destruct choice; try discriminate. exact Hd.
Qed.

(** C2, as the scripts have it.  A data event whose first delta carries a
    non-empty reasoning string, arriving while neither flag is set: when the
    content is the JSON value [null], both revisions record the clock
    reading, enqueue the header and then the reasoning with ["> "] put after
    each line feed, and set [reasoningStarted]; when the content key is
    absent, the first script of [part_000] does the same. *)
Theorem reasoning_starts (now : number) (line : string)
    (data choice delta : json) (r : string) (st : session) :
  data_event line data ->
  first_choice data = Some choice ->
  prop "delta" choice = Some delta ->
  prop "reasoning" delta = Some (JStr r) ->
  r <> EmptyString ->
  reasoningStarted st = false ->
  reasoningEnded st = false ->
  (prop "content" delta = Some JNull ->
   exists st',
     ReasonB.process_line now line st
     = ([Header (spread_event data choice THINKING_HEADER);
         Fragment (spread_event data choice (quote_breaks r))],
        st', Normal tt)
     /\ startThinkingTime st' = Some now
     /\ phase_of st = NotStarted /\ phase_of st' = Active)
  /\ (prop "content" delta = Some JNull \/ prop "content" delta = None ->
      exists st',
        PartC.process_line now line st
        = ([Header (bare_event THINKING_HEADER);
            Fragment (bare_event (quote_breaks r))],
           st', Normal tt)
        /\ startThinkingTime st' = Some now
        /\ phase_of st = NotStarted /\ phase_of st' = Active).
Proof.
  intros (Hm & Hd & Hp) Hfc Hdelta Hr Hne Hs He.
  pose proof (first_delta_of_choice _ _ _ Hfc Hdelta) as Hfd.
  assert (Htd : truthy delta = true) by (destruct delta; try discriminate; reflexivity).
  pose proof (truthy_nonempty _ Hne) as Htr.
  unfold phase_of. split.
  - intros Hc.
    assert (Htest : ReasonB.reasoning_test delta = true).
    { unfold ReasonB.reasoning_test. rewrite Hr, Hc.
      cbn [truthy_val is_null]. now rewrite Htr. }
    destruct data; try discriminate Hfc.
    unfold_script.
    rewrite Hm, Hd, Hp, Hfc, Hfd, Htd, Htest, Hr.
    break; flags st; try congruence.
    all: eexists; split; [reflexivity|]; cbn;
      try match goal with
          | H : reasoningEnded _ = _ |- _ => rewrite H
          end; auto.
  - intros Hc.
    assert (Htest : PartC.reasoning_test delta = true).
    { unfold PartC.reasoning_test. rewrite Hr. cbn [truthy_val]. rewrite Htr.
      now destruct Hc as [-> | ->]. }
    destruct data; try discriminate Hfc.
    unfold_script.
    rewrite Hm, Hd, Hp, Hfd, Htd, Htest, Hr.
    break; flags st; try congruence.
    all: eexists; split; [reflexivity|]; cbn;
      try match goal with
          | H : reasoningEnded _ = _ |- _ => rewrite H
          end; auto.
Qed.

End StartClaim.

(** ** Citations on forwarded events *)

Section CitationsForwarded.
Context {N : JsNumber} {RT : JsRuntime}.

Lemma assoc_obj_delete (k : string) (l : list (string * json)) :
  assoc k (obj_delete k l) = None.
Proof.
  induction l as [|[k' v'] l IH]; [reflexivity|].
  cbn [obj_delete]. destruct (String.eqb k k') eqn:E; [exact IH|].
  cbn [assoc]. now rewrite E.
Qed.

Lemma ReasonB_outside now line props c st :
  data_event line (JObj props) ->
  assoc "citations" props = Some c ->
  truthy c = true ->
  outside_reasoning ReasonB.reasoning_test (JObj props) = true ->
  exists pre st',
    ReasonB.process_line now line st = (pre ++ [Forward line], st', Normal tt)
    /\ (pre = [] \/ exists ev, pre = [Separator ev])
    /\ citations st' = (if truthy (citations st) then citations st else c).
Proof.
  intros (Hm & Hd & Hp) Hc Ht Ho. unfold outside_reasoning in Ho.
  unfold_script. rewrite Hm, Hd, Hp. cbn [prop]. rewrite Hc, Ht. cbn [andb].
  destruct (truthy (citations st)) eqn:Hcs; cbn [negb].
  all: break; cbn [fst snd app] in *; try discriminate.
  all: try (exists []; eexists; split; [reflexivity|]; split; [now left|];
            cbn; try rewrite Hcs; reflexivity).
  all: try (eexists [Separator _]; eexists; split; [reflexivity|];
            split; [right; eexists; reflexivity|];
            cbn; try rewrite Hcs; reflexivity).
Qed.

Lemma PartC_outside now line props c st :
  data_event line (JObj props) ->
  assoc "citations" props = Some c ->
  truthy c = true ->
  outside_reasoning PartC.reasoning_test (JObj props) = true ->
  exists pre st',
    PartC.process_line now line st = (pre ++ [Forward line], st', Normal tt)
    /\ (pre = [] \/ exists ev, pre = [Separator ev])
    /\ citations st' = (if truthy (citations st) then citations st else c).
Proof.
  intros (Hm & Hd & Hp) Hc Ht Ho. unfold outside_reasoning in Ho.
  unfold_script. rewrite Hm, Hd, Hp. cbn [prop]. rewrite Hc, Ht. cbn [andb].
  destruct (truthy (citations st)) eqn:Hcs; cbn [negb].
  all: break; cbn [fst snd app] in *; try discriminate.
  all: try (exists []; eexists; split; [reflexivity|]; split; [now left|];
            cbn; try rewrite Hcs; reflexivity).
  all: try (eexists [Separator _]; eexists; split; [reflexivity|];
            split; [right; eexists; reflexivity|];
            cbn; try rewrite Hcs; reflexivity).
Qed.

(** C3, as the scripts have it.  In the second script of [part_000], a data
    event that is an object with truthy citations and takes the plain path
    is not forwarded as it came: either nothing is enqueued (the first such
    chunk, when citations are its only key), or the event is serialised
    again without its citations key; the first citations seen are kept, later
    ones do not replace them.  The first script of [reason.js] forwards
    every such line as it came, citations included; so do the second script
    of [reason.js] and the first script of [part_000] whenever the event
    does not enter their reasoning branch, after the separator when the
    event ends the reasoning. *)
Theorem citations_removed_on_plain_path (now : number) (line : string)
    (props : list (string * json)) (c : json) (st : session) :
  data_event line (JObj props) ->
  assoc "citations" props = Some c ->
  truthy c = true ->
  let forwarded (run : list emit * session * completion unit) :=
    exists pre st',
      run = (pre ++ [Forward line], st', Normal tt)
      /\ (pre = [] \/ exists ev, pre = [Separator ev])
      /\ citations st' = (if truthy (citations st) then citations st else c) in
  (plain_path st (JObj props) = true ->
   exists st',
     PartD.process_line now line st
     = (if skipped st props then []
        else [Cleaned (JObj (obj_delete "citations" props))],
        st', Normal tt)
     /\ assoc "citations" (obj_delete "citations" props) = None
     /\ citations st' = (if citationsReceived st then citations st else c)
     /\ citationsReceived st' = true)
  /\ (exists st',
         ReasonA.process_line now line st = ([Forward line], st', Normal tt)
         /\ citations st' = (if truthy (citations st) then citations st else c))
  /\ (outside_reasoning ReasonB.reasoning_test (JObj props) = true ->
      forwarded (ReasonB.process_line now line st))
  /\ (outside_reasoning PartC.reasoning_test (JObj props) = true ->
      forwarded (PartC.process_line now line st)).
Proof.
  intros Hev Hc Ht forwarded.
  pose proof Hev as (Hm & Hd & Hp). split; [|split; [|split]].
  - unfold plain_path, skipped. intros Hpath.
    unfold_script. rewrite Hm, Hd, Hp. cbn [prop spread]. rewrite !Hc.
    cbn [truthy_val]. rewrite !Ht. cbn [andb].
    destruct (citationsReceived st) eqn:Hrec; cbn [negb andb].
    + destruct (first_choice (JObj props)) as [choice|];
        [destruct (first_delta (JObj props)) as [delta|]|].
      * destruct (truthy delta); cbn [negb orb] in Hpath.
        -- apply andb_prop in Hpath. destruct Hpath as [H1 H2].
           apply negb_true_iff in H1, H2.
           cbn [set_citations set_citationsReceived reasoningStarted reasoningEnded].
           rewrite H1, H2. cbn [app].
           eexists. split; [reflexivity|]. rewrite Hrec.
           repeat split; auto using assoc_obj_delete.
        -- eexists. split; [reflexivity|]. rewrite Hrec.
           repeat split; auto using assoc_obj_delete.
      * eexists. split; [reflexivity|]. rewrite Hrec.
        repeat split; auto using assoc_obj_delete.
      * eexists. split; [reflexivity|]. rewrite Hrec.
        repeat split; auto using assoc_obj_delete.
    + destruct (Nat.eqb (List.length props) 1) eqn:Hlen; cbn [andb].
      * eexists. split; [reflexivity|]. cbn.
        repeat split; auto using assoc_obj_delete.
      * destruct (first_choice (JObj props)) as [choice|];
          [destruct (first_delta (JObj props)) as [delta|]|].
        -- destruct (truthy delta); cbn [negb orb] in Hpath.
           ++ apply andb_prop in Hpath. destruct Hpath as [H1 H2].
              apply negb_true_iff in H1, H2.
              cbn [set_citations set_citationsReceived reasoningStarted reasoningEnded].
              rewrite H1, H2. cbn [app].
              eexists. split; [reflexivity|]. cbn.
              repeat split; auto using assoc_obj_delete.
           ++ eexists. split; [reflexivity|]. cbn.
              repeat split; auto using assoc_obj_delete.
        -- eexists. split; [reflexivity|]. cbn.
           repeat split; auto using assoc_obj_delete.
        -- eexists. split; [reflexivity|]. cbn.
           repeat split; auto using assoc_obj_delete.
  - unfold_script. rewrite Hm, Hd, Hp. cbn [prop]. rewrite Hc, Ht. cbn [andb].
    destruct (truthy (citations st)); cbn [negb];
      eexists; (split; [reflexivity|]); reflexivity.
  - intros Ho. exact (ReasonB_outside now line props c st Hev Hc Ht Ho).
  - intros Ho. exact (PartC_outside now line props c st Hev Hc Ht Ho).
Qed.

End CitationsForwarded.

(** ** Capturing citations, line by line *)

Section Capture.
Context {N : JsNumber} {RT : JsRuntime}.

Lemma captured_kept line st :
  truthy (citations st) = true -> captured line st = citations st.
Proof.
  intros H. unfold captured. rewrite H. cbn [negb].
  break; try reflexivity. now rewrite andb_false_r in *.
Qed.

Lemma captured_none line st :
  ~ captures line -> captured line st = citations st.
Proof.
  intros Hno. unfold captured. break; try reflexivity.
  exfalso. apply Hno.
  match goal with H : _ && _ = true |- _ => apply andb_prop in H; destruct H end.
  do 2 eexists. repeat split; eassumption.
Qed.

Lemma captured_first line items st :
  cites line items -> truthy (citations st) = false ->
  captured line st = JArr items.
Proof.
  intros (data & (Hm & Hd & Hp) & Hc) Hn. unfold captured.
  rewrite Hm, Hd, Hp, Hc, Hn. reflexivity.
Qed.

Lemma cites_not_sentinel line items : cites line items -> is_sentinel line = false.
Proof.
  intros (data & (Hm & Hd & Hp) & Hc). unfold is_sentinel. now rewrite Hm, Hd.
Qed.

(** *** [reason.js], first script *)

Lemma ReasonA_line now line st :
  is_sentinel line = false ->
  ReasonA.process_line now line st
  = ([Forward line], set_citations (captured line st) st, Normal tt).
Proof.
  unfold is_sentinel, captured. intros Hs.
  unfold_script. break; cbn [andb] in *; try discriminate.
  all: destruct st; reflexivity.
Qed.

Lemma ReasonA_sentinel_pending now line st items texts :
  is_sentinel line = true ->
  citations st = JArr items ->
  rendered items texts ->
  ReasonA.process_line now line st
  = ([Footer (citations_message (listing SPACED texts)); Forward line],
     set_citations JNull st, Normal tt).
Proof.
  intros Hs Hc Hi. unfold is_sentinel in Hs. apply andb_prop in Hs.
  destruct Hs as [Hm Hd]. unfold_script. rewrite Hm, Hd, Hc.
  cbn [truthy array_items]. now rewrite (numbered_rendered SPACED items texts Hi).
Qed.

Lemma send_citations_pending clear st items texts :
  citations st = JArr items ->
  rendered items texts ->
  send_citations clear st
  = ([Footer (citations_message (listing SPACED texts))],
     (if clear then set_citations JNull st else st), Normal tt).
Proof.
  intros Hc Hi. unfold_script. rewrite Hc.
  cbn [truthy array_items]. rewrite (numbered_rendered SPACED items texts Hi).
  now destruct clear.
Qed.

Lemma send_citations_idle clear st :
  truthy (citations st) = false -> send_citations clear st = ([], st, Normal tt).
Proof. intros Hc. unfold_script. now rewrite Hc. Qed.

End Capture.

(** ** Lines forwarded as they came *)

Lemma text_of_lines (s : string) :
  (lines_text (complete_lines s) ++ partial_line s)%string = s.
Proof.
  unfold complete_lines, partial_line.
  induction s as [|c s IH]; [reflexivity|].
  destruct (Ascii.eqb c LF) eqn:Hc.
  - apply Ascii.eqb_eq in Hc. subst c. cbn [split]. rewrite Ascii.eqb_refl.
    destruct (split s) as [|x l] eqn:E; [now apply split_not_nil in E|].
    change (removelast (EmptyString :: x :: l))
      with (EmptyString :: removelast (x :: l)).
    change (last (EmptyString :: x :: l) EmptyString)
      with (last (x :: l) EmptyString).
    cbn [lines_text append]. unfold nl. cbn [append]. now rewrite IH.
  - destruct (split_cons_other c s Hc) as (seg & segs & Es & Ecs).
    rewrite Ecs. rewrite Es in IH.
    destruct segs as [|y l].
    + cbn in IH |- *. now rewrite IH.
    + change (removelast (String c seg :: y :: l))
        with (String c seg :: removelast (y :: l)).
      change (last (String c seg :: y :: l) EmptyString)
        with (last (y :: l) EmptyString).
      change (removelast (seg :: y :: l)) with (seg :: removelast (y :: l)) in IH.
      change (last (seg :: y :: l) EmptyString) with (last (y :: l) EmptyString) in IH.
      cbn [lines_text append] in IH |- *. now rewrite IH.
Qed.

Section Verbatim.
Context {N : JsNumber} {RT : JsRuntime}.

Lemma encode_forwarded (lines : list string) :
  encode_all (map Forward lines) = lines_text lines.
Proof.
  unfold encode_all. induction lines as [|l rest IH]; [reflexivity|].
  cbn [map bytes_of encode lines_text]. now rewrite IH, append_assoc.
Qed.

Variable clock : nat -> number.
Variable process_line : number -> string -> script unit.
Variable finish : script unit.

Hypothesis H_identity :
  forall now line st,
    ~ carries_reasoning line ->
    ~ captures line ->
    reasoningStarted st = false ->
    truthy (citations st) = false ->
    process_line now line st = ([Forward line], st, Normal tt).
Hypothesis H_verbatim :
  forall now line st,
    ~ carries_reasoning line ->
    reasoningStarted st = false ->
    reasoningStarted (state_after (process_line now line st)) = false
    /\ (completion_of (process_line now line st) = Thrown
        \/ filter not_footer (output_of (process_line now line st)) = [Forward line]).
Hypothesis H_finish_idle :
  forall st, truthy (citations st) = false -> finish st = ([], st, Normal tt).
Hypothesis H_finish_footers :
  forall st, filter not_footer (output_of (finish st)) = [].

Lemma identity_loop lines :
  forall n st,
    Forall (fun line => ~ carries_reasoning line) lines ->
    Forall (fun line => ~ captures line) lines ->
    reasoningStarted st = false ->
    truthy (citations st) = false ->
    for_lines clock process_line n lines st = (map Forward lines, st, Normal tt).
Proof.
  induction lines as [|line rest IH]; intros n st Hr Hc Hs Ht; [reflexivity|].
  inversion Hr; inversion Hc; subst.
  cbn [for_lines map]. unfold bind.
  rewrite H_identity by assumption. now rewrite IH.
Qed.

Lemma verbatim_loop lines :
  forall n st out st',
    for_lines clock process_line n lines st = (out, st', Normal tt) ->
    Forall (fun line => ~ carries_reasoning line) lines ->
    reasoningStarted st = false ->
    filter not_footer out = map Forward lines /\ reasoningStarted st' = false.
Proof.
  induction lines as [|line rest IH]; intros n st out st' H Hr Hs.
  - cbn in H. inversion H; subst. now split.
  - inversion Hr as [|? ? Hline Hrest]; subst.
    apply for_lines_cons in H.
    destruct H as [(o1 & s1 & o2 & H1 & H2 & ->) | [_ H]]; [|discriminate].
    destruct (H_verbatim (clock n) line st Hline Hs) as [Hs1 Hv].
    unfold state_after, completion_of, output_of in Hs1, Hv.
    rewrite H1 in Hs1, Hv. cbn [fst snd] in Hs1, Hv.
    destruct Hv as [Hv|Hv]; [discriminate|].
    destruct (IH _ _ _ _ H2 Hrest Hs1) as [IH1 IH2].
    split; [|exact IH2].
    rewrite filter_app, Hv, IH1. reflexivity.
Qed.

Lemma passes_lines init lines :
  reasoningStarted init = false ->
  truthy (citations init) = false ->
  Forall (fun line => ~ carries_reasoning line) lines ->
  (Forall (fun line => ~ captures line) lines ->
   run_lines clock process_line finish init lines = (map Forward lines, Closed))
  /\ (snd (run_lines clock process_line finish init lines) = Closed ->
      filter not_footer (fst (run_lines clock process_line finish init lines))
      = map Forward lines).
Proof.
  intros Hs Ht Hr. split.
  - intros Hc. unfold run_lines, bind.
    rewrite identity_loop by assumption.
    rewrite H_finish_idle by assumption. now rewrite app_nil_r.
  - unfold run_lines, bind.
    destruct (for_lines clock process_line 0 lines init) as [[o1 s1] [[]|]] eqn:E;
      [|discriminate].
    pose proof (H_finish_footers s1) as Hf. unfold output_of in Hf.
    destruct (finish s1) as [[o2 s2] [[]|]]; [|discriminate].
    intros _. cbn [fst snd] in *.
    destruct (verbatim_loop _ _ _ _ _ E Hr Hs) as [Hv _].
    now rewrite filter_app, Hv, Hf, app_nil_r.
Qed.

End Verbatim.

Ltac not_captured :=
  match goal with
  | Hno : ~ captures _, H : truthy _ && _ = true |- _ =>
      exfalso; apply Hno; apply andb_prop in H; destruct H;
      do 2 eexists; repeat split; eassumption
  end.

Section VerbatimFacts.
Context {N : JsNumber} {RT : JsRuntime}.

Lemma ReasonA_identity now line st :
  ~ carries_reasoning line ->
  ~ captures line ->
  reasoningStarted st = false ->
  truthy (citations st) = false ->
  ReasonA.process_line now line st = ([Forward line], st, Normal tt).
Proof.
  intros Hno Hnc Hs Ht. unfold_script. break; try congruence; try reflexivity.
  all: not_captured.
Qed.

Lemma ReasonB_identity now line st :
  ~ carries_reasoning line ->
  ~ captures line ->
  reasoningStarted st = false ->
  truthy (citations st) = false ->
  ReasonB.process_line now line st = ([Forward line], st, Normal tt).
Proof.
  intros Hno Hnc Hs Ht. unfold_script. break; try congruence.
  all: flags st; try reflexivity.
  all: first [not_captured | has_reasoning].
Qed.

Lemma PartC_identity now line st :
  ~ carries_reasoning line ->
  ~ captures line ->
  reasoningStarted st = false ->
  truthy (citations st) = false ->
  PartC.process_line now line st = ([Forward line], st, Normal tt).
Proof.
  intros Hno Hnc Hs Ht. unfold_script. break; try congruence.
  all: flags st; try reflexivity.
  all: first [not_captured | has_reasoning].
Qed.

Lemma ReasonA_verbatim now line st :
  ~ carries_reasoning line ->
  reasoningStarted st = false ->
  reasoningStarted (state_after (ReasonA.process_line now line st)) = false
  /\ (completion_of (ReasonA.process_line now line st) = Thrown
      \/ filter not_footer (output_of (ReasonA.process_line now line st))
         = [Forward line]).
Proof.
  intros Hno Hs. unfold state_after, completion_of, output_of.
  unfold_script. break; cbn [fst snd app]; flags st.
  all: split; [reflexivity|]; first [now left | now right].
Qed.

Lemma ReasonB_verbatim now line st :
  ~ carries_reasoning line ->
  reasoningStarted st = false ->
  reasoningStarted (state_after (ReasonB.process_line now line st)) = false
  /\ (completion_of (ReasonB.process_line now line st) = Thrown
      \/ filter not_footer (output_of (ReasonB.process_line now line st))
         = [Forward line]).
Proof.
  intros Hno Hs. unfold state_after, completion_of, output_of.
  unfold_script. break; cbn [fst snd app]; flags st.
  all: try (split; [reflexivity|]; first [now left | now right]).
  all: has_reasoning.
Qed.

Lemma PartC_verbatim now line st :
  ~ carries_reasoning line ->
  reasoningStarted st = false ->
  reasoningStarted (state_after (PartC.process_line now line st)) = false
  /\ (completion_of (PartC.process_line now line st) = Thrown
      \/ filter not_footer (output_of (PartC.process_line now line st))
         = [Forward line]).
Proof.
  intros Hno Hs. unfold state_after, completion_of, output_of.
  unfold_script. break; cbn [fst snd app]; flags st.
  all: try (split; [reflexivity|]; first [now left | now right]).
  all: has_reasoning.
Qed.

Lemma PartC_finish_idle st :
  truthy (citations st) = false -> PartC.finish st = ([], st, Normal tt).
Proof. intros Hc. unfold_script. now rewrite Hc. Qed.

Lemma send_citations_footers clear st :
  filter not_footer (output_of (send_citations clear st)) = [].
Proof. unfold output_of. unfold_script. break; reflexivity. Qed.

Lemma PartC_finish_footers st :
  filter not_footer (output_of (PartC.finish st)) = [].
Proof. unfold output_of. unfold_script. break; reflexivity. Qed.

End VerbatimFacts.


(** ** Streams without reasoning *)

Section PassThrough.
Context {N : JsNumber} {RT : JsRuntime}.
Variable clock : nat -> number.

Lemma ReasonA_passes (lines : list string) :
  Forall (fun line => ~ carries_reasoning line) lines ->
  (Forall (fun line => ~ captures line) lines ->
   run_lines clock ReasonA.process_line ReasonA.finish ReasonA.initial lines
   = (map Forward lines, Closed))
  /\ (snd (run_lines clock ReasonA.process_line ReasonA.finish ReasonA.initial lines)
      = Closed ->
      filter not_footer
        (fst (run_lines clock ReasonA.process_line ReasonA.finish ReasonA.initial lines))
      = map Forward lines).
Proof.
  apply passes_lines; try reflexivity.
  - apply ReasonA_identity.
  - apply ReasonA_verbatim.
  - apply send_citations_idle.
  - apply send_citations_footers.
Qed.

Lemma ReasonB_passes (lines : list string) :
  Forall (fun line => ~ carries_reasoning line) lines ->
  (Forall (fun line => ~ captures line) lines ->
   run_lines clock ReasonB.process_line ReasonB.finish ReasonB.initial lines
   = (map Forward lines, Closed))
  /\ (snd (run_lines clock ReasonB.process_line ReasonB.finish ReasonB.initial lines)
      = Closed ->
      filter not_footer
        (fst (run_lines clock ReasonB.process_line ReasonB.finish ReasonB.initial lines))
      = map Forward lines).
Proof.
  apply passes_lines; try reflexivity.
  - apply ReasonB_identity.
  - apply ReasonB_verbatim.
  - apply send_citations_idle.
  - apply send_citations_footers.
Qed.

Lemma PartC_passes (lines : list string) :
  Forall (fun line => ~ carries_reasoning line) lines ->
  (Forall (fun line => ~ captures line) lines ->
   run_lines clock PartC.process_line PartC.finish PartC.initial lines
   = (map Forward lines, Closed))
  /\ (snd (run_lines clock PartC.process_line PartC.finish PartC.initial lines)
      = Closed ->
      filter not_footer
        (fst (run_lines clock PartC.process_line PartC.finish PartC.initial lines))
      = map Forward lines).
Proof.
  apply passes_lines; try reflexivity.
  - apply PartC_identity.
  - apply PartC_verbatim.
  - apply PartC_finish_idle.
  - apply PartC_finish_footers.
Qed.

Lemma PartD_plain now line st :
  ~ carries_reasoning line ->
  ~ captures line ->
  object_event line ->
  reasoningStarted st = false ->
  PartD.process_line now line st = ([reserialised line], st, Normal tt).
Proof.
  intros Hno Hnc Hobj Hs. unfold reserialised, object_event in *.
  destruct (startsWith line DATA_MARKER) eqn:Hm;
    [|unfold_script; now rewrite Hm].
  destruct (includes line DONE_TOKEN) eqn:Hd;
    [unfold_script; now rewrite Hm, Hd|].
  destruct (JSON_parse (slice 6 line)) as [data|] eqn:Hp;
    [|unfold_script; now rewrite Hm, Hd, Hp].
  destruct (Hobj data (conj Hm (conj Hd Hp))) as [props ->].
  assert (Hc : truthy_val (assoc "citations" props) = false).
  { destruct (assoc "citations" props) as [c|] eqn:Hc; [|reflexivity].
    cbn [truthy_val]. destruct (truthy c) eqn:Ht; [|reflexivity].
    exfalso. apply Hnc. exists (JObj props), c. now repeat split. }
  unfold_script. rewrite Hm, Hd, Hp. cbn [andb negb prop spread].
  destruct (assoc "citations" props) as [c|] eqn:Hcs.
  - cbn [truthy_val] in Hc. rewrite Hc. cbn [andb].
    break; cbn [andb negb] in *; try congruence.
    all: flags st; try reflexivity.
    all: try (cbn [truthy_val] in *; congruence).
    all: has_reasoning.
  - break; cbn [andb negb] in *; try congruence.
    all: flags st; try reflexivity.
    all: has_reasoning.
Qed.

Lemma PartD_plain_loop lines :
  forall n st,
    Forall (fun line => ~ carries_reasoning line) lines ->
    Forall (fun line => ~ captures line) lines ->
    Forall object_event lines ->
    reasoningStarted st = false ->
    for_lines clock PartD.process_line n lines st
    = (map reserialised lines, st, Normal tt).
Proof.
  induction lines as [|line rest IH]; intros n st Hr Hc Ho Hs; [reflexivity|].
  inversion Hr; inversion Hc; inversion Ho; subst.
  cbn [for_lines map]. unfold bind.
  rewrite PartD_plain by assumption. now rewrite IH.
Qed.

Lemma PartD_plain_run lines :
  Forall (fun line => ~ carries_reasoning line) lines ->
  Forall (fun line => ~ captures line) lines ->
  Forall object_event lines ->
  run_lines clock PartD.process_line PartD.finish PartD.initial lines
  = (map reserialised lines, Closed).
Proof.
  intros Hr Hc Ho. unfold run_lines, bind.
  rewrite PartD_plain_loop by (assumption || reflexivity).
  unfold_script. cbn. now rewrite app_nil_r.
Qed.

(** C7, as the scripts have it.  The text of a stream is what the decoder
    makes of its bytes.  When no line of that text carries a reasoning
    field, the two scripts of [reason.js] and the first script of [part_000]
    forward every complete line as the decoder delivered it, in order: if
    the stream is closed normally, the output without citation footers is
    those lines; if moreover no event carries truthy citations, the stream
    is closed normally, the output is exactly those lines, its bytes are the
    text up to its last line feed, and they are the bytes of the input up to
    its last line feed whenever the decoder changed nothing (no leading byte
    order mark, no ill-formed or unfinished sequence), as it does when every
    byte is below 128.  The second script of [part_000] then forwards the
    lines that are no events and serialises again every event that is an
    object. *)
Theorem plain_stream_passes_through (chunks : list string) :
  let text := text_of chunks in
  let lines := complete_lines text in
  Forall (fun line => ~ carries_reasoning line) lines ->
  let same (run : list emit * outcome) :=
    run = (map Forward lines, Closed)
    /\ (encode_all (fst run) ++ partial_line text)%string = text
    /\ (text = bytes_of chunks ->
        (encode_all (fst run) ++ partial_line (bytes_of chunks))%string
        = bytes_of chunks) in
  (Forall (fun line => ~ captures line) lines ->
   same (ReasonA.processStreamingResponse clock chunks)
   /\ same (ReasonB.processStreamingResponse clock chunks)
   /\ same (PartC.processStreamingResponse clock chunks)
   /\ (Forall object_event lines ->
       PartD.processStreamingResponse clock chunks
       = (map reserialised lines, Closed)))
  /\ (ascii_only (bytes_of chunks) = true -> text = bytes_of chunks)
  /\ (snd (ReasonA.processStreamingResponse clock chunks) = Closed ->
      filter not_footer (fst (ReasonA.processStreamingResponse clock chunks))
      = map Forward lines)
  /\ (snd (ReasonB.processStreamingResponse clock chunks) = Closed ->
      filter not_footer (fst (ReasonB.processStreamingResponse clock chunks))
      = map Forward lines)
  /\ (snd (PartC.processStreamingResponse clock chunks) = Closed ->
      filter not_footer (fst (PartC.processStreamingResponse clock chunks))
      = map Forward lines).
Proof.
  intros text lines Hr same. unfold same.
  rewrite ReasonA_by_lines, ReasonB_by_lines, PartC_by_lines, PartD_by_lines.
  fold text. fold lines.
  destruct (ReasonA_passes lines Hr) as [A1 A2].
  destruct (ReasonB_passes lines Hr) as [B1 B2].
  destruct (PartC_passes lines Hr) as [C1 C2].
  split; [|split; [|split; [|split]]]; try assumption;
    [|exact (text_of_ascii chunks)].
  intros Hc. rewrite (A1 Hc), (B1 Hc), (C1 Hc). cbn [fst].
  assert (He : (encode_all (map Forward lines) ++ partial_line text)%string = text)
    by (rewrite encode_forwarded; apply text_of_lines).
  assert (Hb : text = bytes_of chunks ->
               (encode_all (map Forward lines) ++ partial_line (bytes_of chunks))%string
               = bytes_of chunks)
    by (intros Hb; now rewrite <- Hb).
  repeat (split; [repeat split; assumption|]).
  intros Ho. now apply PartD_plain_run.
Qed.

End PassThrough.

(** Refuting at a concrete line that it carries reasoning or citations. *)
Ltac no_such_event :=
  let Hm := fresh in let Hd := fresh in let Hp := fresh in
  let H1 := fresh in let H2 := fresh in
  first
    [ intros (? & ? & ? & (Hm & Hd & Hp) & H1 & H2)
    | intros (? & ? & (Hm & Hd & Hp) & H1 & H2) ];
  vm_compute in Hm; vm_compute in Hd; vm_compute in Hp;
  try discriminate;
  injection Hp as <-;
  vm_compute in H1; try discriminate;
  try (injection H1 as <-; vm_compute in H2; discriminate).

(** Showing at a concrete line that its event, if it is one, is an object. *)
Ltac object_events :=
  let Hm := fresh in let Hd := fresh in let Hp := fresh in
  intros ? (Hm & Hd & Hp);
  vm_compute in Hm; vm_compute in Hd; vm_compute in Hp;
  try discriminate;
  injection Hp as <-; eexists; reflexivity.

(** C7 at a stream of an answer, a blank line and the sentinel. *)
Lemma plain_stream_passes_through_witness :
  let lines := [Sample.data_line Sample.answer; EmptyString; Sample.sentinel] in
  let chunks := [lines_text lines] in
  Forall (fun line => ~ @carries_reasoning _ Sample.engine line)
         (complete_lines (text_of chunks))
  /\ @ReasonB.processStreamingResponse _ Sample.engine Sample.clock chunks
     = (map Forward lines, Closed)
  /\ (encode_all (RT := Sample.engine)
        (fst (@ReasonB.processStreamingResponse _ Sample.engine Sample.clock chunks))
        ++ partial_line (bytes_of chunks))%string
     = bytes_of chunks
  /\ @PartD.processStreamingResponse _ Sample.engine Sample.clock chunks
     = ([Cleaned Sample.answer; Forward EmptyString; Forward Sample.sentinel],
        Closed).
Proof.
  intros lines chunks.
  assert (H : Forall (fun line => ~ @carries_reasoning _ Sample.engine line)
                     (complete_lines (text_of chunks))).
  { change (complete_lines (text_of chunks)) with lines.
    repeat constructor; no_such_event. }
  assert (Hc : Forall (fun line => ~ @captures _ Sample.engine line)
                      (complete_lines (text_of chunks))).
  { change (complete_lines (text_of chunks)) with lines.
    repeat constructor; no_such_event. }
  assert (Ho : Forall (@object_event _ Sample.engine)
                      (complete_lines (text_of chunks))).
  { change (complete_lines (text_of chunks)) with lines.
    repeat constructor; object_events. }
  split; [exact H|].
  destruct (proj1 (@plain_stream_passes_through Sample.numbers Sample.engine
                     Sample.clock chunks H) Hc)
    as (_ & (HB & _ & HBb) & _ & HD).
  split; [exact HB|]. split; [exact (HBb eq_refl)|]. exact (HD Ho).
Defined.

(** A byte order mark at the head of the stream does not come out: the first
    line is recognised as an event and the output is three bytes shorter
    than the input. *)
Example byte_order_mark_dropped :
  let line := Sample.data_line Sample.answer in
  let chunks := [(BOM ++ lines_text [line])%string] in
  text_of chunks = lines_text [line]
  /\ @ReasonA.processStreamingResponse _ Sample.engine Sample.clock chunks
     = ([Forward line], Closed)
  /\ encode_all (RT := Sample.engine) [Forward line] <> bytes_of chunks.
Proof.
  intros line chunks. split; [reflexivity|]. split; [reflexivity|].
  intros H. apply (f_equal String.length) in H. vm_compute in H. discriminate.
Qed.

(** The claim C7 fails on the second script of [part_000]: an answer event
    without reasoning and without citations is not forwarded as it came but
    serialised again, and what is enqueued ends in two line feeds where the
    line had one. *)
Lemma reserialised_counterexample :
  let line := Sample.data_line Sample.answer in
  let text := lines_text [line] in
  ~ @carries_reasoning _ Sample.engine line
  /\ @PartD.processStreamingResponse _ Sample.engine Sample.clock [text]
     = ([Cleaned Sample.answer], Closed)
  /\ encode_all (RT := Sample.engine) [Cleaned Sample.answer] = (text ++ nl)%string
  /\ encode_all (RT := Sample.engine) [Cleaned Sample.answer] <> text.
Proof.
  intros line text. split; [no_such_event|].
  split; [reflexivity|]. split; [reflexivity|].
  intros H. apply (f_equal String.length) in H. vm_compute in H. discriminate.
Qed.


(** ** The citation footer *)

Section FooterFacts.
Context {N : JsNumber} {RT : JsRuntime}.
Variable clock : nat -> number.

Lemma set_citations_same st : set_citations (citations st) st = st.
Proof. now destruct st. Qed.

Lemma for_lines_join (process_line : number -> string -> script unit) l1 :
  forall l2 n st o1 s1,
    for_lines clock process_line n l1 st = (o1, s1, Normal tt) ->
    for_lines clock process_line n (l1 ++ l2) st
    = match for_lines clock process_line (n + List.length l1) l2 s1 with
      | (o2, s2, r) => (o1 ++ o2, s2, r)
      end.
Proof.
  induction l1 as [|line rest IH]; intros l2 n st o1 s1 H.
  - cbn in H. inversion H; subst. cbn [app List.length]. rewrite Nat.add_0_r.
    now destruct (for_lines clock process_line n l2 s1) as [[o2 s2] r].
  - apply for_lines_cons in H.
    destruct H as [(oa & sa & ob & Ha & Hb & ->) | [_ H]]; [|discriminate].
    cbn [app for_lines List.length]. unfold bind. rewrite Ha.
    rewrite (IH l2 _ _ _ _ Hb). rewrite Nat.add_succ_r. cbn [Nat.add].
    destruct (for_lines clock process_line (S (n + List.length rest)) l2 s1)
      as [[o2 s2] r].
    now rewrite app_assoc.
Qed.

(** *** [reason.js], first script *)

Lemma ReasonA_idle now line st :
  ~ captures line ->
  truthy (citations st) = false ->
  ReasonA.process_line now line st = ([Forward line], st, Normal tt).
Proof.
  intros Hnc Ht. unfold_script. break; try congruence; try reflexivity.
  all: not_captured.
Qed.

Lemma ReasonA_idle_loop lines :
  forall n st,
    Forall (fun line => ~ captures line) lines ->
    truthy (citations st) = false ->
    for_lines clock ReasonA.process_line n lines st
    = (map Forward lines, st, Normal tt).
Proof.
  induction lines as [|line rest IH]; intros n st Hc Ht; [reflexivity|].
  inversion Hc; subst. cbn [for_lines map]. unfold bind.
  rewrite ReasonA_idle by assumption. now rewrite IH.
Qed.

Lemma ReasonA_pending_loop lines items :
  forall n st,
    Forall (fun line => is_sentinel line = false) lines ->
    citations st = JArr items ->
    for_lines clock ReasonA.process_line n lines st
    = (map Forward lines, st, Normal tt).
Proof.
  induction lines as [|line rest IH]; intros n st Hs Hc; [reflexivity|].
  inversion Hs; subst. cbn [for_lines map]. unfold bind.
  rewrite ReasonA_line by assumption.
  rewrite captured_kept by (now rewrite Hc).
  rewrite set_citations_same. now rewrite IH.
Qed.

(** *** [part_000], first script *)

Lemma PartC_line now line st :
  completion_of (PartC.process_line now line st) = Normal tt
  /\ count is_footer (output_of (PartC.process_line now line st)) = 0
  /\ citations (state_after (PartC.process_line now line st)) = captured line st
  /\ (is_sentinel line = true ->
      output_of (PartC.process_line now line st) = [Forward line]).
Proof.
  unfold completion_of, output_of, state_after, is_sentinel, captured.
  unfold_script. break; cbn [fst snd app andb].
  all: repeat split; try reflexivity; try discriminate.
Qed.

Lemma PartC_loop lines :
  forall n st,
    exists out st',
      for_lines clock PartC.process_line n lines st = (out, st', Normal tt)
      /\ count is_footer out = 0
      /\ (forall s, In s lines -> is_sentinel s = true -> In (Forward s) out).
Proof.
  induction lines as [|line rest IH]; intros n st.
  - exists [], st. repeat split. intros s [].
  - destruct (PartC_line (clock n) line st) as (Hc & Hf & _ & Hs).
    unfold completion_of, output_of in Hc, Hf, Hs.
    destruct (PartC.process_line (clock n) line st) as [[o1 s1] r1] eqn:E.
    cbn [fst snd] in Hc, Hf, Hs. subst r1.
    destruct (IH (S n) s1) as (o2 & s2 & E2 & Hf2 & Hs2).
    exists (o1 ++ o2), s2. split; [|split].
    + cbn [for_lines]. unfold bind. now rewrite E, E2.
    + rewrite count_app. lia.
    + intros s [<- | Hin] Hsent; apply in_or_app.
      * left. rewrite (Hs Hsent). now left.
      * right. now apply Hs2.
Qed.

Lemma PartC_track lines :
  forall n st out st' r,
    for_lines clock PartC.process_line n lines st = (out, st', r) ->
    (truthy (citations st) = true -> citations st' = citations st)
    /\ (Forall (fun line => ~ captures line) lines -> citations st' = citations st).
Proof.
  induction lines as [|line rest IH]; intros n st out st' r H.
  - cbn in H. inversion H; subst. now split.
  - apply for_lines_cons in H.
    destruct (PartC_line (clock n) line st) as (_ & _ & Hcap & _).
    unfold state_after in Hcap.
    destruct H as [(o1 & s1 & o2 & H1 & H2 & ->) | [H1 ->]];
      rewrite H1 in Hcap; cbn [fst snd] in Hcap.
    + destruct (IH _ _ _ _ _ H2) as [IHt IHn]. split.
      * intros Ht. rewrite (captured_kept line st Ht) in Hcap.
        rewrite IHt; congruence.
      * intros Hall. inversion Hall; subst.
        rewrite (captured_none line st) in Hcap by assumption.
        rewrite IHn; congruence.
    + split.
      * intros Ht. now rewrite (captured_kept line st Ht) in Hcap.
      * intros Hall. inversion Hall; subst.
        now rewrite (captured_none line st) in Hcap by assumption.
Qed.

Lemma PartC_finish_pending st items texts :
  citations st = JArr items ->
  items <> [] ->
  rendered items texts ->
  PartC.finish st
  = ([Footer (bare_event (PartC.SOURCES ++ listing TIGHT texts))], st, Normal tt).
Proof.
  intros Hc Hne Hi. unfold_script. rewrite Hc.
  cbn [truthy length_positive array_items andb].
  rewrite (numbered_rendered TIGHT items texts Hi).
  destruct items; [now destruct Hne | reflexivity].
Qed.

(** The entries of the footer: one for each citation, in order, counted
    from [k + 1]. *)
Lemma entries_from_nth sep texts :
  forall k i,
    nth_error (entries_from k sep texts) i
    = option_map (fun t => ("[" ++ nat_to_string (k + i + 1) ++ sep ++ t)%string)
                 (nth_error texts i).
Proof.
  induction texts as [|t texts IH]; intros k i.
  - now destruct i.
  - destruct i as [|i]; cbn [entries_from nth_error option_map].
    + replace (k + 0 + 1) with (S k) by lia. reflexivity.
    + rewrite IH. replace (S k + i + 1) with (k + S i + 1) by lia. reflexivity.
Qed.

Lemma rendered_nth (items : list json) (texts : list string) :
  rendered items texts ->
  List.length texts = List.length items
  /\ forall i c, nth_error items i = Some c ->
                 option_map Some (nth_error texts i) = Some (js_to_string c).
Proof.
  unfold rendered. intros H. split.
  - apply (f_equal (@List.length _)) in H. rewrite !length_map in H. now symmetry.
  - intros i c Hc.
    pose proof (f_equal (fun l => nth_error l i) H) as Hn. cbn beta in Hn.
    rewrite !nth_error_map, Hc in Hn. cbn [option_map] in Hn. now symmetry.
Qed.

End FooterFacts.

Section FooterClaim.
Context {N : JsNumber} {RT : JsRuntime}.
Variable clock : nat -> number.

Lemma ReasonA_footer (before between rest : list string) cline items texts :
  Forall (fun line => ~ captures line) before ->
  cites cline items ->
  rendered items texts ->
  Forall (fun line => is_sentinel line = false) between ->
  (rest = []
   \/ exists s after,
        rest = s :: after /\ is_sentinel s = true
        /\ Forall (fun line => ~ captures line) after) ->
  run_lines clock ReasonA.process_line ReasonA.finish ReasonA.initial
    (before ++ cline :: between ++ rest)
  = (map Forward (before ++ cline :: between)
       ++ Footer (citations_message (listing SPACED texts)) :: map Forward rest,
     Closed).
Proof.
  intros Hb Hc Hi Hbt Hrest. unfold run_lines, bind.
  rewrite (for_lines_join clock ReasonA.process_line before _ 0 ReasonA.initial
             (map Forward before) ReasonA.initial)
    by (now apply ReasonA_idle_loop).
  cbn [for_lines]. unfold bind.
  rewrite ReasonA_line by (eapply cites_not_sentinel; eassumption).
  rewrite (captured_first cline items ReasonA.initial Hc eq_refl).
  set (st1 := set_citations (JArr items) ReasonA.initial).
  rewrite (for_lines_join clock ReasonA.process_line between rest _ st1
             (map Forward between) st1)
    by (now apply (ReasonA_pending_loop clock between items)).
  destruct Hrest as [-> | (s & after & -> & Hs & Ha)].
  - cbn [for_lines ret map]. unfold ReasonA.finish.
    rewrite (send_citations_pending false st1 items texts eq_refl Hi).
    rewrite !map_app. cbn [map]. rewrite <- !app_assoc. cbn [app].
    rewrite ?app_nil_r. reflexivity.
  - cbn [for_lines]. unfold bind.
    rewrite (ReasonA_sentinel_pending _ s st1 items texts Hs eq_refl Hi).
    rewrite ReasonA_idle_loop by (assumption || reflexivity).
    unfold ReasonA.finish.
    rewrite send_citations_idle by reflexivity.
    rewrite !map_app. cbn [map]. rewrite <- !app_assoc. cbn [app].
    rewrite ?app_nil_r. reflexivity.
Qed.

Lemma PartC_footer (before tail : list string) cline items texts :
  Forall (fun line => ~ captures line) before ->
  cites cline items ->
  items <> [] ->
  rendered items texts ->
  exists body,
    run_lines clock PartC.process_line PartC.finish PartC.initial
      (before ++ cline :: tail)
    = (body ++ [Footer (bare_event (PartC.SOURCES ++ listing TIGHT texts))],
       Closed)
    /\ count is_footer body = 0
    /\ (forall s, In s (before ++ cline :: tail) -> is_sentinel s = true ->
        In (Forward s) body).
Proof.
  intros Hb Hc Hne Hi.
  destruct (PartC_loop clock (before ++ cline :: tail) 0 PartC.initial)
    as (body & st' & E & Hf & Hs).
  exists body. split; [|now split].
  unfold run_lines, bind. rewrite E.
  destruct (for_lines_split clock PartC.process_line _ _ _ _ _ _ E)
    as (oa & sa & ob & Ea & Eb & _).
  destruct (PartC_track clock _ _ _ _ _ _ Ea) as [_ Hka].
  specialize (Hka Hb).
  apply for_lines_cons in Eb.
  destruct Eb as [(o1 & s1 & o2 & E1 & E2 & _) | [_ Eb]]; [|discriminate].
  destruct (PartC_line (clock (0 + List.length before)) cline sa) as (_ & _ & Hcap & _).
  unfold state_after in Hcap. rewrite E1 in Hcap. cbn [fst snd] in Hcap.
  rewrite (captured_first cline items sa Hc) in Hcap by (now rewrite Hka).
  destruct (PartC_track clock _ _ _ _ _ _ E2) as [Hkt _].
  rewrite Hcap in Hkt. specialize (Hkt eq_refl).
  now rewrite (PartC_finish_pending st' items texts Hkt Hne Hi).
Qed.

(** C4, as the scripts have it.  A stream whose lines are: lines without
    truthy citations, a data line carrying the citation list [items], then
    further lines; the citations convert to the texts [texts] (strings
    convert to themselves).  The first script of [reason.js], when no
    sentinel stands among the lines [between] and what follows them is
    nothing or a sentinel and lines without truthy citations, forwards every
    line and enqueues one footer, built from [items], at the end of transport
    or directly before that sentinel.  The first script of [part_000], when
    [items] is not empty, enqueues one footer built from [items] as its last
    event, after every forwarded sentinel.  In both the footer lists the
    citations in their order, each once, numbered from 1. *)
Theorem citations_footer (chunks : list string)
    (before between rest : list string) (cline : string) (items : list json)
    (texts : list string) :
  complete_lines (text_of chunks) = before ++ cline :: between ++ rest ->
  Forall (fun line => ~ captures line) before ->
  cites cline items ->
  rendered items texts ->
  (Forall (fun line => is_sentinel line = false) between ->
   (rest = []
    \/ exists s after,
         rest = s :: after /\ is_sentinel s = true
         /\ Forall (fun line => ~ captures line) after) ->
   ReasonA.processStreamingResponse clock chunks
   = (map Forward (before ++ cline :: between)
        ++ Footer (citations_message (listing SPACED texts)) :: map Forward rest,
      Closed))
  /\ (items <> [] ->
      exists body,
        PartC.processStreamingResponse clock chunks
        = (body ++ [Footer (bare_event (PartC.SOURCES ++ listing TIGHT texts))],
           Closed)
        /\ count is_footer body = 0
        /\ (forall s, In s (complete_lines (text_of chunks)) ->
            is_sentinel s = true -> In (Forward s) body))
  /\ (forall sep i,
         nth_error (entries_from 0 sep texts) i
         = option_map (fun t => ("[" ++ nat_to_string (i + 1) ++ sep ++ t)%string)
                      (nth_error texts i))
  /\ List.length texts = List.length items
  /\ (forall i c, nth_error items i = Some c ->
                  option_map Some (nth_error texts i) = Some (js_to_string c)).
Proof.
  intros Hlines Hb Hc Hi. split; [|split; [|split]].
  - intros Hbt Hrest. rewrite ReasonA_by_lines, Hlines.
    now apply (ReasonA_footer before between rest cline items texts).
  - intros Hne. rewrite PartC_by_lines, Hlines.
    now apply (PartC_footer before (between ++ rest) cline items texts).
  - intros sep i. apply (entries_from_nth sep texts 0 i).
  - exact (rendered_nth items texts Hi).
Qed.

End FooterClaim.

(** C4 at a stream of a citation event, an answer and the sentinel. *)
Lemma citations_footer_witness :
  let cline := Sample.data_line Sample.cited in
  let answer := Sample.data_line Sample.answer in
  let chunks := [lines_text [cline; answer; Sample.sentinel]] in
  complete_lines (text_of chunks) = [] ++ cline :: [answer] ++ [Sample.sentinel]
  /\ @cites _ Sample.engine cline [JStr "u"; JStr "v"]
  /\ @rendered Sample.numbers [JStr "u"; JStr "v"] ["u"; "v"]
  /\ @ReasonA.processStreamingResponse _ Sample.engine Sample.clock chunks
     = ([Forward cline; Forward answer;
         Footer (citations_message
                   ("[1] > u" ++ nl ++ "[2] > v"));
         Forward Sample.sentinel],
        Closed).
Proof.
  intros cline answer chunks.
  assert (Hl : complete_lines (text_of chunks)
               = [] ++ cline :: [answer] ++ [Sample.sentinel]) by reflexivity.
  assert (Hc : @cites _ Sample.engine cline [JStr "u"; JStr "v"]).
  { exists Sample.cited. repeat split; reflexivity. }
  assert (Hi : @rendered Sample.numbers [JStr "u"; JStr "v"] ["u"; "v"])
    by reflexivity.
  split; [exact Hl|]. split; [exact Hc|]. split; [exact Hi|].
  refine (proj1 (@citations_footer Sample.numbers Sample.engine Sample.clock
                   chunks [] [answer] [Sample.sentinel] cline
                   [JStr "u"; JStr "v"] ["u"; "v"] Hl (Forall_nil _) Hc Hi) _ _).
  - repeat constructor.
  - right. exists Sample.sentinel, []. repeat split. constructor.
Defined.

(** The claim C4 fails on the first script of [part_000]: the sentinel line
    is forwarded when it is read and the footer is enqueued only once the
    reader reports [done], hence after it. *)
Lemma footer_after_sentinel_counterexample :
  let cline := Sample.data_line Sample.cited in
  @PartC.processStreamingResponse _ Sample.engine Sample.clock
    [lines_text [cline; Sample.sentinel]]
  = ([Forward cline;
      Forward Sample.sentinel;
      Footer (bare_event (RULE ++ "Sources:" ++ nl ++ "[1]> u" ++ nl ++ "[2]> v"))],
     Closed).
Proof. reflexivity. Qed.


(** What the first script of [reason.js] does when citations arrive after a
    sentinel: they are captured afresh and a second footer follows at the end
    of transport. *)
Example second_footer_after_sentinel :
  let cline := Sample.data_line Sample.cited in
  let later := Sample.data_line Sample.cited_answer in
  @ReasonA.processStreamingResponse _ Sample.engine Sample.clock
    [lines_text [cline; Sample.sentinel; later]]
  = ([Forward cline;
      Footer (citations_message ("[1] > u" ++ nl ++ "[2] > v"));
      Forward Sample.sentinel;
      Forward later;
      Footer (citations_message "[1] > w")],
     Closed).
Proof. reflexivity. Qed.

(** ** Block quotes *)

Lemma split_head_tail (s : string) :
  split s = hd EmptyString (split s) :: tl (split s).
Proof.
  destruct (split s) eqn:E; [now apply split_not_nil in E | reflexivity].
Qed.

(** The segments of a split hold no line feed. *)
Lemma split_unbroken (s : string) : Forall (fun l => split l = [l]) (split s).
Proof.
  induction s as [|c s IH]; [now constructor|].
  destruct (Ascii.eqb c LF) eqn:Hc.
  - cbn [split]. rewrite Hc. now constructor.
  - destruct (split_cons_other c s Hc) as (seg & segs & Es & Ecs).
    rewrite Ecs. rewrite Es in IH. inversion IH as [|? ? Hseg Hsegs]; subst.
    constructor; [|exact Hsegs].
    cbn [split]. now rewrite Hc, Hseg.
Qed.

Lemma split_prefixed (a b : string) :
  split a = [a] ->
  split (a ++ b)%string = (a ++ hd EmptyString (split b))%string :: tl (split b).
Proof.
  intros Ha. rewrite split_app. unfold complete_lines, partial_line.
  rewrite Ha. cbn [removelast last app].
  revert Ha. induction a as [|c a IH]; intros Ha.
  - cbn [append]. apply split_head_tail.
  - cbn [split] in Ha. destruct (Ascii.eqb c LF) eqn:Hc; [discriminate|].
    destruct (split a) as [|x l] eqn:E; [now apply split_not_nil in E|].
    injection Ha as Hx Hl. subst x l.
    change (String c a ++ b)%string with (String c (a ++ b)).
    cbn [split]. rewrite Hc, (IH eq_refl). reflexivity.
Qed.

Lemma split_after_break (a b : string) :
  split a = [a] -> split (a ++ nl ++ b)%string = a :: split b.
Proof.
  intros Ha. rewrite (split_prefixed _ _ Ha).
  unfold nl. cbn [append split]. rewrite Ascii.eqb_refl. cbn [hd tl].
  now rewrite append_empty_r.
Qed.

(** [split] undoes [join] on segments without line feed. *)
Lemma split_join (ls : list string) :
  ls <> [] ->
  Forall (fun l => split l = [l]) ls ->
  split (join nl ls) = ls.
Proof.
  induction ls as [|l rest IH]; intros Hne Hall; [now destruct Hne|].
  inversion Hall as [|? ? Hl Hrest]; subst.
  destruct rest as [|l' rest']; [exact Hl|].
  change (join nl (l :: l' :: rest')) with (l ++ nl ++ join nl (l' :: rest'))%string.
  rewrite (split_after_break _ _ Hl), IH; [reflexivity | discriminate | assumption].
Qed.

Lemma quote_line_unbroken (l : string) :
  split l = [l] -> split (quote_line l) = [quote_line l].
Proof.
  intros Hl. unfold quote_line. destruct (trims_to_empty l); [reflexivity|].
  rewrite (split_prefixed "> " l eq_refl), Hl. reflexivity.
Qed.

Lemma quote_line_marked (l : string) : startsWith (quote_line l) ">" = true.
Proof. unfold quote_line. now destruct (trims_to_empty l). Qed.

(** X15.  The block quote of the single-document path has exactly the lines
    of the reasoning, each one quoted: splitting the quoted text on line
    feeds gives back the quoted lines, and every one of them starts with
    [>]. *)
Theorem quoted_reasoning_lines (s : string) :
  split (quoted_reasoning (split s)) = map quote_line (split s)
  /\ Forall (fun l => startsWith l ">" = true) (split (quoted_reasoning (split s))).
Proof.
  assert (H : split (quoted_reasoning (split s)) = map quote_line (split s)).
  { unfold quoted_reasoning. apply split_join.
    - pose proof (split_not_nil s). now destruct (split s).
    - pose proof (split_unbroken s) as Hu.
      induction Hu as [|l ls Hl _ IH]; constructor; [|exact IH].
      now apply quote_line_unbroken. }
  split; [exact H|]. rewrite H.
  apply Forall_forall. intros l Hin. apply in_map_iff in Hin.
  destruct Hin as (x & <- & _). apply quote_line_marked.
Qed.

(** X14.  [replace(/\n/g, '\n> ')], applied to the streamed fragments, is
    [split('\n').join('\n> ')]: the first line of a fragment is kept as it
    is (it continues the line the previous fragment left open) and every
    further line gets the quote mark [> ] in front. *)
Theorem quote_breaks_lines (s : string) :
  quote_breaks s = join (nl ++ "> ")%string (split s)
  /\ split (quote_breaks s)
     = hd EmptyString (split s) :: map (append "> ") (tl (split s)).
Proof.
  split.
  - induction s as [|c s IH]; [reflexivity|].
    cbn [quote_breaks split]. destruct (Ascii.eqb c LF) eqn:Hc.
    + apply Ascii.eqb_eq in Hc. subst c. rewrite IH.
      destruct (split s) as [|x l] eqn:E; [now apply split_not_nil in E|].
      reflexivity.
    + rewrite IH.
      destruct (split s) as [|x l] eqn:E; [now apply split_not_nil in E|].
      destruct l; reflexivity.
  - induction s as [|c s IH]; [reflexivity|].
    cbn [quote_breaks split]. destruct (Ascii.eqb c LF) eqn:Hc.
    + apply Ascii.eqb_eq in Hc. subst c.
      cbn [split]. rewrite Ascii.eqb_refl. cbn [hd tl].
      rewrite (split_prefixed "> " _ eq_refl), IH. cbn [hd tl].
      rewrite (split_head_tail s) at 3. reflexivity.
    + cbn [split]. rewrite Hc, IH.
      destruct (split s) as [|x l] eqn:E; [now apply split_not_nil in E|].
      reflexivity.
Qed.

(** ** What the rewritten document keeps *)

Section BatchKeeps.
Context {N : JsNumber} {RT : JsRuntime}.

Lemma assoc_obj_set_other (k k' : string) (v : json) (l : list (string * json)) :
  k' <> k -> assoc k' (obj_set k v l) = assoc k' l.
Proof.
  intros Hk. induction l as [|[k0 v0] l IH]; cbn [obj_set assoc].
  - destruct (String.eqb k' k) eqn:E; [now apply String.eqb_eq in E | reflexivity].
  - destruct (String.eqb k k0) eqn:E; cbn [assoc].
    + apply String.eqb_eq in E. subst k0.
      destruct (String.eqb k' k) eqn:E'; [now apply String.eqb_eq in E' | reflexivity].
    + now rewrite IH.
Qed.

Lemma obj_set_keys (k : string) (v x : json) (l : list (string * json)) :
  assoc k l = Some x -> map fst (obj_set k v l) = map fst l.
Proof.
  induction l as [|[k0 v0] l IH]; [discriminate|].
  cbn [assoc obj_set]. destruct (String.eqb k k0); [reflexivity|].
  intros H. cbn [map fst]. now rewrite IH.
Qed.

(** The [try] block yields a document only through the assignment to
    [message.content]. *)
Lemma try_rewrite_assigns (entry gap : string) (response : Response)
    (data data' : json) :
  JSON_parse (body response) = Some data ->
  try_rewrite entry gap response = Normal (Some data') ->
  exists text, data' = set_message_content text data.
Proof.
  intros Hp. unfold try_rewrite. rewrite Hp.
  destruct (opt_prop "message" (first_choice data)) as [m|]; [|discriminate].
  destruct (opt_prop "reasoning" (Some m)) as [r|]; [|discriminate].
  destruct (truthy r); [|discriminate].
  unfold rewrite_message.
  destruct (split_lines r) as [lines|]; [|discriminate].
  destruct (val_to_string (prop "content" m)) as [content|];
    [|destruct (opt_prop "citations" (Some data)) as [c|];
      [destruct (truthy c)|]; discriminate].
  destruct (opt_prop "citations" (Some data)) as [c|].
  - destruct (truthy c).
    + destruct (array_items c) as [items|]; [|discriminate].
      destruct (numbered entry items) as [list|]; [|discriminate].
      intros H. injection H as <-. now eexists.
    + intros H. injection H as <-. now eexists.
  - intros H. injection H as <-. now eexists.
Qed.

Lemma filter_with_content_type (name : string) (h : list (string * string)) :
  name <> "content-type" ->
  filter (fun kv => String.eqb (fst kv) name) (with_content_type h)
  = filter (fun kv => String.eqb (fst kv) name) h.
Proof.
  intros Hn.
  assert (Hf : String.eqb "content-type" name = false).
  { destruct (String.eqb "content-type" name) eqn:E; [|reflexivity].
    apply String.eqb_eq in E. now destruct Hn. }
  induction h as [|[k v] h IH]; cbn [with_content_type].
  - cbn [filter fst]. now rewrite Hf.
  - destruct (String.ltb "content-type" k).
    + cbn [filter fst]. now rewrite Hf.
    + cbn [filter fst]. now rewrite IH.
Qed.

Lemma filter_content_type (h : list (string * string)) :
  has_content_type h = false ->
  filter (fun kv => String.eqb (fst kv) "content-type") (with_content_type h)
  = [("content-type", TEXT_PLAIN)].
Proof.
  unfold has_content_type.
  induction h as [|[k v] h IH]; intros H; [reflexivity|].
  cbn [existsb fst] in H. apply orb_false_iff in H. destruct H as [Hk Hh].
  assert (Hnone : filter (fun kv => String.eqb (fst kv) "content-type") h = []).
  { clear IH. induction h as [|[k' v'] h IH']; [reflexivity|].
    cbn [existsb fst] in Hh. apply orb_false_iff in Hh. destruct Hh as [Hk' Hh].
    cbn [filter fst]. rewrite Hk'. now apply IH'. }
  cbn [with_content_type]. destruct (String.ltb "content-type" k).
  - cbn [filter fst]. rewrite Hk, Hnone. reflexivity.
  - cbn [filter fst]. rewrite Hk. now apply IH.
Qed.

(** What [new Response] does to the headers: those of the original are kept,
    and a content type is there afterwards. *)
Lemma rebuilt_headers (response : Response) (data : json) :
  (forall name, name <> "content-type" ->
     headers_get name (headers (rebuilt response data))
     = headers_get name (headers response))
  /\ headers_get "content-type" (headers (rebuilt response data))
     = match headers_get "content-type" (headers response) with
       | Some v => Some v
       | None => Some TEXT_PLAIN
       end.
Proof.
  unfold rebuilt. cbn [headers].
  destruct (has_content_type (headers response)) eqn:E.
  - split; [reflexivity|]. unfold headers_get, has_content_type in *.
    induction (headers response) as [|[k v] h IH]; [discriminate|].
    cbn [existsb fst] in E. cbn [filter fst].
    destruct (String.eqb k "content-type"); [reflexivity|]. now apply IH.
  - split.
    + intros name Hn. unfold headers_get. now rewrite filter_with_content_type.
    + unfold headers_get at 1. rewrite (filter_content_type _ E).
      unfold headers_get, has_content_type in *.
      assert (Hnone : filter (fun kv : string * string =>
                                String.eqb (fst kv) "content-type")
                             (headers response) = []).
      { induction (headers response) as [|[k v] h IH]; [reflexivity|].
        cbn [existsb fst] in E. apply orb_false_iff in E. destruct E as [Hk Hh].
        cbn [filter fst]. rewrite Hk. now apply IH. }
      rewrite Hnone. reflexivity.
Qed.

(** X16.  The single-document path returns the original response or a
    response with the same status and status text that differs from it only
    in [choices[0].message.content] and, when the headers of the original
    name no content type, in the content type of a text, which the new
    response gets.  The document keeps its properties and their order, every
    property other than [choices], every choice after the first, every
    property of the first choice other than [message], and every field of
    the message other than [content], the reasoning among them; every header
    of the original is kept. *)
Theorem batch_rewrite_keeps_rest (entry gap : string) (response : Response)
    (props : list (string * json)) (choice : json) (others : list json)
    (fields : list (string * json)) :
  JSON_parse (body response) = Some (JObj props) ->
  assoc "choices" props = Some (JArr (choice :: others)) ->
  prop "message" choice = Some (JObj fields) ->
  let result := process_document entry gap response in
  result = response
  \/ exists text props' choice' fields',
       status result = status response
       /\ statusText result = statusText response
       /\ headers result
          = (if has_content_type (headers response) then headers response
             else with_content_type (headers response))
       /\ (forall name, name <> "content-type" ->
             headers_get name (headers result) = headers_get name (headers response))
       /\ headers_get "content-type" (headers result)
          = match headers_get "content-type" (headers response) with
            | Some v => Some v
            | None => Some TEXT_PLAIN
            end
       /\ body result = JSON_stringify (JObj props')
       /\ map fst props' = map fst props
       /\ (forall k, k <> "choices" -> assoc k props' = assoc k props)
       /\ assoc "choices" props' = Some (JArr (choice' :: others))
       /\ map fst (spread choice') = map fst (spread choice)
       /\ (forall k, k <> "message" -> prop k choice' = prop k choice)
       /\ prop "message" choice' = Some (JObj fields')
       /\ (forall k, k <> "content" -> assoc k fields' = assoc k fields)
       /\ assoc "content" fields' = Some (JStr text).
Proof.
  intros Hp Hc Hm result. unfold result, process_document.
  destruct (try_rewrite entry gap response) as [[data'|]|] eqn:E; auto.
  destruct (takes_body (status response)); [|now left].
  right. destruct (try_rewrite_assigns _ _ _ _ _ Hp E) as [text ->].
  destruct choice as [| | | | |cl]; try discriminate. cbn [prop] in Hm.
  exists text,
    (obj_set "choices"
       (JArr (JObj (obj_set "message" (JObj (obj_set "content" (JStr text) fields)) cl)
              :: others)) props),
    (JObj (obj_set "message" (JObj (obj_set "content" (JStr text) fields)) cl)),
    (obj_set "content" (JStr text) fields).
  destruct (rebuilt_headers response (set_message_content text (JObj props)))
    as [Hkeep Htype].
  split; [reflexivity|]. split; [reflexivity|]. split; [reflexivity|].
  split; [exact Hkeep|]. split; [exact Htype|].
  split.
  { unfold rebuilt. cbn [body]. f_equal.
    unfold set_message_content, update_prop at 1. rewrite Hc.
    cbn [update_index0 update_prop]. rewrite Hm. reflexivity. }
  split; [exact (obj_set_keys _ _ _ _ Hc)|].
  split; [intros k Hk; now apply assoc_obj_set_other|].
  split; [apply assoc_obj_set|].
  split; [exact (obj_set_keys _ _ _ _ Hm)|].
  split; [intros k Hk; now apply assoc_obj_set_other|].
  split; [apply assoc_obj_set|].
  split; [intros k Hk; now apply assoc_obj_set_other|].
  apply assoc_obj_set.
Qed.

End BatchKeeps.

(** ** The first script of [reason.js] renders nothing *)

Section FirstScript.
Context {N : JsNumber} {RT : JsRuntime}.
Variable clock : nat -> number.

Lemma ReasonA_forwards now line st :
  forallb plain (output_of (ReasonA.process_line now line st)) = true
  /\ (completion_of (ReasonA.process_line now line st) = Normal tt ->
      filter not_footer (output_of (ReasonA.process_line now line st))
      = [Forward line])
  /\ (completion_of (ReasonA.process_line now line st) = Thrown ->
      output_of (ReasonA.process_line now line st) = []).
Proof.
  unfold completion_of, output_of. unfold_script.
  break; cbn [fst snd app]; repeat split; try reflexivity; discriminate.
Qed.

Lemma ReasonA_loop_forwards lines :
  forall n st out st' r,
    for_lines clock ReasonA.process_line n lines st = (out, st', r) ->
    forallb plain out = true
    /\ (exists k, filter not_footer out = map Forward (firstn k lines))
    /\ (r = Normal tt -> filter not_footer out = map Forward lines).
Proof.
  induction lines as [|line rest IH]; intros n st out st' r H.
  - cbn in H. inversion H; subst. repeat split. now exists 0.
  - destruct (ReasonA_forwards (clock n) line st) as (Hp & Hn & Ht).
    unfold completion_of, output_of in Hp, Hn, Ht.
    apply for_lines_cons in H.
    destruct H as [(o1 & s1 & o2 & H1 & H2 & ->) | [H1 ->]];
      rewrite H1 in Hp, Hn, Ht; cbn [fst snd] in Hp, Hn, Ht.
    + destruct (IH _ _ _ _ _ H2) as (Hp2 & [k Hk] & Hn2).
      split; [|split].
      * rewrite forallb_app, Hp, Hp2. reflexivity.
      * exists (S k). rewrite filter_app, (Hn eq_refl), Hk. reflexivity.
      * intros Hr. rewrite filter_app, (Hn eq_refl), (Hn2 Hr). reflexivity.
    + rewrite (Ht eq_refl). split; [reflexivity|].
      split; [now exists 0 | discriminate].
Qed.

(** X8.  The first script of [reason.js] renders no reasoning at all:
    whatever the stream, its output holds no header, no fragment and no
    separator; apart from citation footers it is made of the first complete
    lines of the decoded text, forwarded as the decoder delivered them (a
    leading byte order mark is gone, ill-formed bytes are replaced), and of
    all of them when the stream is closed normally. *)
Theorem first_script_renders_nothing (chunks : list string) :
  let lines := complete_lines (text_of chunks) in
  let run := ReasonA.processStreamingResponse clock chunks in
  forallb plain (fst run) = true
  /\ (exists k, filter not_footer (fst run) = map Forward (firstn k lines))
  /\ (snd run = Closed -> filter not_footer (fst run) = map Forward lines).
Proof.
  intros lines run. unfold run. rewrite ReasonA_by_lines. fold lines.
  unfold run_lines, bind.
  destruct (for_lines clock ReasonA.process_line 0 lines ReasonA.initial)
    as [[o1 s1] r1] eqn:E.
  destruct (ReasonA_loop_forwards _ _ _ _ _ _ E) as (Hp & [k Hk] & Hn).
  destruct r1 as [[]|].
  - pose proof (send_citations_footers false s1) as Hf. unfold output_of in Hf.
    assert (Hpf : forallb plain (fst (fst (ReasonA.finish s1))) = true).
    { unfold_script. break; reflexivity. }
    unfold ReasonA.finish in *.
    destruct (send_citations false s1) as [[o2 s2] r2]. cbn [fst snd] in *.
    assert (Hout : filter not_footer (o1 ++ o2) = map Forward lines).
    { now rewrite filter_app, Hf, app_nil_r, (Hn eq_refl). }
    destruct r2; cbn [fst snd].
    + split; [now rewrite forallb_app, Hp, Hpf|].
      split; [|intros _; exact Hout].
      exists (List.length lines). now rewrite firstn_all.
    + split; [now rewrite forallb_app, Hp, Hpf|].
      split; [|discriminate].
      exists (List.length lines). now rewrite firstn_all.
  - cbn [fst snd]. split; [exact Hp|]. split; [now exists k | discriminate].
Qed.

(** A citations value without [map] stops the stream where it would be
    written. *)
Lemma send_citations_odd clear st :
  truthy (citations st) = true ->
  array_items (citations st) = None ->
  send_citations clear st = ([], st, Thrown).
Proof. intros Ht Ha. unfold_script. now rewrite Ht, Ha. Qed.

Lemma captured_odd line c st :
  data_event line (fst c) -> prop "citations" (fst c) = Some (snd c) ->
  truthy (snd c) = true -> truthy (citations st) = false ->
  captured line st = snd c.
Proof.
  intros (Hm & Hd & Hp) Hc Ht Hn. unfold captured.
  now rewrite Hm, Hd, Hp, Hc, Ht, Hn.
Qed.

Lemma ReasonA_kept_loop lines :
  forall n st,
    Forall (fun line => is_sentinel line = false) lines ->
    truthy (citations st) = true ->
    for_lines clock ReasonA.process_line n lines st
    = (map Forward lines, st, Normal tt).
Proof.
  induction lines as [|line rest IH]; intros n st Hs Hc; [reflexivity|].
  inversion Hs; subst. cbn [for_lines map]. unfold bind.
  rewrite ReasonA_line by assumption.
  rewrite captured_kept by assumption.
  rewrite set_citations_same. now rewrite IH.
Qed.

(** X9.  In the first script of [reason.js], first truthy citations that are
    not an array put the stream in the error state at the next sentinel:
    the lines before it have been forwarded as they came, the sentinel and
    what follows it are not, and no footer is sent. *)
Theorem odd_citations_stop_at_sentinel (chunks : list string)
    (before between rest : list string) (cline s : string) (data c : json) :
  complete_lines (text_of chunks) = before ++ cline :: between ++ s :: rest ->
  Forall (fun line => ~ captures line) before ->
  data_event cline data ->
  prop "citations" data = Some c ->
  truthy c = true ->
  array_items c = None ->
  Forall (fun line => is_sentinel line = false) between ->
  is_sentinel s = true ->
  ReasonA.processStreamingResponse clock chunks
  = (map Forward (before ++ cline :: between), Errored).
Proof.
  intros Hlines Hb Hd Hc Ht Ha Hbt Hs. rewrite ReasonA_by_lines, Hlines.
  assert (Hcs : is_sentinel cline = false).
  { destruct Hd as (Hm & Hdn & _). unfold is_sentinel. now rewrite Hm, Hdn. }
  unfold run_lines, bind.
  rewrite (for_lines_join clock ReasonA.process_line before (cline :: between ++ s :: rest)
             0 ReasonA.initial (map Forward before) ReasonA.initial)
    by (now apply ReasonA_idle_loop).
  cbn [for_lines]. unfold bind.
  rewrite (ReasonA_line _ _ _ Hcs).
  rewrite (captured_odd cline (data, c) ReasonA.initial Hd Hc Ht eq_refl).
  cbn [snd].
  set (st := set_citations c ReasonA.initial).
  rewrite (for_lines_join clock ReasonA.process_line between (s :: rest)
             _ st (map Forward between) st)
    by (now apply ReasonA_kept_loop).
  cbn [for_lines]. unfold bind.
  assert (Hsent : ReasonA.process_line
                    (clock (S (0 + List.length before) + List.length between)) s st
                  = ([], st, Thrown)).
  { unfold is_sentinel in Hs. apply andb_prop in Hs. destruct Hs as [Hm Hdn].
    unfold ReasonA.process_line. rewrite Hm, Hdn. unfold bind.
    now rewrite (send_citations_odd true st Ht Ha). }
  rewrite Hsent. cbn [app]. rewrite app_nil_r.
  now rewrite map_app.
Qed.

End FirstScript.

(** ** The footer of the second script of [reason.js] *)

Section SecondScriptFooter.
Context {N : JsNumber} {RT : JsRuntime}.
Variable clock : nat -> number.

Lemma ReasonB_line now line st :
  is_sentinel line = false ->
  completion_of (ReasonB.process_line now line st) = Normal tt
  /\ count is_footer (output_of (ReasonB.process_line now line st)) = 0
  /\ citations (state_after (ReasonB.process_line now line st)) = captured line st.
Proof.
  unfold completion_of, output_of, state_after, is_sentinel, captured. intros Hs.
  unfold_script. break; cbn [fst snd app andb] in *; try discriminate.
  all: repeat split; reflexivity.
Qed.

Lemma ReasonB_sentinel now line st :
  is_sentinel line = true ->
  ReasonB.process_line now line st
  = match send_citations true st with
    | (out, st', Normal _) => (out ++ [Forward line], st', Normal tt)
    | (out, st', Thrown) => (out, st', Thrown)
    end.
Proof.
  intros Hs. unfold is_sentinel in Hs. apply andb_prop in Hs. destruct Hs as [Hm Hd].
  unfold ReasonB.process_line. rewrite Hm, Hd. unfold bind, enqueue.
  now destruct (send_citations true st) as [[o s] [[]|]].
Qed.

Lemma ReasonB_quiet_loop lines :
  forall n st,
    Forall (fun line => ~ captures line) lines ->
    truthy (citations st) = false ->
    exists out st',
      for_lines clock ReasonB.process_line n lines st = (out, st', Normal tt)
      /\ count is_footer out = 0
      /\ citations st' = citations st.
Proof.
  induction lines as [|line rest IH]; intros n st Hall Ht.
  - exists [], st. now repeat split.
  - inversion Hall as [|? ? Hline Hrest]; subst.
    assert (H1 : exists o1 s1,
               ReasonB.process_line (clock n) line st = (o1, s1, Normal tt)
               /\ count is_footer o1 = 0 /\ citations s1 = citations st).
    { destruct (is_sentinel line) eqn:Hs.
      - rewrite (ReasonB_sentinel _ _ _ Hs), (send_citations_idle true st Ht).
        exists [Forward line], st. now repeat split.
      - destruct (ReasonB_line (clock n) line st Hs) as (Hc & Hf & Hk).
        unfold completion_of, output_of, state_after in Hc, Hf, Hk.
        destruct (ReasonB.process_line (clock n) line st) as [[o1 s1] r1].
        cbn [fst snd] in Hc, Hf, Hk. subst r1. exists o1, s1.
        repeat split; [exact Hf|]. now rewrite Hk, captured_none. }
    destruct H1 as (o1 & s1 & E1 & Hf1 & Hk1).
    destruct (IH (S n) s1 Hrest) as (o2 & s2 & E2 & Hf2 & Hk2); [congruence|].
    exists (o1 ++ o2), s2. split; [|split].
    + cbn [for_lines]. unfold bind. now rewrite E1, E2.
    + rewrite count_app. lia.
    + congruence.
Qed.

Lemma ReasonB_pending_loop lines :
  forall n st,
    Forall (fun line => is_sentinel line = false) lines ->
    truthy (citations st) = true ->
    exists out st',
      for_lines clock ReasonB.process_line n lines st = (out, st', Normal tt)
      /\ count is_footer out = 0
      /\ citations st' = citations st.
Proof.
  induction lines as [|line rest IH]; intros n st Hall Ht.
  - exists [], st. now repeat split.
  - inversion Hall as [|? ? Hline Hrest]; subst.
    destruct (ReasonB_line (clock n) line st Hline) as (Hc & Hf & Hk).
    unfold completion_of, output_of, state_after in Hc, Hf, Hk.
    destruct (ReasonB.process_line (clock n) line st) as [[o1 s1] r1] eqn:E1.
    cbn [fst snd] in Hc, Hf, Hk. subst r1.
    rewrite (captured_kept line st Ht) in Hk.
    destruct (IH (S n) s1 Hrest) as (o2 & s2 & E2 & Hf2 & Hk2); [congruence|].
    exists (o1 ++ o2), s2. split; [|split].
    + cbn [for_lines]. unfold bind. now rewrite E1, E2.
    + rewrite count_app. lia.
    + congruence.
Qed.

(** X17.  In the second script of [reason.js], for a stream whose first
    truthy citations are the list [items], which convert to the texts
    [texts], and that holds no sentinel between that event and the lines
    [rest]: when nothing follows, the stream is closed with one footer,
    listing [texts] numbered from 1, as its last event; when a sentinel and
    lines without truthy citations follow, the stream is closed with one
    footer, directly before the forwarded sentinel. *)
Theorem second_script_footer (chunks : list string)
    (before between rest : list string) (cline : string) (items : list json)
    (texts : list string) :
  complete_lines (text_of chunks) = before ++ cline :: between ++ rest ->
  Forall (fun line => ~ captures line) before ->
  cites cline items ->
  rendered items texts ->
  Forall (fun line => is_sentinel line = false) between ->
  let footer := Footer (citations_message (listing SPACED texts)) in
  (rest = [] ->
   exists body,
     ReasonB.processStreamingResponse clock chunks = (body ++ [footer], Closed)
     /\ count is_footer body = 0)
  /\ (forall s after,
        rest = s :: after ->
        is_sentinel s = true ->
        Forall (fun line => ~ captures line) after ->
        exists body tail,
          ReasonB.processStreamingResponse clock chunks
          = (body ++ footer :: Forward s :: tail, Closed)
          /\ count is_footer body = 0
          /\ count is_footer tail = 0).
Proof.
  intros Hlines Hb Hc Hi Hbt footer. rewrite ReasonB_by_lines, Hlines.
  unfold run_lines, bind.
  destruct (ReasonB_quiet_loop before 0 ReasonB.initial Hb eq_refl)
    as (o1 & s1 & E1 & Hf1 & Hk1).
  assert (Hcs : is_sentinel cline = false) by (eapply cites_not_sentinel; eassumption).
  destruct (ReasonB_line (clock (0 + List.length before)) cline s1 Hcs)
    as (Hn2 & Hf2 & Hk2).
  unfold completion_of, output_of, state_after in Hn2, Hf2, Hk2.
  destruct (ReasonB.process_line (clock (0 + List.length before)) cline s1)
    as [[o2 s2] r2] eqn:E2.
  cbn [fst snd] in Hn2, Hf2, Hk2. subst r2.
  rewrite (captured_first cline items s1 Hc) in Hk2 by (now rewrite Hk1).
  destruct (ReasonB_pending_loop between (S (0 + List.length before)) s2 Hbt)
    as (o3 & s3 & E3 & Hf3 & Hk3); [now rewrite Hk2|].
  rewrite Hk2 in Hk3.
  assert (Eloop : forall tail,
             for_lines clock ReasonB.process_line 0
               (before ++ cline :: between ++ tail) ReasonB.initial
             = match for_lines clock ReasonB.process_line
                       (S (0 + List.length before) + List.length between) tail s3 with
               | (o4, s4, r) => ((o1 ++ o2 ++ o3) ++ o4, s4, r)
               end).
  { intros tail.
    rewrite (for_lines_join clock ReasonB.process_line before _ 0 _ _ _ E1).
    cbn [for_lines]. unfold bind. rewrite E2.
    rewrite (for_lines_join clock ReasonB.process_line between tail _ _ _ _ E3).
    destruct (for_lines clock ReasonB.process_line
                (S (0 + List.length before) + List.length between) tail s3)
      as [[o4 s4] r].
    now rewrite <- !app_assoc. }
  assert (Hbody : count is_footer (o1 ++ o2 ++ o3) = 0)
    by (rewrite !count_app; lia).
  split.
  - intros ->. rewrite Eloop. cbn [for_lines ret].
    unfold ReasonB.finish. rewrite (send_citations_pending false s3 items texts Hk3 Hi).
    exists (o1 ++ o2 ++ o3). rewrite app_nil_r. now split.
  - intros s after -> Hs Ha. rewrite Eloop. cbn [for_lines]. unfold bind.
    rewrite (ReasonB_sentinel _ s s3 Hs),
      (send_citations_pending true s3 items texts Hk3 Hi).
    destruct (ReasonB_quiet_loop after
                (S (S (0 + List.length before) + List.length between))
                (set_citations JNull s3) Ha eq_refl)
      as (o5 & s5 & E5 & Hf5 & Hk5).
    rewrite E5. unfold ReasonB.finish.
    rewrite (send_citations_idle false s5) by (now rewrite Hk5).
    exists (o1 ++ o2 ++ o3), o5. fold footer.
    rewrite app_nil_r. cbn [app]. rewrite <- !app_assoc. cbn [app].
    repeat split; assumption.
Qed.

End SecondScriptFooter.

(** ** The second script of [part_000] *)

Section SecondPart.
Context {N : JsNumber} {RT : JsRuntime}.

(** A chunk whose only key is [citations] has no choices. *)
Lemma lone_citations (props : list (string * json)) (j choice : json) :
  prop "citations" (JObj props) = Some j ->
  (List.length (spread (JObj props)) =? 1)%nat && truthy j = true ->
  first_choice (JObj props) = Some choice ->
  False.
Proof.
  cbn [prop spread]. intros Hc Hl Hfc. apply andb_prop in Hl. destruct Hl as [Hl _].
  destruct props as [|[k v] [|]]; try discriminate.
  cbn [assoc] in Hc. destruct (String.eqb "citations" k) eqn:E; [|discriminate].
  apply String.eqb_eq in E. subst k. discriminate.
Qed.

End SecondPart.

Ltac lone :=
  match goal with
  | Hc : prop "citations" (JObj ?props) = Some ?j,
    Hl : (_ =? 1)%nat && truthy ?j = true,
    Hfc : first_choice (JObj ?props) = Some _ |- _ =>
      exfalso; exact (lone_citations _ _ _ Hc Hl Hfc)
  end.

Section SecondPartLines.
Context {N : JsNumber} {RT : JsRuntime}.

Lemma PartD_effect now line st :
  line_effect line st (PartD.process_line now line st).
Proof. unfold_script. break. all: flags st. all: effect. Qed.

Lemma PartD_total now line st :
  completion_of (PartD.process_line now line st) = Normal tt.
Proof. unfold completion_of. unfold_script. break; reflexivity. Qed.

Lemma PartD_reasoning now line st :
  reasoning_line PartD.reasoning_test line ->
  reasoningStarted (state_after (PartD.process_line now line st)) = true.
Proof.
  intros (data & delta & (Hm & Hd & Hp) & Hfd & Htd & Htest).
  destruct (first_delta_choice _ _ Hfd) as [choice Hfc].
  unfold state_after. keyed st. all: lone.
Qed.

Lemma content_not_reasoning_D delta s :
  prop "content" delta = Some (JStr s) ->
  truthy delta = true
  /\ PartD.reasoning_test delta = false /\ PartD.content_test delta = true.
Proof.
  intros H. unfold PartD.reasoning_test, PartD.content_test. rewrite H.
  destruct delta; try discriminate. cbn. now rewrite andb_false_r.
Qed.

Lemma PartD_content now line st :
  content_line line ->
  reasoningStarted st = true ->
  reasoningEnded (state_after (PartD.process_line now line st)) = true.
Proof.
  intros (data & delta & s & (Hm & Hd & Hp) & Hfd & Hc & Hs) Hst.
  destruct (content_not_reasoning_D _ _ Hc) as (Htd & Hrt & Hct). clear Hc Hs.
  destruct (first_delta_choice _ _ Hfd) as [choice Hfc].
  unfold state_after. keyed st. all: lone.
Qed.

Lemma PartD_none now line st :
  ~ carries_reasoning line ->
  reasoningStarted st = false ->
  forallb plain (output_of (PartD.process_line now line st)) = true
  /\ reasoningStarted (state_after (PartD.process_line now line st)) = false.
Proof.
  intros Hno Hst. unfold state_after, output_of.
  unfold_script. break; cbn [fst snd]; flags st; try congruence.
  all: try (now split).
  all: has_reasoning.
Qed.

Lemma PartD_finish st : forallb plain (output_of (PartD.finish st)) = true.
Proof. unfold output_of. unfold_script. break; reflexivity. Qed.

End SecondPartLines.

(** ** Markers of a script whose loop never throws *)

Section BracketingTotal.
Context {N : JsNumber} {RT : JsRuntime}.
Variable clock : nat -> number.
Variable process_line : number -> string -> script unit.
Variable finish : script unit.
Variable test : json -> bool.

Hypothesis H_effect :
  forall now line st, line_effect line st (process_line now line st).
Hypothesis H_total :
  forall now line st, completion_of (process_line now line st) = Normal tt.
Hypothesis H_finish :
  forall st, forallb plain (output_of (finish st)) = true.
Hypothesis H_reasoning :
  forall now line st,
    reasoning_line test line ->
    reasoningStarted (state_after (process_line now line st)) = true.
Hypothesis H_ends :
  forall now line st,
    content_line line ->
    reasoningStarted st = true ->
    reasoningEnded (state_after (process_line now line st)) = true.
Hypothesis H_none :
  forall now line st,
    ~ carries_reasoning line ->
    reasoningStarted st = false ->
    forallb plain (output_of (process_line now line st)) = true
    /\ reasoningStarted (state_after (process_line now line st)) = false.

Lemma loop_total lines :
  forall n st, completion_of (for_lines clock process_line n lines st) = Normal tt.
Proof.
  induction lines as [|line rest IH]; intros n st; [reflexivity|].
  cbn [for_lines]. unfold bind, completion_of.
  pose proof (H_total (clock n) line st) as Ht. unfold completion_of in Ht.
  destruct (process_line (clock n) line st) as [[o1 s1] r1]. cbn [snd] in Ht.
  subst r1. specialize (IH (S n) s1). unfold completion_of in IH.
  destruct (for_lines clock process_line (S n) rest s1) as [[o2 s2] r2].
  exact IH.
Qed.

Lemma markers_total init lines :
  reasoningStarted init = false ->
  reasoningEnded init = false ->
  let out := fst (run_lines clock process_line finish init lines) in
  (exists q, scan NotStarted out = Some q /\ q <> Closing)
  /\ count is_header out <= 1
  /\ count is_separator out <= 1
  /\ (Forall (fun line => ~ carries_reasoning line) lines ->
      count is_header out = 0 /\ count is_separator out = 0)
  /\ (Exists (reasoning_line test) lines ->
      count is_header out = 1
      /\ exists pre h post,
           out = pre ++ Header h :: post /\ count is_fragment pre = 0)
  /\ (forall l1 r l2 c l3,
        lines = l1 ++ r :: l2 ++ c :: l3 ->
        reasoning_line test r ->
        content_line c ->
        count is_separator out = 1).
Proof.
  intros Hs0 He0 out.
  assert (Hreasoning : forall now line st o st' r,
             process_line now line st = (o, st', r) ->
             reasoning_line test line -> reasoningStarted st' = true).
  { intros now line st o st' r H Hl.
    pose proof (H_reasoning now line st Hl) as Hf.
    unfold state_after in Hf. now rewrite H in Hf. }
  assert (Hnone : forall now line st o st' r,
             process_line now line st = (o, st', r) ->
             ~ carries_reasoning line -> reasoningStarted st = false ->
             forallb plain o = true /\ reasoningStarted st' = false).
  { intros now line st o st' r H Hl Hs.
    pose proof (H_none now line st Hl Hs) as Hf.
    unfold state_after, output_of in Hf. now rewrite H in Hf. }
  pose proof (loop_total lines 0 init) as Hnormal. unfold completion_of in Hnormal.
  destruct (for_lines clock process_line 0 lines init) as [[o1 st1] r1] eqn:Hloop.
  cbn [snd] in Hnormal. subst r1.
  pose proof (H_finish st1) as Hp2. unfold output_of in Hp2.
  assert (Hout : out = o1 ++ fst (fst (finish st1))).
  { unfold out, run_lines, bind. rewrite Hloop.
    destruct (finish st1) as [[o2 s2] [[]|]]; reflexivity. }
  set (o2 := fst (fst (finish st1))) in *. clearbody o2 out. subst out.
  assert (Hok0 : flags_ok init) by (intros _; exact He0).
  assert (Hsc0 : scan NotStarted [] = Some (phase_of init)).
  { cbn. f_equal. symmetry. now apply phase_of_flags. }
  destruct (loop_invariant clock process_line H_effect _ _ _ _ _ _ _ Hok0 Hsc0 Hloop)
    as [Hok1 Hsc1].
  cbn [app] in Hsc1.
  destruct (phase_of_flags st1) as (Hnc & Hst & Hen & Hns).
  assert (Hsc : scan NotStarted (o1 ++ o2) = Some (phase_of st1)).
  { rewrite scan_app, Hsc1. now apply scan_plain. }
  destruct (scan_counts _ _ _ Hsc) as [Hch Hcs]. cbn [headers_of separators_of] in Hch, Hcs.
  split; [now exists (phase_of st1)|].
  split; [destruct (phase_of st1); cbn in Hch; lia|].
  split; [destruct (phase_of st1); cbn in Hcs; lia|].
  split; [|split].
  - intros Hall.
    destruct (loop_without_reasoning clock process_line Hnone _ _ _ _ _ _ Hloop Hall Hs0)
      as [Hp1 Hs1].
    rewrite !count_app.
    destruct (count_plain _ Hp1) as (-> & -> & _).
    destruct (count_plain _ Hp2) as (-> & -> & _). now split.
  - intros Hex.
    pose proof (loop_starts clock process_line test H_effect Hreasoning
                  _ _ _ _ _ Hloop Hex) as Hs1.
    split.
    + specialize (Hst Hs1). destruct (phase_of st1); cbn in Hch; try lia; congruence.
    + destruct (scan_header_first _ _ Hsc (Hst Hs1)) as (pre & h & post & Heq & Hpre).
      exists pre, h, post. split; [exact Heq|]. now apply count_plain.
  - intros l1 r l2 c l3 Hlines Hr Hcl. subst lines.
    change (l1 ++ r :: l2 ++ c :: l3) with (l1 ++ (r :: l2) ++ c :: l3) in Hloop.
    rewrite app_assoc in Hloop.
    destruct (for_lines_split clock process_line _ _ _ _ _ _ Hloop)
      as (oa & sa & ob & Ha & Hb & ->).
    apply for_lines_cons in Hb.
    destruct Hb as [(oc1 & sb & od & H1 & H2 & ->) | [_ Hb]]; [|discriminate].
    assert (Hsa : reasoningStarted sa = true).
    { apply (loop_starts clock process_line test H_effect Hreasoning _ _ _ _ _ Ha).
      apply Exists_app. right. now left. }
    pose proof (H_ends (clock (0 + List.length (l1 ++ r :: l2))) c sa Hcl Hsa) as Heb.
    unfold state_after in Heb. rewrite H1 in Heb. cbn [fst snd] in Heb.
    pose proof (H_effect (clock (0 + List.length (l1 ++ r :: l2))) c sa) as Hec.
    rewrite H1 in Hec.
    assert (Hsb : reasoningStarted sb = true)
      by (inversion Hec; subst; congruence).
    destruct (loop_keeps_flags clock process_line H_effect _ _ _ _ _ _ H2) as [Hks Hke].
    rewrite (Hen (Hks Hsb) (Hke Heb)) in Hcs. cbn in Hcs. lia.
Qed.

End BracketingTotal.

Section SecondPartMarkers.
Context {N : JsNumber} {RT : JsRuntime}.
Variable clock : nat -> number.

(** X11.  The second script of [part_000] keeps the markers in order,
    whatever the chunks and however the stream ends: at most one header and
    one separator, properly bracketed; none when no event carries a
    reasoning field; exactly one header, before any fragment, when some
    event is reasoning with a [null] content; exactly one separator when an
    event with a non-empty content follows such an event. *)
Theorem second_part_markers (chunks : list string) :
  let lines := complete_lines (text_of chunks) in
  let out := fst (PartD.processStreamingResponse clock chunks) in
  (exists q, scan NotStarted out = Some q /\ q <> Closing)
  /\ count is_header out <= 1
  /\ count is_separator out <= 1
  /\ (Forall (fun line => ~ carries_reasoning line) lines ->
      count is_header out = 0 /\ count is_separator out = 0)
  /\ (Exists (reasoning_line PartD.reasoning_test) lines ->
      count is_header out = 1
      /\ exists pre h post,
           out = pre ++ Header h :: post /\ count is_fragment pre = 0)
  /\ (forall l1 r l2 c l3,
        lines = l1 ++ r :: l2 ++ c :: l3 ->
        reasoning_line PartD.reasoning_test r ->
        content_line c ->
        count is_separator out = 1).
Proof.
  intros lines out. unfold out. rewrite PartD_by_lines. fold lines.
  apply (markers_total clock PartD.process_line PartD.finish PartD.reasoning_test
           PartD_effect PartD_total PartD_finish PartD_reasoning PartD_content
           PartD_none PartD.initial lines eq_refl eq_refl).
Qed.

End SecondPartMarkers.

(** ** Citations in the scripts of [part_000] *)

Section PartCitations.
Context {N : JsNumber} {RT : JsRuntime}.
Variable clock : nat -> number.

Lemma PartD_line now line st :
  count is_footer (output_of (PartD.process_line now line st)) = 0
  /\ (citationsReceived st = true ->
      citations (state_after (PartD.process_line now line st)) = citations st
      /\ citationsReceived (state_after (PartD.process_line now line st)) = true)
  /\ (is_sentinel line = true ->
      output_of (PartD.process_line now line st) = [Forward line]).
Proof.
  unfold output_of, state_after, is_sentinel.
  unfold_script. break; cbn [fst snd app andb negb] in *.
  all: repeat split; try reflexivity; try discriminate; try assumption.
  all: match goal with
       | H : citationsReceived _ = true,
         H' : _ && negb (citationsReceived _) = true |- _ =>
           rewrite H, andb_false_r in H'; discriminate H'
       end.
Qed.

Lemma PartD_uncaptured now line st :
  ~ captures line ->
  citations (state_after (PartD.process_line now line st)) = citations st
  /\ citationsReceived (state_after (PartD.process_line now line st))
     = citationsReceived st.
Proof.
  intros Hno. unfold state_after.
  unfold_script. break; cbn [fst snd]; try (now split).
  all: not_captured.
Qed.

Lemma PartD_captures now line st data c :
  data_event line data ->
  prop "citations" data = Some c ->
  truthy c = true ->
  citationsReceived st = false ->
  citations (state_after (PartD.process_line now line st)) = c
  /\ citationsReceived (state_after (PartD.process_line now line st)) = true.
Proof.
  intros (Hm & Hd & Hp) Hc Ht Hr. unfold state_after.
  unfold_script. rewrite Hm, Hd, Hp.
  destruct data; try discriminate. rewrite Hc, Ht, Hr.
  cbn [negb andb]. break; cbn [fst snd]; now split.
Qed.

Lemma PartD_loop lines :
  forall n st,
    exists out st',
      for_lines clock PartD.process_line n lines st = (out, st', Normal tt)
      /\ count is_footer out = 0
      /\ (forall s, In s lines -> is_sentinel s = true -> In (Forward s) out)
      /\ (citationsReceived st = true ->
          citations st' = citations st /\ citationsReceived st' = true)
      /\ (Forall (fun line => ~ captures line) lines ->
          citations st' = citations st
          /\ citationsReceived st' = citationsReceived st).
Proof.
  induction lines as [|line rest IH]; intros n st.
  - exists [], st. split; [reflexivity|]. split; [reflexivity|].
    split; [intros s []|]. split; [intros Hr; now split | intros _; now split].
  - pose proof (PartD_total (clock n) line st) as Hc.
    destruct (PartD_line (clock n) line st) as (Hf & Hk & Hs).
    pose proof (PartD_uncaptured (clock n) line st) as Hu.
    unfold completion_of, output_of, state_after in Hc, Hf, Hk, Hs, Hu.
    destruct (PartD.process_line (clock n) line st) as [[o1 s1] r1] eqn:E.
    cbn [fst snd] in Hc, Hf, Hk, Hs, Hu. subst r1.
    destruct (IH (S n) s1) as (o2 & s2 & E2 & Hf2 & Hs2 & Hk2 & Hu2).
    exists (o1 ++ o2), s2. split; [|split; [|split; [|split]]].
    + cbn [for_lines]. unfold bind. now rewrite E, E2.
    + rewrite count_app. lia.
    + intros s [<- | Hin] Hsent; apply in_or_app.
      * left. rewrite (Hs Hsent). now left.
      * right. now apply Hs2.
    + intros Hr. destruct (Hk Hr) as [Hc1 Hr1].
      destruct (Hk2 Hr1) as [Hc2 Hr2]. split; congruence.
    + intros Hall. inversion Hall as [|? ? Hline Hrest]; subst.
      destruct (Hu Hline) as [Hc1 Hr1]. destruct (Hu2 Hrest) as [Hc2 Hr2].
      split; congruence.
Qed.

(** The variables when the reader reports [done], for a stream whose first
    truthy citations are [c]. *)
Lemma PartD_settles (before tail : list string) cline data c :
  Forall (fun line => ~ captures line) before ->
  data_event cline data ->
  prop "citations" data = Some c ->
  truthy c = true ->
  exists body st',
    for_lines clock PartD.process_line 0 (before ++ cline :: tail) PartD.initial
    = (body, st', Normal tt)
    /\ citations st' = c
    /\ count is_footer body = 0
    /\ (forall s, In s (before ++ cline :: tail) -> is_sentinel s = true ->
        In (Forward s) body).
Proof.
  intros Hb Hd Hc Ht.
  destruct (PartD_loop (before ++ cline :: tail) 0 PartD.initial)
    as (body & st' & E & Hf & Hs & _ & _).
  exists body, st'. split; [exact E|]. split; [|now split].
  destruct (for_lines_split clock PartD.process_line _ _ _ _ _ _ E)
    as (oa & sa & ob & Ea & Eb & _).
  destruct (PartD_loop before 0 PartD.initial) as (oa' & sa' & Ea' & _ & _ & _ & Hu).
  rewrite Ea in Ea'. injection Ea' as _ <-.
  destruct (Hu Hb) as [_ Hra]. cbn in Hra.
  apply for_lines_cons in Eb.
  destruct Eb as [(o1 & s1 & o2 & E1 & E2 & _) | [_ Eb]]; [|discriminate].
  destruct (PartD_captures (clock (0 + List.length before)) cline sa data c
              Hd Hc Ht Hra) as [Hc1 Hr1].
  unfold state_after in Hc1, Hr1. rewrite E1 in Hc1, Hr1. cbn [fst snd] in Hc1, Hr1.
  destruct (PartD_loop tail (S (0 + List.length before)) s1)
    as (o2' & s2' & E2' & _ & _ & Hk & _).
  rewrite E2 in E2'. injection E2' as _ <-.
  destruct (Hk Hr1) as [Hc2 _]. congruence.
Qed.

Lemma PartC_settles (before tail : list string) cline data c :
  Forall (fun line => ~ captures line) before ->
  data_event cline data ->
  prop "citations" data = Some c ->
  truthy c = true ->
  exists body st',
    for_lines clock PartC.process_line 0 (before ++ cline :: tail) PartC.initial
    = (body, st', Normal tt)
    /\ citations st' = c
    /\ count is_footer body = 0
    /\ (forall s, In s (before ++ cline :: tail) -> is_sentinel s = true ->
        In (Forward s) body).
Proof.
  intros Hb Hd Hc Ht.
  destruct (PartC_loop clock (before ++ cline :: tail) 0 PartC.initial)
    as (body & st' & E & Hf & Hs).
  exists body, st'. split; [exact E|]. split; [|now split].
  destruct (for_lines_split clock PartC.process_line _ _ _ _ _ _ E)
    as (oa & sa & ob & Ea & Eb & _).
  destruct (PartC_track clock _ _ _ _ _ _ Ea) as [_ Hka].
  specialize (Hka Hb).
  apply for_lines_cons in Eb.
  destruct Eb as [(o1 & s1 & o2 & E1 & E2 & _) | [_ Eb]]; [|discriminate].
  destruct (PartC_line (clock (0 + List.length before)) cline sa) as (_ & _ & Hcap & _).
  unfold state_after in Hcap. rewrite E1 in Hcap. cbn [fst snd] in Hcap.
  rewrite (captured_odd cline (data, c) sa Hd Hc Ht) in Hcap by (now rewrite Hka).
  cbn [snd] in Hcap.
  destruct (PartC_track clock _ _ _ _ _ _ E2) as [Hkt _].
  rewrite Hcap in Hkt. exact (Hkt Ht).
Qed.

Lemma PartD_finish_pending st items texts :
  citations st = JArr items ->
  items <> [] ->
  rendered items texts ->
  PartD.finish st
  = ([Footer (bare_event (RULE ++ listing TIGHT texts))], st, Normal tt).
Proof.
  intros Hc Hne Hi. unfold_script. rewrite Hc.
  cbn [length_positive array_items].
  rewrite (numbered_rendered TIGHT items texts Hi).
  destruct items; [now destruct Hne | reflexivity].
Qed.

(** X12.  In the second script of [part_000], for a stream whose first
    truthy citations are a list that is not empty and whose items convert to
    the texts [texts]: the stream is closed normally, and one footer, the
    rule followed by those texts numbered from 1 ([[i]> c], one per line), is
    the last event, after every forwarded sentinel. *)
Theorem second_part_footer (chunks : list string) (before tail : list string)
    (cline : string) (items : list json) (texts : list string) :
  complete_lines (text_of chunks) = before ++ cline :: tail ->
  Forall (fun line => ~ captures line) before ->
  cites cline items ->
  items <> [] ->
  rendered items texts ->
  exists body,
    PartD.processStreamingResponse clock chunks
    = (body ++ [Footer (bare_event (RULE ++ listing TIGHT texts))], Closed)
    /\ count is_footer body = 0
    /\ (forall s, In s (complete_lines (text_of chunks)) ->
        is_sentinel s = true -> In (Forward s) body).
Proof.
  intros Hlines Hb (data & Hd & Hc) Hne Hi.
  destruct (PartD_settles before tail cline data (JArr items) Hb Hd Hc eq_refl)
    as (body & st' & E & Hcs & Hf & Hs).
  exists body. rewrite PartD_by_lines, Hlines. split; [|now split].
  unfold run_lines, bind. rewrite E.
  now rewrite (PartD_finish_pending st' items texts Hcs Hne Hi).
Qed.

(** X10.  In both scripts of [part_000], first truthy citations that have a
    positive length and are not an array (a string, say) put the stream in
    the error state when the reader reports [done]: every line has been
    processed by then, every sentinel forwarded, and no footer is sent. *)
Theorem odd_citations_stop_at_done (chunks : list string)
    (before tail : list string) (cline : string) (data c : json) :
  complete_lines (text_of chunks) = before ++ cline :: tail ->
  Forall (fun line => ~ captures line) before ->
  data_event cline data ->
  prop "citations" data = Some c ->
  truthy c = true ->
  length_positive c = true ->
  array_items c = None ->
  (exists body,
     PartC.processStreamingResponse clock chunks = (body, Errored)
     /\ count is_footer body = 0
     /\ (forall s, In s (complete_lines (text_of chunks)) ->
         is_sentinel s = true -> In (Forward s) body))
  /\ (exists body,
        PartD.processStreamingResponse clock chunks = (body, Errored)
        /\ count is_footer body = 0
        /\ (forall s, In s (complete_lines (text_of chunks)) ->
            is_sentinel s = true -> In (Forward s) body)).
Proof.
  intros Hlines Hb Hd Hc Ht Hl Ha. split.
  - destruct (PartC_settles before tail cline data c Hb Hd Hc Ht)
      as (body & st' & E & Hcs & Hf & Hs).
    exists body. rewrite PartC_by_lines, Hlines. split; [|now split].
    unfold run_lines, bind. rewrite E.
    unfold_script. rewrite Hcs, Ht, Hl, Ha. cbn. now rewrite app_nil_r.
  - destruct (PartD_settles before tail cline data c Hb Hd Hc Ht)
      as (body & st' & E & Hcs & Hf & Hs).
    exists body. rewrite PartD_by_lines, Hlines. split; [|now split].
    unfold run_lines, bind. rewrite E.
    unfold_script. rewrite Hcs, Hl, Ha. cbn. now rewrite app_nil_r.
Qed.

End PartCitations.

(** ** How long the thinking lasted *)

Section TimingFacts.
Context {N : JsNumber} {RT : JsRuntime}.

Lemma event_content_spread (data choice : json) (text : string) :
  event_content (spread_event data choice text) = Some (JStr text).
Proof.
  unfold event_content, first_delta, first_choice, spread_event.
  cbn [opt_prop prop]. rewrite assoc_obj_set. cbn [opt_index0 index0 hd_error opt_prop prop].
  rewrite assoc_obj_set. reflexivity.
Qed.

Lemma event_content_bare (text : string) :
  event_content (bare_event text) = Some (JStr text).
Proof. reflexivity. Qed.

Lemma reasoning_line_weaker (line : string) :
  reasoning_line ReasonB.reasoning_test line ->
  reasoning_line PartC.reasoning_test line.
Proof.
  intros (data & delta & Hd & Hfd & Htd & Ht).
  exists data, delta. repeat split; try assumption; try apply Hd.
  unfold ReasonB.reasoning_test in Ht. unfold PartC.reasoning_test.
  apply andb_prop in Ht. destruct Ht as [Hr Hn]. rewrite Hr.
  destruct (prop "content" delta) as [[]|]; try discriminate. reflexivity.
Qed.

End TimingFacts.

Ltac timed st :=
  unfold state_after, output_of; keyed st;
  cbn [startThinkingTime set_citations set_citationsReceived set_startThinkingTime
       set_reasoningStarted set_reasoningEnded reasoningStarted reasoningEnded];
  try lone;
  repeat split; try reflexivity; try congruence.

Ltac separated :=
  eexists; split;
  [reflexivity | first [apply event_content_spread | apply event_content_bare]].

Section TimingLines.
Context {N : JsNumber} {RT : JsRuntime}.

Lemma ReasonB_first now line st :
  reasoning_line ReasonB.reasoning_test line ->
  reasoningStarted st = false ->
  startThinkingTime (state_after (ReasonB.process_line now line st)) = Some now
  /\ reasoningEnded (state_after (ReasonB.process_line now line st))
     = reasoningEnded st.
Proof.
  intros (data & delta & (Hm & Hd & Hp) & Hfd & Htd & Htest) Hst.
  destruct (first_delta_choice _ _ Hfd) as [choice Hfc].
  timed st.
Qed.

Lemma ReasonB_more now line st :
  reasoning_line ReasonB.reasoning_test line ->
  reasoningStarted st = true ->
  startThinkingTime (state_after (ReasonB.process_line now line st))
  = startThinkingTime st
  /\ reasoningEnded (state_after (ReasonB.process_line now line st))
     = reasoningEnded st.
Proof.
  intros (data & delta & (Hm & Hd & Hp) & Hfd & Htd & Htest) Hst.
  destruct (first_delta_choice _ _ Hfd) as [choice Hfc].
  timed st.
Qed.

Lemma ReasonB_separates now line st :
  content_line line ->
  reasoningStarted st = true ->
  reasoningEnded st = false ->
  exists j,
    output_of (ReasonB.process_line now line st) = [Separator j; Forward line]
    /\ event_content j
       = Some (JStr (separator_text (elapsed_seconds (startThinkingTime st) now))).
Proof.
  intros (data & delta & s & (Hm & Hd & Hp) & Hfd & Hc & Hs) Hst Hen.
  destruct (content_not_reasoning_B _ _ Hc) as (Htd & Hrt & Hct). clear Hc Hs.
  destruct (first_delta_choice _ _ Hfd) as [choice Hfc].
  unfold output_of. keyed st. all: separated.
Qed.

Lemma PartC_first now line st :
  reasoning_line PartC.reasoning_test line ->
  reasoningStarted st = false ->
  startThinkingTime (state_after (PartC.process_line now line st)) = Some now
  /\ reasoningEnded (state_after (PartC.process_line now line st))
     = reasoningEnded st.
Proof.
  intros (data & delta & (Hm & Hd & Hp) & Hfd & Htd & Htest) Hst.
  destruct (first_delta_choice _ _ Hfd) as [choice Hfc].
  timed st.
Qed.

Lemma PartC_more now line st :
  reasoning_line PartC.reasoning_test line ->
  reasoningStarted st = true ->
  startThinkingTime (state_after (PartC.process_line now line st))
  = startThinkingTime st
  /\ reasoningEnded (state_after (PartC.process_line now line st))
     = reasoningEnded st.
Proof.
  intros (data & delta & (Hm & Hd & Hp) & Hfd & Htd & Htest) Hst.
  destruct (first_delta_choice _ _ Hfd) as [choice Hfc].
  timed st.
Qed.

Lemma PartC_separates now line st :
  content_line line ->
  reasoningStarted st = true ->
  reasoningEnded st = false ->
  exists j,
    output_of (PartC.process_line now line st) = [Separator j; Forward line]
    /\ event_content j
       = Some (JStr (separator_text (elapsed_seconds (startThinkingTime st) now))).
Proof.
  intros (data & delta & s & (Hm & Hd & Hp) & Hfd & Hc & Hs) Hst Hen.
  destruct (content_not_reasoning_C _ _ Hc Hs) as (Htd & Hrt & Hct). clear Hc Hs.
  destruct (first_delta_choice _ _ Hfd) as [choice Hfc].
  unfold output_of. keyed st. all: first [lone | separated].
Qed.

Lemma PartD_first now line st :
  reasoning_line PartD.reasoning_test line ->
  reasoningStarted st = false ->
  startThinkingTime (state_after (PartD.process_line now line st)) = Some now
  /\ reasoningEnded (state_after (PartD.process_line now line st))
     = reasoningEnded st.
Proof.
  intros (data & delta & (Hm & Hd & Hp) & Hfd & Htd & Htest) Hst.
  destruct (first_delta_choice _ _ Hfd) as [choice Hfc].
  timed st.
Qed.

Lemma PartD_more now line st :
  reasoning_line PartD.reasoning_test line ->
  reasoningStarted st = true ->
  startThinkingTime (state_after (PartD.process_line now line st))
  = startThinkingTime st
  /\ reasoningEnded (state_after (PartD.process_line now line st))
     = reasoningEnded st.
Proof.
  intros (data & delta & (Hm & Hd & Hp) & Hfd & Htd & Htest) Hst.
  destruct (first_delta_choice _ _ Hfd) as [choice Hfc].
  timed st.
Qed.

Lemma PartD_separates now line st :
  content_line line ->
  reasoningStarted st = true ->
  reasoningEnded st = false ->
  exists j,
    output_of (PartD.process_line now line st) = [Separator j; Forward line]
    /\ event_content j
       = Some (JStr (separator_text (elapsed_seconds (startThinkingTime st) now))).
Proof.
  intros (data & delta & s & (Hm & Hd & Hp) & Hfd & Hc & Hs) Hst Hen.
  destruct (content_not_reasoning_D _ _ Hc) as (Htd & Hrt & Hct). clear Hc Hs.
  destruct (first_delta_choice _ _ Hfd) as [choice Hfc].
  unfold output_of. keyed st. all: first [lone | separated].
Qed.

Lemma PartC_total now line st :
  completion_of (PartC.process_line now line st) = Normal tt.
Proof. unfold completion_of. unfold_script. break; reflexivity. Qed.
End TimingLines.

Section Timing.
Context {N : JsNumber} {RT : JsRuntime}.
Variable clock : nat -> number.
Variable process_line : number -> string -> script unit.
Variable finish : script unit.
Variable test : json -> bool.

Hypothesis H_effect :
  forall now line st, line_effect line st (process_line now line st).
Hypothesis H_none :
  forall now line st,
    ~ carries_reasoning line ->
    reasoningStarted st = false ->
    forallb plain (output_of (process_line now line st)) = true
    /\ reasoningStarted (state_after (process_line now line st)) = false.
Hypothesis H_reasoning :
  forall now line st,
    reasoning_line test line ->
    reasoningStarted (state_after (process_line now line st)) = true.
Hypothesis H_first :
  forall now line st,
    reasoning_line test line ->
    reasoningStarted st = false ->
    startThinkingTime (state_after (process_line now line st)) = Some now
    /\ reasoningEnded (state_after (process_line now line st)) = reasoningEnded st.
Hypothesis H_more :
  forall now line st,
    reasoning_line test line ->
    reasoningStarted st = true ->
    startThinkingTime (state_after (process_line now line st)) = startThinkingTime st
    /\ reasoningEnded (state_after (process_line now line st)) = reasoningEnded st.
Hypothesis H_separates :
  forall now line st,
    content_line line ->
    reasoningStarted st = true ->
    reasoningEnded st = false ->
    exists j,
      output_of (process_line now line st) = [Separator j; Forward line]
      /\ event_content j
         = Some (JStr (separator_text (elapsed_seconds (startThinkingTime st) now))).

Lemma loop_thinking lines :
  forall n st out st',
    for_lines clock process_line n lines st = (out, st', Normal tt) ->
    Forall (reasoning_line test) lines ->
    reasoningStarted st = true ->
    reasoningStarted st' = true
    /\ reasoningEnded st' = reasoningEnded st
    /\ startThinkingTime st' = startThinkingTime st.
Proof.
  induction lines as [|line rest IH]; intros n st out st' H Hall Hs.
  - cbn in H. inversion H; subst. now repeat split.
  - inversion Hall as [|? ? Hline Hrest]; subst.
    apply for_lines_cons in H.
    destruct H as [(o1 & s1 & o2 & H1 & H2 & ->) | [_ H]]; [|discriminate].
    pose proof (H_reasoning (clock n) line st Hline) as Hs1.
    destruct (H_more (clock n) line st Hline Hs) as [Ht1 He1].
    unfold state_after in Hs1, Ht1, He1. rewrite H1 in Hs1, Ht1, He1.
    cbn [fst snd] in Hs1, Ht1, He1.
    destruct (IH _ _ _ _ H2 Hrest Hs1) as (Hs2 & He2 & Ht2).
    repeat split; congruence.
Qed.

Lemma separator_time init l1 r l2 c l3 out st' :
  reasoningStarted init = false ->
  reasoningEnded init = false ->
  for_lines clock process_line 0 (l1 ++ r :: l2 ++ c :: l3) init
  = (out, st', Normal tt) ->
  Forall (fun line => ~ carries_reasoning line) l1 ->
  reasoning_line test r ->
  Forall (reasoning_line test) l2 ->
  content_line c ->
  exists o j post,
    out = o ++ Separator j :: Forward c :: post
    /\ event_content j
       = Some (JStr (separator_text
                       (elapsed_seconds
                          (Some (clock (List.length l1)))
                          (clock (List.length l1 + S (List.length l2)))))).
Proof.
  intros Hs0 He0 Hloop Hl1 Hr Hl2 Hc.
  assert (Hnone : forall now line st o st1 r1,
             process_line now line st = (o, st1, r1) ->
             ~ carries_reasoning line -> reasoningStarted st = false ->
             forallb plain o = true /\ reasoningStarted st1 = false).
  { intros now line st o st1 r1 H Hl Hs.
    pose proof (H_none now line st Hl Hs) as Hf.
    unfold state_after, output_of in Hf. now rewrite H in Hf. }
  destruct (for_lines_split clock process_line _ _ _ _ _ _ Hloop)
    as (oa & sa & ob & Ha & Hb & ->).
  destruct (loop_without_reasoning clock process_line Hnone _ _ _ _ _ _ Ha Hl1 Hs0)
    as [_ Hsa].
  assert (Hok0 : flags_ok init) by (intros _; exact He0).
  assert (Hsc0 : scan NotStarted [] = Some (phase_of init)).
  { cbn. f_equal. symmetry. now apply phase_of_flags. }
  destruct (loop_invariant clock process_line H_effect _ _ _ _ _ _ _ Hok0 Hsc0 Ha)
    as [Hoka _].
  pose proof (Hoka Hsa) as Hea.
  cbn [Nat.add] in Hb.
  apply for_lines_cons in Hb.
  destruct Hb as [(o1 & s1 & ob' & H1 & H2 & ->) | [_ Hb]]; [|discriminate].
  pose proof (H_reasoning (clock (List.length l1)) r sa Hr) as Hs1.
  destruct (H_first (clock (List.length l1)) r sa Hr Hsa) as [Ht1 He1].
  unfold state_after in Hs1, Ht1, He1. rewrite H1 in Hs1, Ht1, He1.
  cbn [fst snd] in Hs1, Ht1, He1.
  destruct (for_lines_split clock process_line _ _ _ _ _ _ H2)
    as (o2 & s2 & oc & Hc2 & Hd & ->).
  destruct (loop_thinking _ _ _ _ _ Hc2 Hl2 Hs1) as (Hs2 & He2 & Ht2).
  apply for_lines_cons in Hd.
  destruct Hd as [(o3 & s3 & o4 & H3 & H4 & ->) | [_ Hd]]; [|discriminate].
  destruct (H_separates (clock (S (List.length l1) + List.length l2)) c s2 Hc Hs2)
    as (j & Hout & Hj); [congruence|].
  unfold output_of in Hout. rewrite H3 in Hout. cbn [fst snd] in Hout. subst o3.
  exists (oa ++ o1 ++ o2), j, o4. split.
  - rewrite <- !app_assoc. reflexivity.
  - rewrite Hj, Ht2, Ht1.
    replace (S (List.length l1) + List.length l2)
      with (List.length l1 + S (List.length l2)) by lia.
    reflexivity.
Qed.

Lemma run_separator_time init l1 r l2 c l3 :
  reasoningStarted init = false ->
  reasoningEnded init = false ->
  completion_of (for_lines clock process_line 0 (l1 ++ r :: l2 ++ c :: l3) init)
  = Normal tt ->
  Forall (fun line => ~ carries_reasoning line) l1 ->
  reasoning_line test r ->
  Forall (reasoning_line test) l2 ->
  content_line c ->
  exists o j post,
    fst (run_lines clock process_line finish init (l1 ++ r :: l2 ++ c :: l3))
    = o ++ Separator j :: Forward c :: post
    /\ event_content j
       = Some (JStr (separator_text
                       (elapsed_seconds
                          (Some (clock (List.length l1)))
                          (clock (List.length l1 + S (List.length l2)))))).
Proof.
  intros Hs0 He0 Hn Hl1 Hr Hl2 Hc. unfold run_lines, bind.
  unfold completion_of in Hn.
  destruct (for_lines clock process_line 0 (l1 ++ r :: l2 ++ c :: l3) init)
    as [[out st'] r1] eqn:E.
  cbn [snd] in Hn. subst r1.
  destruct (separator_time _ _ _ _ _ _ _ _ Hs0 He0 E Hl1 Hr Hl2 Hc)
    as (o & j & post & -> & Hj).
  destruct (finish st') as [[o2 s2] [[]|]]; cbn [fst];
    exists o, j, (post ++ o2); (split; [|exact Hj]);
    rewrite <- app_assoc; reflexivity.
Qed.

End Timing.

Section TimingClaim.
Context {N : JsNumber} {RT : JsRuntime}.
Variable clock : nat -> number.

(** X13.  The seconds the separator shows are measured between two lines.
    For a stream made of lines without a reasoning field, a first reasoning
    event with a [null] content, further such events, and then an event with
    a non-empty content: the separator stands directly before the forwarding
    of that event, and its content is the separator text for the time
    elapsed between the clock reading at the first reasoning event and the
    one at that event.  This holds in the second script of [reason.js] when
    the stream is closed normally, and in both scripts of [part_000]. *)
Theorem thinking_time_measured (chunks : list string)
    (l1 l2 l3 : list string) (r c : string) :
  complete_lines (text_of chunks) = l1 ++ r :: l2 ++ c :: l3 ->
  Forall (fun line => ~ carries_reasoning line) l1 ->
  reasoning_line ReasonB.reasoning_test r ->
  Forall (reasoning_line ReasonB.reasoning_test) l2 ->
  content_line c ->
  let seconds :=
    elapsed_seconds (Some (clock (List.length l1)))
                    (clock (List.length l1 + S (List.length l2))) in
  let measured (out : list emit) :=
    exists o j post,
      out = o ++ Separator j :: Forward c :: post
      /\ event_content j = Some (JStr (separator_text seconds)) in
  (snd (ReasonB.processStreamingResponse clock chunks) = Closed ->
   measured (fst (ReasonB.processStreamingResponse clock chunks)))
  /\ measured (fst (PartC.processStreamingResponse clock chunks))
  /\ measured (fst (PartD.processStreamingResponse clock chunks)).
Proof.
  intros Hlines Hl1 Hr Hl2 Hc seconds measured. unfold measured, seconds.
  rewrite ReasonB_by_lines, PartC_by_lines, PartD_by_lines, Hlines.
  split; [|split].
  - intros Hclosed.
    apply (run_separator_time clock ReasonB.process_line ReasonB.finish
             ReasonB.reasoning_test ReasonB_effect ReasonB_none ReasonB_reasoning
             ReasonB_first ReasonB_more ReasonB_separates ReasonB.initial
             l1 r l2 c l3 eq_refl eq_refl); try assumption.
    unfold run_lines, bind, completion_of in *.
    destruct (for_lines clock ReasonB.process_line 0 (l1 ++ r :: l2 ++ c :: l3)
                ReasonB.initial) as [[o1 s1] [[]|]]; [reflexivity | discriminate].
  - apply (run_separator_time clock PartC.process_line PartC.finish
             PartC.reasoning_test PartC_effect PartC_none PartC_reasoning
             PartC_first PartC_more PartC_separates PartC.initial
             l1 r l2 c l3 eq_refl eq_refl); try assumption.
    + apply (loop_total clock PartC.process_line PartC_total).
    + now apply reasoning_line_weaker.
    + eapply Forall_impl; [|exact Hl2]. apply reasoning_line_weaker.
  - apply (run_separator_time clock PartD.process_line PartD.finish
             PartD.reasoning_test PartD_effect PartD_none PartD_reasoning
             PartD_first PartD_more PartD_separates PartD.initial
             l1 r l2 c l3 eq_refl eq_refl); try assumption.
    apply (loop_total clock PartD.process_line PartD_total).
Qed.

End TimingClaim.

(** ** The replaced [fetch] *)

Ltac unfold_fetch :=
  cbv beta iota zeta delta
    [window_fetch attempt pass call_original streaming await checked
     fbind fret].

Section FetchFacts.
Context {N : JsNumber} {RT : JsRuntime} {CO : JsCoercion}.
Variable originalFetch : nat -> settled Arrival.
Variable stream : list string -> list emit * outcome.
Variable batch : Response -> Response.

(** X1.  Whenever one of the checks of the replaced [fetch] fails or throws
    (the target is not a string holding the endpoint, there is no body, the
    body is not JSON, the model names neither deepseek nor reasoning, the
    request asks for a title, or one of the helper functions raises a
    [TypeError]), the original [fetch] is called exactly once and its promise
    is handed back untouched. *)
Theorem fetch_passes_unless_wanted (req : Request) :
  wants_rewrite req = false ->
  window_fetch originalFetch stream batch req = (Untouched (originalFetch 0), 1).
Proof.
  unfold wants_rewrite. unfold_fetch.
  destruct (isDeepseekURL (url req)) as [[]|]; try reflexivity.
  destruct (requestBody req) as [text|]; try reflexivity.
  destruct (String.eqb text "") eqn:E; try reflexivity.
  destruct (JSON_parse text) as [b|]; try reflexivity.
  cbn [negb andb].
  destruct (isDeepseekModel b) as [[]|]; try reflexivity.
  destruct (isTitleRequest b) as [[]|]; try reflexivity.
  discriminate.
Qed.

Lemma wanted_attempt (req : Request) :
  wants_rewrite req = true ->
  attempt originalFetch stream batch req 0
  = match originalFetch 0 with
    | Resolved a =>
        (1, Normal (if is_event_stream (reply a) then streaming stream a
                    else Replied (batch (reply a))))
    | Rejected => (1, Thrown)
    end.
Proof.
  unfold wants_rewrite. unfold_fetch.
  destruct (isDeepseekURL (url req)) as [[]|]; try discriminate.
  destruct (requestBody req) as [text|]; try discriminate.
  destruct (JSON_parse text) as [b|]; [|destruct (String.eqb text ""); discriminate].
  destruct (String.eqb text "") eqn:E; try discriminate.
  cbn [negb andb].
  destruct (isDeepseekModel b) as [[]|]; try discriminate.
  destruct (isTitleRequest b) as [[]|]; try discriminate.
  intros _. cbn [negb].
  destruct (originalFetch 0) as [a|]; [|reflexivity].
  now destruct (is_event_stream (reply a)).
Qed.


(** X3.  When all the checks pass and the original [fetch] rejects, the
    [catch] of the replaced [fetch] issues the request a second time: the
    original [fetch] is called twice, and the caller gets the promise of the
    second call, untouched. *)
Theorem fetch_retries_after_rejection (req : Request) :
  wants_rewrite req = true ->
  originalFetch 0 = Rejected ->
  window_fetch originalFetch stream batch req = (Untouched (originalFetch 1), 2).
Proof.
  intros Hw Ha. unfold window_fetch. rewrite (wanted_attempt req Hw), Ha.
  reflexivity.
Qed.

End FetchFacts.

Section CheckFacts.
Context {N : JsNumber} {RT : JsRuntime} {CO : JsCoercion}.

Lemma last_snoc {A} (l : list A) (x d : A) : last (l ++ [x]) d = x.
Proof.
  induction l as [|y l IH]; [reflexivity|].
  cbn [app last]. destruct (l ++ [x]) eqn:E; [now destruct l|]. exact IH.
Qed.

Lemma snoc_cases {A} (l : list A) : l = [] \/ exists earlier x, l = earlier ++ [x].
Proof.
  destruct l as [|y l]; [now left|]. right.
  exists (removelast (y :: l)), (last (y :: l) y).
  apply app_removelast_last. discriminate.
Qed.

Lemma prop_object (k : string) (v x : json) :
  prop k v = Some x -> exists l, v = JObj l.
Proof. destruct v; try discriminate. intros _. now eexists. Qed.

(** What [isTitleRequest] does on a list of messages that is not empty. *)
Lemma title_request_list (body : json) (earlier : list json) (m : json) :
  prop "messages" body = Some (JArr (earlier ++ [m])) ->
  isTitleRequest body
  = match m with
    | JNull => Thrown
    | _ => match prop "content" m with
           | Some (JStr s) =>
               Normal (negb (String.eqb s EmptyString) && startsWith s TITLE_PROMPT)
           | Some c => if truthy c then Thrown else Normal false
           | None => Normal false
           end
    end.
Proof.
  intros H. destruct (prop_object _ _ _ H) as [l ->].
  unfold isTitleRequest. rewrite H.
  cbn [truthy negb orb messages_empty last_message].
  rewrite length_app, Nat.add_comm. cbn [List.length Nat.add Nat.eqb].
  destruct (earlier ++ [m]) eqn:E; [now destruct earlier|]. rewrite <- E.
  rewrite last_snoc. reflexivity.
Qed.

(** X5.  On a body whose [messages] is an array, [isTitleRequest] answers
    [true] exactly when the array is not empty and the content of its last
    message is a string that starts with the title prompt; earlier messages
    play no part, and an empty array gives [false]. *)
Theorem title_request_last_message (body : json) (msgs : list json) :
  prop "messages" body = Some (JArr msgs) ->
  (isTitleRequest body = Normal true
   <-> exists earlier m s,
         msgs = earlier ++ [m]
         /\ prop "content" m = Some (JStr s)
         /\ startsWith s TITLE_PROMPT = true).
Proof.
  intros H. destruct (snoc_cases msgs) as [-> | (earlier & m & ->)].
  - destruct (prop_object _ _ _ H) as [l ->].
    unfold isTitleRequest. rewrite H. cbn. split; [discriminate|].
    intros (earlier & m & s & He & _). now destruct earlier.
  - rewrite (title_request_list _ _ _ H). split.
    + intros Ht. exists earlier, m.
      destruct m; try discriminate; cbn [prop] in *.
      destruct (assoc "content" props) as [[]|]; cbn [truthy] in Ht;
        try discriminate;
        try match type of Ht with
            | (if ?b then _ else _) = _ => destruct b; discriminate
            end.
      exists s. repeat split. injection Ht as Ht.
      apply andb_prop in Ht. tauto.
    + intros (earlier' & m' & s & He & Hc & Hs).
      apply app_inj_tail in He. destruct He as [_ <-].
      rewrite Hc. destruct m; try discriminate.
      destruct s; [discriminate|]. cbn [String.eqb negb andb]. now rewrite Hs.
Qed.

Lemma title_request_parts (body : json) (earlier : list json) (m c : json) :
  prop "messages" body = Some (JArr (earlier ++ [m])) ->
  prop "content" m = Some c ->
  truthy c = true ->
  (forall s, c <> JStr s) ->
  isTitleRequest body = Thrown.
Proof.
  intros H Hc Ht Hs. rewrite (title_request_list _ _ _ H), Hc.
  destruct m; try discriminate.
  destruct c; rewrite ?Ht; try reflexivity. now destruct (Hs s).
Qed.

End CheckFacts.

Section FetchChecks.
Context {N : JsNumber} {RT : JsRuntime} {CO : JsCoercion}.
Variable originalFetch : nat -> settled Arrival.
Variable stream : list string -> list emit * outcome.
Variable batch : Response -> Response.

(** X6.  A request whose last message carries a truthy content that is not
    a string (a list of parts, say) is never rewritten: [startsWith] is not
    defined on it, the [TypeError] is caught, and the original [fetch] is
    called once and handed back, whatever the target and the model. *)
Theorem content_parts_fall_back (req : Request) (text : string)
    (parsedBody : json) (earlier : list json) (m c : json) :
  requestBody req = Some text ->
  JSON_parse text = Some parsedBody ->
  prop "messages" parsedBody = Some (JArr (earlier ++ [m])) ->
  prop "content" m = Some c ->
  truthy c = true ->
  (forall s, c <> JStr s) ->
  window_fetch originalFetch stream batch req = (Untouched (originalFetch 0), 1).
Proof.
  intros Hb Hp Hm Hc Ht Hs.
  pose proof (title_request_parts _ _ _ _ Hm Hc Ht Hs) as Hthrown.
  unfold_fetch. rewrite Hb, Hp, Hthrown.
  destruct (isDeepseekURL (url req)) as [[]|]; try reflexivity.
  destruct (String.eqb text ""); try reflexivity.
  destruct (isDeepseekModel parsedBody) as [[]|]; reflexivity.
Qed.

(** X4.  The replaced [fetch] hands back something else than the promise of
    the original one only for a request whose target is a string holding the
    endpoint, whose body is JSON with a model (a string or an array) that
    includes [deepseek] or [reasoning], and that is not a title request; the
    original [fetch] was then called once. *)
Theorem rewritten_only_for_deepseek (req : Request) (d : delivered) (n : nat) :
  window_fetch originalFetch stream batch req = (d, n) ->
  (forall p, d <> Untouched p) ->
  exists s text parsedBody model,
    url req = UrlText s
    /\ includes s DEEPSEEK_API_URL = true
    /\ requestBody req = Some text
    /\ JSON_parse text = Some parsedBody
    /\ prop "model" parsedBody = Some model
    /\ (includes_method model "deepseek" = Normal true
        \/ includes_method model "reasoning" = Normal true)
    /\ isTitleRequest parsedBody = Normal false
    /\ n = 1.
Proof.
  unfold_fetch. intros H Hd.
  assert (Hno : forall p k, (d, n) <> (Untouched p, k)).
  { intros p k E. injection E as E _. exact (Hd p E). }
  destruct (url req) as [s| |] eqn:Hu; cbn [isDeepseekURL] in H;
    try (symmetry in H; now destruct (Hno _ _ H)).
  destruct (negb (String.eqb s "") && includes s DEEPSEEK_API_URL) eqn:Hi;
    cbn [negb] in H; [|symmetry in H; now destruct (Hno _ _ H)].
  apply andb_prop in Hi. destruct Hi as [_ Hi].
  destruct (requestBody req) as [text|] eqn:Hb;
    [|symmetry in H; now destruct (Hno _ _ H)].
  destruct (String.eqb text "");
    [symmetry in H; now destruct (Hno _ _ H)|].
  destruct (JSON_parse text) as [b|] eqn:Hp;
    [|symmetry in H; now destruct (Hno _ _ H)].
  destruct (isDeepseekModel b) as [[]|] eqn:Hm; cbn [negb] in H;
    try (symmetry in H; now destruct (Hno _ _ H)).
  destruct (isTitleRequest b) as [[]|] eqn:Ht;
    try (symmetry in H; now destruct (Hno _ _ H)).
  destruct (originalFetch 0) as [a|];
    [|symmetry in H; now destruct (Hno _ _ H)].
  assert (Hn : n = 1).
  { destruct (is_event_stream (reply a)); now injection H as _ <-. }
  unfold isDeepseekModel in Hm.
  destruct (prop "model" b) as [model|] eqn:Hpm;
    [|destruct b; discriminate].
  exists s, text, b, model. repeat split; trivial.
  destruct b; try discriminate.
  destruct (truthy model); [|discriminate].
  destruct (includes_method model "deepseek") as [[]|]; try discriminate; auto.
Qed.

End FetchChecks.

(** ** The replaced [fetch] on answers without reasoning *)

Section FetchTransparent.
Context {N : JsNumber} {RT : JsRuntime} {CO : JsCoercion}.
Variable originalFetch : nat -> settled Arrival.
Variable clock : nat -> number.

(** X7.  The replaced [fetch] of the second script of [reason.js] is
    transparent on answers without reasoning.  For a request that passes the
    checks: an event stream none of whose events carries a reasoning field or
    truthy citations, in a response whose status [new Response] takes, is
    delivered closed, with the envelope of the original response; its events
    are the complete lines of the decoded text,
    forwarded; its bytes are that text up to its last line feed, which is
    the input up to its last line feed whenever the decoder changed nothing.
    A single document whose first message has no truthy reasoning is
    delivered as the original response. *)
Theorem fetch_transparent (req : Request) (a : Arrival) :
  wants_rewrite req = true ->
  originalFetch 0 = Resolved a ->
  let fetched :=
    window_fetch originalFetch (ReasonB.processStreamingResponse clock)
      ReasonB.processNonStreamingResponse req in
  (forall chunks,
      is_event_stream (reply a) = true ->
      takes_body (status (reply a)) = true ->
      reader a = Some chunks ->
      Forall (fun line => ~ carries_reasoning line) (complete_lines (text_of chunks)) ->
      Forall (fun line => ~ captures line) (complete_lines (text_of chunks)) ->
      exists out,
        fetched = (Streamed (reply a) (out, Closed), 1)
        /\ out = map Forward (complete_lines (text_of chunks))
        /\ (encode_all out ++ partial_line (text_of chunks))%string = text_of chunks
        /\ (text_of chunks = bytes_of chunks ->
            (encode_all out ++ partial_line (bytes_of chunks))%string
            = bytes_of chunks))
  /\ (forall data,
        is_event_stream (reply a) = false ->
        JSON_parse (body (reply a)) = Some data ->
        truthy_val (opt_prop "reasoning" (opt_prop "message" (first_choice data)))
        = false ->
        fetched = (Replied (reply a), 1)).
Proof.
  intros Hw Ha fetched. unfold fetched, window_fetch.
  rewrite (wanted_attempt originalFetch _ _ req Hw), Ha. split.
  - intros chunks He _ Hr Hnr Hnc. rewrite He. unfold streaming. rewrite Hr.
    exists (map Forward (complete_lines (text_of chunks))).
    assert (Hb : (encode_all (map Forward (complete_lines (text_of chunks)))
                    ++ partial_line (text_of chunks))%string = text_of chunks)
      by (rewrite encode_forwarded; apply text_of_lines).
    split; [|split; [reflexivity|split; [exact Hb|]]].
    + rewrite ReasonB_by_lines.
      now rewrite (proj1 (ReasonB_passes clock _ Hnr) Hnc).
    + intros Hid. now rewrite <- Hid.
  - intros data He Hp Hno. rewrite He.
    unfold ReasonB.processNonStreamingResponse.
    now rewrite (process_document_untouched _ _ _ data Hp Hno).
Qed.

End FetchTransparent.

(** ** Streams that are closed normally *)

Section Closing.
Context {N : JsNumber} {RT : JsRuntime}.
Variable clock : nat -> number.
Variable process_line : number -> string -> script unit.
Variable finish : script unit.

Hypothesis H_line :
  forall now line st,
    listed_citations line ->
    listed (citations st) ->
    completion_of (process_line now line st) = Normal tt
    /\ listed (citations (state_after (process_line now line st))).
Hypothesis H_finish :
  forall st, listed (citations st) -> completion_of (finish st) = Normal tt.

Lemma loop_closes lines :
  forall n st,
    Forall listed_citations lines ->
    listed (citations st) ->
    completion_of (for_lines clock process_line n lines st) = Normal tt
    /\ listed (citations (state_after (for_lines clock process_line n lines st))).
Proof.
  induction lines as [|line rest IH]; intros n st Hall Hst; [now split|].
  inversion Hall as [|? ? Hline Hrest]; subst.
  destruct (H_line (clock n) line st Hline Hst) as [Hc Hl].
  cbn [for_lines]. unfold bind, completion_of, state_after in *.
  destruct (process_line (clock n) line st) as [[o1 s1] r1]. cbn [fst snd] in Hc, Hl.
  subst r1. specialize (IH (S n) s1 Hrest Hl).
  destruct (for_lines clock process_line (S n) rest s1) as [[o2 s2] r2].
  exact IH.
Qed.

Lemma run_closes init lines :
  listed (citations init) ->
  Forall listed_citations lines ->
  snd (run_lines clock process_line finish init lines) = Closed.
Proof.
  intros Hi Hall. destruct (loop_closes lines 0 init Hall Hi) as [Hc Hl].
  unfold run_lines, bind, completion_of, state_after in *.
  destruct (for_lines clock process_line 0 lines init) as [[o1 s1] r1].
  cbn [fst snd] in Hc, Hl. subst r1.
  pose proof (H_finish s1 Hl) as Hf. unfold completion_of in Hf.
  destruct (finish s1) as [[o2 s2] r2]. cbn [snd] in Hf. now subst r2.
Qed.

End Closing.

Section ClosingFacts.
Context {N : JsNumber} {RT : JsRuntime}.

Lemma captured_listed line st :
  listed_citations line -> listed (citations st) -> listed (captured line st).
Proof.
  intros Hl Hst. unfold captured.
  destruct (startsWith line DATA_MARKER) eqn:Hm; [|exact Hst].
  destruct (includes line DONE_TOKEN) eqn:Hd; [exact Hst|].
  destruct (JSON_parse (slice 6 line)) as [data|] eqn:Hp; [|exact Hst].
  destruct (prop "citations" data) as [v|] eqn:Hc; [|exact Hst].
  destruct (truthy v && negb (truthy (citations st))) eqn:Ht; [|exact Hst].
  apply andb_prop in Ht. destruct Ht as [Ht _].
  right. apply (Hl data v); [repeat split|..]; assumption.
Qed.

Lemma send_citations_listed clear st :
  listed (citations st) ->
  completion_of (send_citations clear st) = Normal tt
  /\ listed (citations (state_after (send_citations clear st))).
Proof.
  intros [Hf | (items & texts & Hi & Hr)].
  - rewrite (send_citations_idle clear st Hf). split; [reflexivity | now left].
  - rewrite (send_citations_pending clear st items texts Hi Hr).
    split; [reflexivity|].
    unfold state_after. cbn [fst snd]. destruct clear.
    + now left.
    + right. now exists items, texts.
Qed.

Lemma ReasonA_closes now line st :
  listed_citations line ->
  listed (citations st) ->
  completion_of (ReasonA.process_line now line st) = Normal tt
  /\ listed (citations (state_after (ReasonA.process_line now line st))).
Proof.
  intros Hl Hst. destruct (is_sentinel line) eqn:Hs.
  - destruct (send_citations_listed true st Hst) as [Hc Hk].
    unfold is_sentinel in Hs. apply andb_prop in Hs. destruct Hs as [Hm Hd].
    unfold ReasonA.process_line. rewrite Hm, Hd.
    unfold bind, enqueue, completion_of, state_after in *.
    destruct (send_citations true st) as [[o s] r]. cbn [fst snd] in *. subst r.
    now split.
  - rewrite (ReasonA_line now line st Hs). split; [reflexivity|].
    unfold state_after. cbn [fst snd]. now apply captured_listed.
Qed.

Lemma ReasonB_closes now line st :
  listed_citations line ->
  listed (citations st) ->
  completion_of (ReasonB.process_line now line st) = Normal tt
  /\ listed (citations (state_after (ReasonB.process_line now line st))).
Proof.
  intros Hl Hst. destruct (is_sentinel line) eqn:Hs.
  - destruct (send_citations_listed true st Hst) as [Hc Hk].
    rewrite (ReasonB_sentinel now line st Hs).
    unfold completion_of, state_after in *.
    destruct (send_citations true st) as [[o s] r]. cbn [fst snd] in *. subst r.
    now split.
  - destruct (ReasonB_line now line st Hs) as (Hc & _ & Hk).
    split; [exact Hc|]. rewrite Hk. now apply captured_listed.
Qed.

Lemma PartC_closes now line st :
  listed_citations line ->
  listed (citations st) ->
  completion_of (PartC.process_line now line st) = Normal tt
  /\ listed (citations (state_after (PartC.process_line now line st))).
Proof.
  intros Hl Hst. destruct (PartC_line now line st) as (Hc & _ & Hk & _).
  split; [exact Hc|]. rewrite Hk. now apply captured_listed.
Qed.

Lemma PartD_step now line st :
  citations (state_after (PartD.process_line now line st)) = citations st
  \/ exists data,
       data_event line data
       /\ prop "citations" data
          = Some (citations (state_after (PartD.process_line now line st)))
       /\ truthy (citations (state_after (PartD.process_line now line st))) = true.
Proof.
  unfold state_after, data_event.
  unfold_script. break; cbn [fst snd]; try (now left).
  all: right; eexists; repeat split; try eassumption.
  all: cbn [citations set_citations set_citationsReceived set_startThinkingTime
            set_reasoningStarted set_reasoningEnded];
       try eassumption;
       match goal with
       | H : truthy ?v && _ = true |- truthy ?v = true =>
           apply andb_prop in H; apply H
       end.
Qed.

Lemma PartD_closes now line st :
  listed_citations line ->
  listed (citations st) ->
  completion_of (PartD.process_line now line st) = Normal tt
  /\ listed (citations (state_after (PartD.process_line now line st))).
Proof.
  intros Hl Hst. split; [apply PartD_total|].
  destruct (PartD_step now line st) as [-> | (data & Hd & Hc & Ht)]; [exact Hst|].
  right. exact (Hl data _ Hd Hc Ht).
Qed.

Lemma PartC_finish_closes st :
  listed (citations st) -> completion_of (PartC.finish st) = Normal tt.
Proof.
  intros [Hf | (items & texts & Hi & Hr)]; unfold completion_of; unfold_script.
  - now rewrite Hf.
  - rewrite Hi. cbn [truthy length_positive array_items andb].
    rewrite (numbered_rendered TIGHT items texts Hr). now destruct items.
Qed.

Lemma PartD_finish_closes st :
  listed (citations st) -> completion_of (PartD.finish st) = Normal tt.
Proof.
  intros [Hf | (items & texts & Hi & Hr)]; unfold completion_of; unfold_script.
  - assert (Hl : length_positive (citations st) = false).
    { destruct (citations st); cbn in *; try reflexivity; try discriminate.
      exact Hf. }
    now rewrite Hl.
  - rewrite Hi. cbn [length_positive array_items].
    rewrite (numbered_rendered TIGHT items texts Hr). now destruct items.
Qed.

End ClosingFacts.

Section ClosingClaim.
Context {N : JsNumber} {RT : JsRuntime}.
Variable clock : nat -> number.

(** X18.  A stream is closed normally, in each of the four scripts, whenever
    the truthy citations its events carry are arrays of values that convert
    to text (strings, numbers, objects that own no [toString] key): lines
    that are not JSON, events of any shape and reasoning of any type never
    put it in the error state. *)
Theorem stream_closes_on_listed_citations (chunks : list string) :
  Forall listed_citations (complete_lines (text_of chunks)) ->
  snd (ReasonA.processStreamingResponse clock chunks) = Closed
  /\ snd (ReasonB.processStreamingResponse clock chunks) = Closed
  /\ snd (PartC.processStreamingResponse clock chunks) = Closed
  /\ snd (PartD.processStreamingResponse clock chunks) = Closed.
Proof.
  intros Hall.
  rewrite ReasonA_by_lines, ReasonB_by_lines, PartC_by_lines, PartD_by_lines.
  repeat split.
  - apply (run_closes clock ReasonA.process_line ReasonA.finish ReasonA_closes);
      [|now left | exact Hall].
    intros st Hst. apply (send_citations_listed false st Hst).
  - apply (run_closes clock ReasonB.process_line ReasonB.finish ReasonB_closes);
      [|now left | exact Hall].
    intros st Hst. apply (send_citations_listed false st Hst).
  - apply (run_closes clock PartC.process_line PartC.finish PartC_closes
             PartC_finish_closes); [now left | exact Hall].
  - apply (run_closes clock PartD.process_line PartD.finish PartD_closes
             PartD_finish_closes); [|exact Hall].
    right. now exists [], [].
Qed.

End ClosingClaim.

(** ** Reasoning once the header is out *)

Section Continues.
Context {N : JsNumber} {RT : JsRuntime}.

(** X19.  A reasoning event that arrives once the header is out, be it
    before or after the separator, yields one fragment and nothing else: no
    second header, no separator, the line itself is not forwarded, and the
    flags and the recorded start time stay as they were.  The fragment is
    the event with the quoted reasoning as its only delta field in the
    second script of [reason.js] and of [part_000], the bare event in the
    first script of [part_000]. *)
Theorem reasoning_continues (now : number) (line : string)
    (data choice delta : json) (s : string) (st : session) :
  data_event line data ->
  first_choice data = Some choice ->
  prop "delta" choice = Some delta ->
  prop "reasoning" delta = Some (JStr s) ->
  s <> EmptyString ->
  prop "content" delta = Some JNull ->
  reasoningStarted st = true ->
  let kept (st' : session) :=
    reasoningStarted st' = true
    /\ reasoningEnded st' = reasoningEnded st
    /\ startThinkingTime st' = startThinkingTime st in
  (exists st',
     ReasonB.process_line now line st
     = ([Fragment (spread_event data choice (quote_breaks s))], st', Normal tt)
     /\ kept st')
  /\ (exists st',
        PartC.process_line now line st
        = ([Fragment (bare_event (quote_breaks s))], st', Normal tt)
        /\ kept st')
  /\ (exists st',
        PartD.process_line now line st
        = ([Fragment (spread_event data choice (quote_breaks s))], st', Normal tt)
        /\ kept st').
Proof.
  intros (Hm & Hd & Hp) Hfc Hdl Hr Hs Hc Hst kept. unfold kept.
  assert (Hfd : first_delta data = Some delta).
  { unfold first_delta. rewrite Hfc. cbn [opt_prop].
    destruct choice; try discriminate. exact Hdl. }
  assert (Htd : truthy delta = true) by (destruct delta; try discriminate; reflexivity).
  assert (Hts : truthy (JStr s) = true) by (now apply truthy_nonempty).
  assert (HtB : ReasonB.reasoning_test delta = true).
  { unfold ReasonB.reasoning_test. rewrite Hr, Hc.
    change (truthy (JStr s) && true = true). now rewrite Hts. }
  assert (HtC : PartC.reasoning_test delta = true).
  { unfold PartC.reasoning_test. rewrite Hr, Hc.
    change (truthy (JStr s) && true = true). now rewrite Hts. }
  assert (HtD : PartD.reasoning_test delta = true) by exact HtB.
  destruct data as [| | | | |props]; try discriminate.
  split; [|split].
  - keyed st.
    all: eexists; (split; [reflexivity|]);
      cbn [reasoningStarted reasoningEnded startThinkingTime set_citations];
      auto.
  - keyed st.
    all: eexists; (split; [reflexivity|]);
      cbn [reasoningStarted reasoningEnded startThinkingTime set_citations];
      auto.
  - keyed st. all: try lone.
    all: eexists; (split; [reflexivity|]);
      cbn [reasoningStarted reasoningEnded startThinkingTime set_citations
           set_citationsReceived];
      auto.
Qed.

End Continues.

(** ** An empty list of citations *)

Section EmptyCitations.
Context {N : JsNumber} {RT : JsRuntime}.
Variable clock : nat -> number.

(** X20.  In both scripts of [part_000], when the first truthy citations of
    a stream are the empty list, the stream is closed normally without any
    footer, whatever citations later events carry. *)
Theorem empty_citations_no_footer (chunks : list string)
    (before tail : list string) (cline : string) :
  complete_lines (text_of chunks) = before ++ cline :: tail ->
  Forall (fun line => ~ captures line) before ->
  cites cline [] ->
  (snd (PartC.processStreamingResponse clock chunks) = Closed
   /\ count is_footer (fst (PartC.processStreamingResponse clock chunks)) = 0)
  /\ (snd (PartD.processStreamingResponse clock chunks) = Closed
      /\ count is_footer (fst (PartD.processStreamingResponse clock chunks)) = 0).
Proof.
  intros Hlines Hb (data & Hd & Hc). split.
  - destruct (PartC_settles clock before tail cline data (JArr []) Hb Hd Hc eq_refl)
      as (body & st' & E & Hcs & Hf & _).
    rewrite PartC_by_lines, Hlines. unfold run_lines, bind. rewrite E.
    unfold_script. rewrite Hcs. cbn. rewrite app_nil_r. now split.
  - destruct (PartD_settles clock before tail cline data (JArr []) Hb Hd Hc eq_refl)
      as (body & st' & E & Hcs & Hf & _).
    rewrite PartD_by_lines, Hlines. unfold run_lines, bind. rewrite E.
    unfold_script. rewrite Hcs. cbn. rewrite app_nil_r. now split.
Qed.

End EmptyCitations.

(** ** Worked examples of the claims *)

#[local] Existing Instance Sample.numbers.
#[local] Existing Instance Sample.engine.

(** An empty reasoning string is falsy: the event starts nothing, in either
    revision with markers. *)
Example empty_reasoning_starts_nothing :
  let line := Sample.data_line Sample.reasoning_blank in
  ReasonB.process_line 7 line ReasonB.initial
  = ([Forward line], ReasonB.initial, Normal tt)
  /\ PartC.process_line 7 line PartC.initial
     = ([Forward line], PartC.initial, Normal tt).
Proof. split; reflexivity. Qed.

(** A document without reasoning comes back as it was; so does one whose
    reasoning is a number, on which [split] is not defined. *)
Example documents_left_alone :
  let plain :=
    {| status := 200; statusText := "OK"; headers := [];
       body := Sample.stringify Sample.plain_doc |} in
  let odd :=
    {| status := 200; statusText := "OK"; headers := [];
       body := Sample.stringify Sample.odd_reasoning_doc |} in
  ReasonA.processNonStreamingResponse plain = plain
  /\ PartD.processNonStreamingResponse plain = plain
  /\ ReasonA.processNonStreamingResponse odd = odd.
Proof. repeat split; reflexivity. Qed.

(** C5 at a stream cut inside a character of two bytes, inside the marker
    and inside a line. *)
Lemma chunk_boundary_invariant_witness :
  let note := String ":" (String "195"%char (String "169"%char EmptyString)) in
  let lines := [note; Sample.data_line Sample.reasoning_null;
                Sample.data_line Sample.answer; Sample.sentinel] in
  let text := lines_text lines in
  let chunks := [text] in
  let chunks' := [substring 0 2 text; substring 2 5 text; substring 7 70 text;
                  substring 77 (String.length text - 77) text] in
  bytes_of chunks = bytes_of chunks'
  /\ @ReasonB.processStreamingResponse _ Sample.engine Sample.clock chunks
     = run_lines Sample.clock (@ReasonB.process_line _ Sample.engine)
         ReasonB.finish ReasonB.initial lines
  /\ @ReasonB.processStreamingResponse _ Sample.engine Sample.clock chunks'
     = @ReasonB.processStreamingResponse _ Sample.engine Sample.clock chunks.
Proof.
  intros note lines text chunks chunks'.
  assert (H : bytes_of chunks = bytes_of chunks') by reflexivity.
  split; [exact H|].
  destruct (@chunk_boundary_invariant Sample.numbers Sample.engine Sample.clock
              chunks chunks' H)
    as (_ & (_ & HB & _) & _ & _ & _ & _ & _ & _ & HB' & _).
  split; [exact HB | exact HB'].
Defined.

(** C10 at a stream whose last line has no line feed. *)
Lemma unterminated_line_dropped_witness :
  let text := lines_text [Sample.data_line Sample.answer] in
  let tail := Sample.sentinel in
  text_of [text] = text
  /\ text_of [text; tail] = (text ++ tail)%string
  /\ partial_line text = EmptyString
  /\ split tail = [tail]
  /\ tail <> EmptyString
  /\ @PartC.processStreamingResponse _ Sample.engine Sample.clock [text; tail]
     = @PartC.processStreamingResponse _ Sample.engine Sample.clock [text].
Proof.
  intros text tail.
  assert (H1 : text_of [text] = text) by reflexivity.
  assert (H2 : text_of [text; tail] = (text ++ tail)%string) by reflexivity.
  assert (H3 : partial_line text = EmptyString) by reflexivity.
  assert (H4 : split tail = [tail]) by reflexivity.
  assert (H5 : tail <> EmptyString) by discriminate.
  repeat (split; [assumption|]).
  exact (proj1 (proj2 (proj2 (proj2
           (@unterminated_line_dropped Sample.numbers Sample.engine Sample.clock
              [text] [text; tail] text tail H1 H2 H3 H4 H5))))).
Defined.

(** C6 at a line that is not JSON, cut across two reads, between two
    answers and before the sentinel. *)
Lemma malformed_line_forwarded_witness :
  let answer := Sample.data_line Sample.answer in
  let text := lines_text [answer; Sample.malformed; answer; Sample.sentinel] in
  let cut := String.length answer + 4 in
  let chunks := [substring 0 cut text;
                 substring cut (String.length text - cut) text] in
  complete_lines (text_of chunks)
  = [answer] ++ Sample.malformed :: [answer; Sample.sentinel]
  /\ @malformed_line _ Sample.engine Sample.malformed
  /\ @PartC.processStreamingResponse _ Sample.engine Sample.clock chunks
     = ([Forward answer; Forward Sample.malformed; Forward answer;
         Forward Sample.sentinel], Closed)
  /\ @PartD.processStreamingResponse _ Sample.engine Sample.clock chunks
     = ([Cleaned Sample.answer; Forward Sample.malformed; Cleaned Sample.answer;
         Forward Sample.sentinel], Closed).
Proof.
  intros answer text cut chunks.
  assert (Hl : complete_lines (text_of chunks)
               = [answer] ++ Sample.malformed :: [answer; Sample.sentinel])
    by reflexivity.
  assert (H : @malformed_line _ Sample.engine Sample.malformed)
    by (repeat split; reflexivity).
  split; [exact Hl|]. split; [exact H|].
  destruct (@malformed_line_forwarded Sample.numbers Sample.engine Sample.clock
              chunks [answer] [answer; Sample.sentinel] Sample.malformed Hl H)
    as (_ & _ & (_ & HC) & (_ & HD)).
  split.
  - exact (HC [Forward answer] PartC.initial eq_refl).
  - exact (HD [Cleaned Sample.answer] PartD.initial eq_refl).
Defined.

(** C9 at a body that is not JSON and at a document whose citations are a
    string. *)
Lemma batch_failures_fall_back_witness :
  let response :=
    {| status := 200; statusText := "OK"; headers := []; body := "{oops" |} in
  let odd :=
    {| status := 200; statusText := "OK"; headers := [];
       body := Sample.stringify Sample.odd_citations_doc |} in
  JSON_parse (body response) = None
  /\ ReasonA.processNonStreamingResponse response = response
  /\ PartC.processNonStreamingResponse response = response
  /\ JSON_parse (body odd) = Some Sample.odd_citations_doc
  /\ rewrite_fails Sample.odd_citations_doc (JStr "a")
  /\ ReasonA.processNonStreamingResponse odd = odd.
Proof.
  intros response odd.
  assert (H : JSON_parse (body response) = None) by reflexivity.
  assert (Hf : rewrite_fails Sample.odd_citations_doc (JStr "a")).
  { right. exists (JStr "u"). repeat split. }
  split; [exact H|].
  destruct (proj1 (proj2 (proj2 (batch_failures_fall_back response))) H)
    as (HA & _ & HC & _).
  split; [exact HA|]. split; [exact HC|]. split; [reflexivity|].
  split; [exact Hf|].
  exact (proj1 (proj2 (proj2 (proj2 (batch_failures_fall_back odd)))
                  Sample.odd_citations_doc
                  (JObj [("content", JStr "c"); ("reasoning", JStr "a")])
                  (JStr "a") eq_refl eq_refl eq_refl eq_refl Hf)).
Defined.

(** C1 at a stream of a reasoning event followed by an answer. *)
Lemma markers_bracket_reasoning_witness :
  let r := Sample.data_line Sample.reasoning_null in
  let c := Sample.data_line Sample.answer in
  let chunks := [lines_text [r; c]] in
  let out := fst (@ReasonB.processStreamingResponse _ Sample.engine Sample.clock chunks) in
  complete_lines (text_of chunks) = [] ++ r :: [] ++ c :: []
  /\ @reasoning_line _ Sample.engine ReasonB.reasoning_test r
  /\ @content_line _ Sample.engine c
  /\ count is_header out = 1
  /\ count is_separator out = 1.
Proof.
  intros r c chunks out.
  assert (Hl : complete_lines (text_of chunks) = [] ++ r :: [] ++ c :: [])
    by reflexivity.
  assert (Hr : @reasoning_line _ Sample.engine ReasonB.reasoning_test r).
  { exists Sample.reasoning_null,
           (JObj [("reasoning", JStr "a"); ("content", JNull)]).
    repeat split; reflexivity. }
  assert (Hc : @content_line _ Sample.engine c).
  { exists Sample.answer, (JObj [("content", JStr "hi")]), "hi".
    repeat split; try reflexivity. discriminate. }
  repeat (split; [assumption|]).
  destruct (@markers_bracket_reasoning Sample.numbers Sample.engine Sample.clock chunks)
    as [(_ & _ & _ & _ & Hh & Hs) _].
  split.
  - apply Hh; [reflexivity|]. rewrite Hl. now left.
  - exact (proj1 (Hs eq_refl [] r [] c [] Hl Hr Hc)).
Defined.

(** The claim C1 fails on the second script of [reason.js]: a reasoning
    event whose delta has no content key is forwarded as it came, and so is
    the answer after it; there is neither header nor separator. *)
Lemma unflagged_reasoning_counterexample :
  let r := Sample.data_line Sample.reasoning_bare in
  let c := Sample.data_line Sample.answer in
  @carries_reasoning _ Sample.engine r
  /\ @content_line _ Sample.engine c
  /\ @ReasonB.processStreamingResponse _ Sample.engine Sample.clock
       [lines_text [r; c]]
     = ([Forward r; Forward c], Closed).
Proof.
  intros r c. split; [|split].
  - exists Sample.reasoning_bare, (JObj [("reasoning", JStr "a")]), (JStr "a").
    repeat split; reflexivity.
  - exists Sample.answer, (JObj [("content", JStr "hi")]), "hi".
    repeat split; try reflexivity. discriminate.
  - reflexivity.
Qed.

(** C2 at a reasoning event with a [null] content. *)
Lemma reasoning_starts_witness :
  let line := Sample.data_line Sample.reasoning_null in
  let delta := JObj [("reasoning", JStr "a"); ("content", JNull)] in
  let choice := JObj [("delta", delta)] in
  @data_event _ Sample.engine line Sample.reasoning_null
  /\ exists st',
       @ReasonB.process_line _ Sample.engine 7 line ReasonB.initial
       = ([Header (spread_event Sample.reasoning_null choice THINKING_HEADER);
           Fragment (spread_event Sample.reasoning_null choice (quote_breaks "a"))],
          st', Normal tt)
       /\ startThinkingTime st' = Some 7
       /\ phase_of ReasonB.initial = NotStarted /\ phase_of st' = Active.
Proof.
  intros line delta choice.
  assert (H : @data_event _ Sample.engine line Sample.reasoning_null)
    by (repeat split; reflexivity).
  split; [exact H|].
  refine (proj1 (@reasoning_starts Sample.numbers Sample.engine 7 line
                   Sample.reasoning_null choice delta "a" ReasonB.initial
                   H eq_refl eq_refl eq_refl _ eq_refl eq_refl) eq_refl).
  discriminate.
Defined.

(** The claim C2 fails on the second script of [reason.js] when the content
    key is absent: the line is forwarded as it came, no clock reading is
    recorded and the flags stay unset. *)
Lemma absent_content_counterexample :
  let line := Sample.data_line Sample.reasoning_bare in
  let delta := JObj [("reasoning", JStr "a")] in
  @data_event _ Sample.engine line Sample.reasoning_bare
  /\ first_delta Sample.reasoning_bare = Some delta
  /\ prop "reasoning" delta = Some (JStr "a")
  /\ prop "content" delta = None
  /\ @ReasonB.process_line _ Sample.engine 7 line ReasonB.initial
     = ([Forward line], ReasonB.initial, Normal tt).
Proof. intros line delta. repeat split; reflexivity. Qed.

(** C3 at an answer event that carries citations. *)
Lemma citations_removed_on_plain_path_witness :
  let line := Sample.data_line Sample.cited_answer in
  let props := [("citations", JArr [JStr "w"]);
                ("choices", JArr [JObj [("delta", JObj [("content", JStr "hi")])]])] in
  @data_event _ Sample.engine line (JObj props)
  /\ plain_path PartD.initial (JObj props) = true
  /\ outside_reasoning PartC.reasoning_test (JObj props) = true
  /\ (exists st',
        @PartD.process_line _ Sample.engine 7 line PartD.initial
        = ([Cleaned (JObj [("choices",
                            JArr [JObj [("delta", JObj [("content", JStr "hi")])]])])],
           st', Normal tt))
  /\ (exists pre st',
        @PartC.process_line _ Sample.engine 7 line PartC.initial
        = (pre ++ [Forward line], st', Normal tt)
        /\ citations st' = JArr [JStr "w"]).
Proof.
  intros line props.
  assert (H : @data_event _ Sample.engine line (JObj props))
    by (repeat split; reflexivity).
  assert (Hp : plain_path PartD.initial (JObj props) = true) by reflexivity.
  assert (Ho : outside_reasoning PartC.reasoning_test (JObj props) = true)
    by reflexivity.
  split; [exact H|]. split; [exact Hp|]. split; [exact Ho|].
  destruct (@citations_removed_on_plain_path Sample.numbers Sample.engine
              7 line props (JArr [JStr "w"]) PartD.initial H eq_refl eq_refl)
    as (HD & _).
  destruct (@citations_removed_on_plain_path Sample.numbers Sample.engine
              7 line props (JArr [JStr "w"]) PartC.initial H eq_refl eq_refl)
    as (_ & _ & _ & HC).
  split.
  - destruct (HD Hp) as (st' & Hrun & _). exists st'. exact Hrun.
  - destruct (HC Ho) as (pre & st' & Hrun & _ & Hcit).
    exists pre, st'. split; [exact Hrun | exact Hcit].
Defined.

(** The claim C3 fails on the first script of [reason.js]: the event is
    forwarded as it came, its citations key included. *)
Lemma citations_forwarded_counterexample :
  let line := Sample.data_line Sample.cited_answer in
  @data_event _ Sample.engine line Sample.cited_answer
  /\ prop "citations" Sample.cited_answer = Some (JArr [JStr "w"])
  /\ @ReasonA.process_line _ Sample.engine 7 line ReasonA.initial
     = ([Forward line], set_citations (JArr [JStr "w"]) ReasonA.initial, Normal tt)
  /\ encode (RT := Sample.engine) (Forward line) = (line ++ nl)%string
  /\ includes line "citations" = true.
Proof. intros line. repeat split; reflexivity. Qed.

(** A citation that owns a [toString] key cannot be converted: the stream
    is put in the error state where the footer would be written, and no
    footer is sent; the single document comes back as it was. *)
Example unconvertible_citation :
  let cline := Sample.data_line Sample.stubborn in
  let chunks := [lines_text [cline; Sample.sentinel]] in
  let response :=
    {| status := 200; statusText := "OK"; headers := [];
       body := Sample.stringify Sample.stubborn_doc |} in
  js_to_string (N := Sample.numbers) (JObj [("toString", JNum 1)]) = None
  /\ @ReasonA.processStreamingResponse _ Sample.engine Sample.clock chunks
     = ([Forward cline], Errored)
  /\ @ReasonB.processStreamingResponse _ Sample.engine Sample.clock chunks
     = ([Forward cline], Errored)
  /\ @PartC.processStreamingResponse _ Sample.engine Sample.clock chunks
     = ([Forward cline; Forward Sample.sentinel], Errored)
  /\ snd (@PartD.processStreamingResponse _ Sample.engine Sample.clock chunks)
     = Errored
  /\ count is_footer
       (fst (@PartD.processStreamingResponse _ Sample.engine Sample.clock chunks))
     = 0
  /\ @ReasonA.processNonStreamingResponse _ Sample.engine response = response
  /\ @PartD.processNonStreamingResponse _ Sample.engine response = response.
Proof. repeat split; reflexivity. Qed.

(** A status that [new Response] refuses: the document comes back as it
    was, reasoning unquoted. *)
Example refused_status :
  let response :=
    {| status := 999; statusText := EmptyString; headers := [];
       body := Sample.stringify Sample.reasoned_doc |} in
  takes_body (status response) = false
  /\ @ReasonB.processNonStreamingResponse _ Sample.engine response = response.
Proof. split; reflexivity. Qed.

(** ** Worked examples of the further properties *)

(** X1 at a request for another model. *)
Lemma fetch_passes_unless_wanted_witness :
  let req := SampleRequests.request SampleRequests.other in
  let net := SampleRequests.answers (SampleRequests.streamed SampleRequests.reasoned) in
  @wants_rewrite _ SampleRequests.engine SampleRequests.coercion req = false
  /\ SampleRequests.fetch net req = (Untouched (net 0), 1).
Proof.
  intros req net.
  assert (H : @wants_rewrite _ SampleRequests.engine SampleRequests.coercion req = false)
    by reflexivity.
  split; [exact H|].
  exact (@fetch_passes_unless_wanted _ SampleRequests.engine SampleRequests.coercion
           net SampleRequests.stream SampleRequests.batch req H).
Defined.


(** X3 at a chat request whose first call fails. *)
Lemma fetch_retries_after_rejection_witness :
  let req := SampleRequests.request SampleRequests.chat in
  let a := SampleRequests.streamed SampleRequests.reasoned in
  @wants_rewrite _ SampleRequests.engine SampleRequests.coercion req = true
  /\ SampleRequests.fetch (SampleRequests.fails_once a) req
     = (Untouched (Resolved a), 2).
Proof.
  intros req a.
  assert (H : @wants_rewrite _ SampleRequests.engine SampleRequests.coercion req = true)
    by reflexivity.
  split; [exact H|].
  exact (@fetch_retries_after_rejection _ SampleRequests.engine SampleRequests.coercion
           (SampleRequests.fails_once a) SampleRequests.stream SampleRequests.batch
           req H eq_refl).
Defined.

(** X4 at a chat request answered by a single document. *)
Lemma rewritten_only_for_deepseek_witness :
  let req := SampleRequests.request SampleRequests.chat in
  let a := SampleRequests.single Sample.reasoned_doc in
  let d := Replied (SampleRequests.batch (reply a)) in
  SampleRequests.fetch (SampleRequests.answers a) req = (d, 1)
  /\ (forall p, d <> Untouched p)
  /\ exists s text parsedBody model,
       url req = UrlText s
       /\ includes s DEEPSEEK_API_URL = true
       /\ requestBody req = Some text
       /\ @JSON_parse _ SampleRequests.engine text = Some parsedBody
       /\ prop "model" parsedBody = Some model
       /\ (includes_method model "deepseek" = Normal true
           \/ includes_method model "reasoning" = Normal true)
       /\ @isTitleRequest _ SampleRequests.engine SampleRequests.coercion parsedBody
          = Normal false
       /\ 1 = 1.
Proof.
  intros req a d.
  assert (H : SampleRequests.fetch (SampleRequests.answers a) req = (d, 1))
    by reflexivity.
  assert (Hd : forall p, d <> Untouched p) by discriminate.
  split; [exact H|]. split; [exact Hd|].
  exact (@rewritten_only_for_deepseek _ SampleRequests.engine SampleRequests.coercion
           (SampleRequests.answers a) SampleRequests.stream SampleRequests.batch
           req d 1 H Hd).
Defined.

(** X5 at the title request: the prompt is the last of two messages. *)
Lemma title_request_last_message_witness :
  let msgs :=
    [SampleRequests.message (JStr "hello");
     SampleRequests.message
       (JStr (TITLE_PROMPT ++ " Reply with the title only."))] in
  prop "messages" SampleRequests.title = Some (JArr msgs)
  /\ (@isTitleRequest _ SampleRequests.engine SampleRequests.coercion
        SampleRequests.title = Normal true
      <-> exists earlier m s,
            msgs = earlier ++ [m]
            /\ prop "content" m = Some (JStr s)
            /\ startsWith s TITLE_PROMPT = true).
Proof.
  intros msgs.
  assert (H : prop "messages" SampleRequests.title = Some (JArr msgs)) by reflexivity.
  split; [exact H|].
  exact (@title_request_last_message _ SampleRequests.engine SampleRequests.coercion
           SampleRequests.title msgs H).
Defined.

(** X6 at a message whose content is a list of parts. *)
Lemma content_parts_fall_back_witness :
  let req := SampleRequests.request SampleRequests.parts in
  let c := JArr [JObj [("type", JStr "text"); ("text", JStr "hello")]] in
  let net := SampleRequests.answers (SampleRequests.streamed SampleRequests.reasoned) in
  requestBody req = Some (Sample.stringify SampleRequests.parts)
  /\ @JSON_parse _ SampleRequests.engine (Sample.stringify SampleRequests.parts)
     = Some SampleRequests.parts
  /\ prop "messages" SampleRequests.parts
     = Some (JArr ([] ++ [SampleRequests.message c]))
  /\ prop "content" (SampleRequests.message c) = Some c
  /\ truthy c = true
  /\ (forall s, c <> JStr s)
  /\ SampleRequests.fetch net req = (Untouched (net 0), 1).
Proof.
  intros req c net.
  assert (H1 : requestBody req = Some (Sample.stringify SampleRequests.parts))
    by reflexivity.
  assert (H2 : @JSON_parse _ SampleRequests.engine (Sample.stringify SampleRequests.parts)
               = Some SampleRequests.parts) by reflexivity.
  assert (H3 : prop "messages" SampleRequests.parts
               = Some (JArr ([] ++ [SampleRequests.message c]))) by reflexivity.
  assert (H4 : prop "content" (SampleRequests.message c) = Some c) by reflexivity.
  assert (H5 : truthy c = true) by reflexivity.
  assert (H6 : forall s, c <> JStr s) by discriminate.
  repeat (split; [assumption|]).
  exact (@content_parts_fall_back _ SampleRequests.engine SampleRequests.coercion
           net SampleRequests.stream SampleRequests.batch req _ _ [] _ c
           H1 H2 H3 H4 H5 H6).
Defined.

(** X7 at a chat request answered by an event stream without reasoning. *)
Lemma fetch_transparent_witness :
  let req := SampleRequests.request SampleRequests.chat in
  let chunks := [lines_text [Sample.data_line Sample.answer; Sample.sentinel]] in
  let a := SampleRequests.streamed chunks in
  @wants_rewrite _ SampleRequests.engine SampleRequests.coercion req = true
  /\ Forall (fun line => ~ @carries_reasoning _ SampleRequests.engine line)
            (complete_lines (text_of chunks))
  /\ Forall (fun line => ~ @captures _ SampleRequests.engine line)
            (complete_lines (text_of chunks))
  /\ text_of chunks = bytes_of chunks
  /\ exists out,
       SampleRequests.fetch (SampleRequests.answers a) req
       = (Streamed (reply a) (out, Closed), 1)
       /\ out = [Forward (Sample.data_line Sample.answer); Forward Sample.sentinel]
       /\ (encode_all (RT := SampleRequests.engine) out
             ++ partial_line (bytes_of chunks))%string
          = bytes_of chunks.
Proof.
  intros req chunks a.
  assert (Hw : @wants_rewrite _ SampleRequests.engine SampleRequests.coercion req = true)
    by reflexivity.
  assert (Hr : Forall (fun line => ~ @carries_reasoning _ SampleRequests.engine line)
                      (complete_lines (text_of chunks))).
  { change (complete_lines (text_of chunks))
      with [Sample.data_line Sample.answer; Sample.sentinel].
    repeat constructor; no_such_event. }
  assert (Hc : Forall (fun line => ~ @captures _ SampleRequests.engine line)
                      (complete_lines (text_of chunks))).
  { change (complete_lines (text_of chunks))
      with [Sample.data_line Sample.answer; Sample.sentinel].
    repeat constructor; no_such_event. }
  assert (Hb : text_of chunks = bytes_of chunks) by reflexivity.
  split; [exact Hw|]. split; [exact Hr|]. split; [exact Hc|]. split; [exact Hb|].
  destruct (proj1 (@fetch_transparent _ SampleRequests.engine SampleRequests.coercion
                     (SampleRequests.answers a) Sample.clock req a Hw eq_refl)
                  chunks eq_refl eq_refl eq_refl Hr Hc)
    as (out & E & Ho & _ & Hbytes).
  exists out. split; [exact E|]. split; [exact Ho|]. exact (Hbytes Hb).
Defined.

(** X8 at a reasoning event followed by an answer, after a byte order
    mark. *)
Lemma first_script_renders_nothing_witness :
  let r := Sample.data_line Sample.reasoning_null in
  let c := Sample.data_line Sample.answer in
  let chunks := [BOM; lines_text [r; c]] in
  let run := @ReasonA.processStreamingResponse _ Sample.engine Sample.clock
               chunks in
  snd run = Closed
  /\ filter not_footer (fst run) = map Forward [r; c].
Proof.
  intros r c chunks run.
  assert (H : snd run = Closed) by reflexivity.
  split; [exact H|].
  exact (proj2 (proj2 (@first_script_renders_nothing _ Sample.engine Sample.clock
                         chunks)) H).
Defined.

(** X9 at citations that are a string, followed by the sentinel. *)
Lemma odd_citations_stop_at_sentinel_witness :
  let cline := Sample.data_line Sample.odd_citations_doc in
  let chunks := [lines_text [cline; Sample.sentinel]] in
  complete_lines (text_of chunks) = [] ++ cline :: [] ++ Sample.sentinel :: []
  /\ @data_event _ Sample.engine cline Sample.odd_citations_doc
  /\ prop "citations" Sample.odd_citations_doc = Some (JStr "u")
  /\ @ReasonA.processStreamingResponse _ Sample.engine Sample.clock chunks
     = ([Forward cline], Errored).
Proof.
  intros cline chunks.
  assert (Hl : complete_lines (text_of chunks)
               = [] ++ cline :: [] ++ Sample.sentinel :: []) by reflexivity.
  assert (Hd : @data_event _ Sample.engine cline Sample.odd_citations_doc)
    by (repeat split; reflexivity).
  assert (Hc : prop "citations" Sample.odd_citations_doc = Some (JStr "u"))
    by reflexivity.
  split; [exact Hl|]. split; [exact Hd|]. split; [exact Hc|].
  exact (@odd_citations_stop_at_sentinel _ Sample.engine Sample.clock chunks
           [] [] [] cline Sample.sentinel Sample.odd_citations_doc (JStr "u")
           Hl (Forall_nil _) Hd Hc eq_refl eq_refl (Forall_nil _) eq_refl).
Defined.

(** X10 at citations that are a string, followed by an answer. *)
Lemma odd_citations_stop_at_done_witness :
  let cline := Sample.data_line Sample.odd_citations_doc in
  let answer := Sample.data_line Sample.answer in
  let chunks := [lines_text [cline; answer]] in
  complete_lines (text_of chunks) = [] ++ cline :: [answer]
  /\ @data_event _ Sample.engine cline Sample.odd_citations_doc
  /\ prop "citations" Sample.odd_citations_doc = Some (JStr "u")
  /\ snd (@PartC.processStreamingResponse _ Sample.engine Sample.clock chunks)
     = Errored
  /\ snd (@PartD.processStreamingResponse _ Sample.engine Sample.clock chunks)
     = Errored.
Proof.
  intros cline answer chunks.
  assert (Hl : complete_lines (text_of chunks) = [] ++ cline :: [answer])
    by reflexivity.
  assert (Hd : @data_event _ Sample.engine cline Sample.odd_citations_doc)
    by (repeat split; reflexivity).
  assert (Hc : prop "citations" Sample.odd_citations_doc = Some (JStr "u"))
    by reflexivity.
  split; [exact Hl|]. split; [exact Hd|]. split; [exact Hc|].
  destruct (@odd_citations_stop_at_done _ Sample.engine Sample.clock chunks
              [] [answer] cline Sample.odd_citations_doc (JStr "u")
              Hl (Forall_nil _) Hd Hc eq_refl eq_refl eq_refl)
    as [(b1 & E1 & _) (b2 & E2 & _)].
  split; [now rewrite E1 | now rewrite E2].
Defined.

(** X11 at a reasoning event followed by an answer. *)
Lemma second_part_markers_witness :
  let r := Sample.data_line Sample.reasoning_null in
  let c := Sample.data_line Sample.answer in
  let chunks := [lines_text [r; c]] in
  let out := fst (@PartD.processStreamingResponse _ Sample.engine Sample.clock chunks) in
  complete_lines (text_of chunks) = [] ++ r :: [] ++ c :: []
  /\ @reasoning_line _ Sample.engine PartD.reasoning_test r
  /\ @content_line _ Sample.engine c
  /\ count is_header out = 1
  /\ count is_separator out = 1.
Proof.
  intros r c chunks out.
  assert (Hl : complete_lines (text_of chunks) = [] ++ r :: [] ++ c :: [])
    by reflexivity.
  assert (Hr : @reasoning_line _ Sample.engine PartD.reasoning_test r).
  { exists Sample.reasoning_null,
           (JObj [("reasoning", JStr "a"); ("content", JNull)]).
    repeat split; reflexivity. }
  assert (Hc : @content_line _ Sample.engine c).
  { exists Sample.answer, (JObj [("content", JStr "hi")]), "hi".
    repeat split; try reflexivity. discriminate. }
  repeat (split; [assumption|]).
  destruct (@second_part_markers Sample.numbers Sample.engine Sample.clock chunks)
    as (_ & _ & _ & _ & Hh & Hs).
  split.
  - apply Hh. rewrite Hl. now left.
  - exact (Hs [] r [] c [] Hl Hr Hc).
Defined.

(** X12 at a stream of a citation event, an answer and the sentinel. *)
Lemma second_part_footer_witness :
  let cline := Sample.data_line Sample.cited in
  let answer := Sample.data_line Sample.answer in
  let chunks := [lines_text [cline; answer; Sample.sentinel]] in
  complete_lines (text_of chunks) = [] ++ cline :: [answer; Sample.sentinel]
  /\ @cites _ Sample.engine cline [JStr "u"; JStr "v"]
  /\ @rendered Sample.numbers [JStr "u"; JStr "v"] ["u"; "v"]
  /\ exists body,
       @PartD.processStreamingResponse _ Sample.engine Sample.clock chunks
       = (body ++ [Footer (bare_event (RULE ++ "[1]> u" ++ nl ++ "[2]> v"))], Closed)
       /\ count is_footer body = 0
       /\ In (Forward Sample.sentinel) body.
Proof.
  intros cline answer chunks.
  assert (Hl : complete_lines (text_of chunks)
               = [] ++ cline :: [answer; Sample.sentinel]) by reflexivity.
  assert (Hc : @cites _ Sample.engine cline [JStr "u"; JStr "v"]).
  { exists Sample.cited. repeat split; reflexivity. }
  assert (Hr : @rendered Sample.numbers [JStr "u"; JStr "v"] ["u"; "v"])
    by reflexivity.
  split; [exact Hl|]. split; [exact Hc|]. split; [exact Hr|].
  assert (Hne : [JStr "u"; JStr "v"] <> @nil (@json Sample.numbers))
    by discriminate.
  destruct (@second_part_footer _ Sample.engine Sample.clock chunks
              [] [answer; Sample.sentinel] cline [JStr "u"; JStr "v"] ["u"; "v"]
              Hl (Forall_nil _) Hc Hne Hr)
    as (body & E & Hf & Hs).
  exists body. split; [exact E|]. split; [exact Hf|].
  apply Hs; [|reflexivity]. rewrite Hl. right. right. now left.
Defined.

(** X13 at a reasoning event, an answer and the sentinel, read 1.4 seconds
    apart. *)
Lemma thinking_time_measured_witness :
  let r := Sample.data_line Sample.reasoning_null in
  let c := Sample.data_line Sample.answer in
  let chunks := [lines_text [r; c; Sample.sentinel]] in
  complete_lines (text_of chunks) = [] ++ r :: [] ++ c :: [Sample.sentinel]
  /\ @reasoning_line _ Sample.engine ReasonB.reasoning_test r
  /\ @content_line _ Sample.engine c
  /\ exists o j post,
       fst (@PartC.processStreamingResponse _ Sample.engine Sample.clock chunks)
       = o ++ Separator j :: Forward c :: post
       /\ event_content j = Some (JStr (separator_text 1)).
Proof.
  intros r c chunks.
  assert (Hl : complete_lines (text_of chunks)
               = [] ++ r :: [] ++ c :: [Sample.sentinel]) by reflexivity.
  assert (Hr : @reasoning_line _ Sample.engine ReasonB.reasoning_test r).
  { exists Sample.reasoning_null,
           (JObj [("reasoning", JStr "a"); ("content", JNull)]).
    repeat split; reflexivity. }
  assert (Hc : @content_line _ Sample.engine c).
  { exists Sample.answer, (JObj [("content", JStr "hi")]), "hi".
    repeat split; try reflexivity. discriminate. }
  repeat (split; [assumption|]).
  exact (proj1 (proj2 (@thinking_time_measured _ Sample.engine Sample.clock chunks
                         [] [] [Sample.sentinel] r c Hl (Forall_nil _) Hr
                         (Forall_nil _) Hc))).
Defined.

(** X16 at a document with reasoning and citations, in a response whose
    headers name no content type. *)
Lemma batch_rewrite_keeps_rest_witness :
  let response :=
    {| status := 200; statusText := "OK"; headers := [("x-request", "7")];
       body := Sample.stringify Sample.reasoned_cited_doc |} in
  let fields := [("content", JStr "c");
                 ("reasoning", JStr ("a" ++ nl ++ nl ++ "b"))] in
  let choice := JObj [("message", JObj fields)] in
  let props := [("choices", JArr [choice]);
                ("citations", JArr [JStr "u"; JStr "v"])] in
  let result := @ReasonB.processNonStreamingResponse _ Sample.engine response in
  @JSON_parse _ Sample.engine (body response) = Some (JObj props)
  /\ status result = 200
  /\ headers result
     = [("content-type", "text/plain;charset=UTF-8"); ("x-request", "7")]
  /\ exists data',
       body result = Sample.stringify data'
       /\ prop "citations" data' = Some (JArr [JStr "u"; JStr "v"])
       /\ opt_prop "reasoning" (opt_prop "message" (first_choice data'))
          = Some (JStr ("a" ++ nl ++ nl ++ "b")).
Proof.
  intros response fields choice props result.
  assert (Hp : @JSON_parse _ Sample.engine (body response) = Some (JObj props))
    by reflexivity.
  split; [exact Hp|].
  destruct (@batch_rewrite_keeps_rest _ Sample.engine SPACED DOUBLE_RULE response
              props choice [] fields Hp eq_refl eq_refl)
    as [Hsame | (text & props' & choice' & fields' & Hst & _ & Hh & _ & _ & E
                 & _ & Hk & Hc & _ & _ & Hm & Hf & _)].
  - apply (f_equal body) in Hsame. vm_compute in Hsame. discriminate.
  - split; [exact Hst|]. split; [exact Hh|].
    exists (JObj props'). split; [exact E|]. split.
    + cbn [prop]. rewrite Hk by discriminate. reflexivity.
    + unfold first_choice. cbn [opt_prop prop]. rewrite Hc.
      cbn [opt_index0 index0 hd_error opt_prop].
      destruct choice'; try discriminate. rewrite Hm. cbn [opt_prop prop].
      rewrite Hf by discriminate. reflexivity.
Defined.

(** X17 at a stream of a citation event, an answer and the sentinel. *)
Lemma second_script_footer_witness :
  let cline := Sample.data_line Sample.cited in
  let answer := Sample.data_line Sample.answer in
  let chunks := [lines_text [cline; answer; Sample.sentinel]] in
  complete_lines (text_of chunks) = [] ++ cline :: [answer] ++ [Sample.sentinel]
  /\ @cites _ Sample.engine cline [JStr "u"; JStr "v"]
  /\ @rendered Sample.numbers [JStr "u"; JStr "v"] ["u"; "v"]
  /\ exists body tail,
       @ReasonB.processStreamingResponse _ Sample.engine Sample.clock chunks
       = (body ++ Footer (citations_message ("[1] > u" ++ nl ++ "[2] > v"))
               :: Forward Sample.sentinel :: tail, Closed)
       /\ count is_footer body = 0
       /\ count is_footer tail = 0.
Proof.
  intros cline answer chunks.
  assert (Hl : complete_lines (text_of chunks)
               = [] ++ cline :: [answer] ++ [Sample.sentinel]) by reflexivity.
  assert (Hc : @cites _ Sample.engine cline [JStr "u"; JStr "v"]).
  { exists Sample.cited. repeat split; reflexivity. }
  assert (Hr : @rendered Sample.numbers [JStr "u"; JStr "v"] ["u"; "v"])
    by reflexivity.
  split; [exact Hl|]. split; [exact Hc|]. split; [exact Hr|].
  refine (proj2 (@second_script_footer _ Sample.engine Sample.clock chunks
                   [] [answer] [Sample.sentinel] cline [JStr "u"; JStr "v"]
                   ["u"; "v"] Hl (Forall_nil _) Hc Hr _)
                Sample.sentinel [] eq_refl eq_refl (Forall_nil _)).
  repeat constructor.
Defined.

(** X18 at a stream of a citation event, a reasoning event, an answer, a line
    that is not JSON and the sentinel. *)
Lemma stream_closes_on_listed_citations_witness :
  let lines := [Sample.data_line Sample.cited;
                Sample.data_line Sample.reasoning_null;
                Sample.data_line Sample.answer;
                Sample.malformed; Sample.sentinel] in
  let chunks := [lines_text lines] in
  Forall (@listed_citations _ Sample.engine) (complete_lines (text_of chunks))
  /\ snd (@ReasonB.processStreamingResponse _ Sample.engine Sample.clock chunks)
     = Closed
  /\ snd (@PartD.processStreamingResponse _ Sample.engine Sample.clock chunks)
     = Closed.
Proof.
  intros lines chunks.
  assert (H : Forall (@listed_citations _ Sample.engine)
                     (complete_lines (text_of chunks))).
  { change (complete_lines (text_of chunks)) with lines.
    repeat constructor; intros data c (Hm & Hd & Hp) Hc Ht;
      vm_compute in Hm; vm_compute in Hd; vm_compute in Hp;
      try discriminate; injection Hp as <-;
      vm_compute in Hc; try discriminate; injection Hc as <-;
      exists [JStr "u"; JStr "v"], ["u"; "v"]; split; reflexivity. }
  split; [exact H|].
  destruct (@stream_closes_on_listed_citations _ Sample.engine Sample.clock chunks H)
    as (_ & HB & _ & HD).
  now split.
Defined.

(** X19 at a second reasoning event. *)
Lemma reasoning_continues_witness :
  let line := Sample.data_line Sample.reasoning_null in
  let delta := JObj [("reasoning", JStr "a"); ("content", JNull)] in
  let choice := JObj [("delta", delta)] in
  let st := set_reasoningStarted true (set_startThinkingTime 0 ReasonB.initial) in
  @data_event _ Sample.engine line Sample.reasoning_null
  /\ exists st',
       @ReasonB.process_line _ Sample.engine 1400 line st
       = ([Fragment (spread_event Sample.reasoning_null choice (quote_breaks "a"))],
          st', Normal tt)
       /\ startThinkingTime st' = Some 0.
Proof.
  intros line delta choice st.
  assert (H : @data_event _ Sample.engine line Sample.reasoning_null)
    by (repeat split; reflexivity).
  split; [exact H|].
  assert (Hs : "a" <> EmptyString) by discriminate.
  destruct (proj1 (@reasoning_continues _ Sample.engine 1400 line
                     Sample.reasoning_null choice delta "a" st
                     H eq_refl eq_refl eq_refl Hs eq_refl eq_refl))
    as (st' & E & _ & _ & Ht).
  exists st'. split; [exact E | exact Ht].
Defined.

(** X20 at an empty list of citations followed by a list of two. *)
Lemma empty_citations_no_footer_witness :
  let cline := Sample.data_line SampleRequests.uncited in
  let later := Sample.data_line Sample.cited in
  let chunks := [lines_text [cline; later; Sample.sentinel]] in
  complete_lines (text_of chunks) = [] ++ cline :: [later; Sample.sentinel]
  /\ @cites _ SampleRequests.engine cline []
  /\ snd (@PartC.processStreamingResponse _ SampleRequests.engine Sample.clock chunks)
     = Closed
  /\ count is_footer
       (fst (@PartC.processStreamingResponse _ SampleRequests.engine Sample.clock
               chunks)) = 0.
Proof.
  intros cline later chunks.
  assert (Hl : complete_lines (text_of chunks)
               = [] ++ cline :: [later; Sample.sentinel]) by reflexivity.
  assert (Hc : @cites _ SampleRequests.engine cline []).
  { exists SampleRequests.uncited. repeat split; reflexivity. }
  split; [exact Hl|]. split; [exact Hc|].
  exact (proj1 (@empty_citations_no_footer _ SampleRequests.engine Sample.clock
                  chunks [] [later; Sample.sentinel] cline Hl (Forall_nil _) Hc)).
Defined.
